(** * VoiceNotebook-QA: the analytics and gamification engine

    A shallow embedding of the TypeScript services
    [AnalyticsStorageService], [AnalyticsCalculationService],
    [AnalyticsService], [AnalyticsCollectionService] and
    [GamificationService], followed by the properties proved about them.

    Conventions of the embedding.
    - A JavaScript [number] that counts things is a [Z]; one that can be
      fractional (durations, minutes, targets, rates) is an exact rational
      [Q], so [/] is exact division and [Math.round] is [floor (x + 1/2)].
    - A [Date] is its millisecond timestamp, a [Z].  Calendar operations are
      taken in UTC: a day has 86400000 ms, local midnight is the start of the
      UTC day, and the ISO date key of a timestamp is its day number.
    - The IndexedDB database, the wall clock and the private fields of the
      service objects form one [World]; an [async] method is a function in
      the state-and-exception monad [M] over it.  Every awaited Dexie request
      consumes one entry of [faults], which says whether the request is
      rejected. *)

From Stdlib Require Import Ascii ZArith QArith Qround Qminmax Lqa Lia Sorted Permutation.
From stdpp Require Import base list strings gmap pretty.

Local Open Scope Z_scope.

(** ** JavaScript library functions used by the services *)

Module JS.

Definition Math_round (x : Q) : Z := Qfloor (x + (1 # 2)).

Definition Math_min (x y : Q) : Q := Qmin x y.

Definition Math_max (x y : Q) : Q := Qmax x y.

(** [Math.floor (Math.sqrt x)] for an integer [x >= 0]. *)
Definition floor_sqrt (x : Z) : Z := Z.sqrt x.

(** [Array.prototype.sort (compareFn)]: a stable sort; [x] is placed before
    [y] when [compareFn x y <= 0] and [x] came first. *)
Section Sort.
Context {A : Type} (compareFn : A → A → Z).

Fixpoint insert (x : A) (l : list A) : list A :=
  match l with
  | [] => [x]
  | y :: l' =>
      if decide (compareFn x y ≤ 0) then x :: y :: l' else y :: insert x l'
  end.

Definition sort (l : list A) : list A := foldr insert [] l.

End Sort.

(** Comparisons of rationals are decided on the cross products. *)
#[global] Instance Qlt_decision (x y : Q) : Decision (x < y)%Q.
Proof. unfold Qlt. apply _. Defined.

#[global] Instance Qle_decision (x y : Q) : Decision (x <= y)%Q.
Proof. unfold Qle. apply _. Defined.

#[global] Instance Qeq_decision (x y : Q) : Decision (x == y)%Q.
Proof. unfold Qeq. apply _. Defined.

(** The index arithmetic of [Array.prototype.slice]. *)
Definition relativeIndex (len i : Z) : Z :=
  if decide (i < 0) then Z.max (len + i) 0 else Z.min i len.

Definition slice {A : Type} (start : Z) (end_ : option Z) (l : list A) : list A :=
  let len := Z.of_nat (length l) in
  let k := relativeIndex len start in
  let final := match end_ with None => len | Some e => relativeIndex len e end in
  take (Z.to_nat (final - k)) (drop (Z.to_nat k) l).

(** [String.prototype.replace (pattern, replacement)] with a string pattern:
    only the first occurrence is replaced. *)
Fixpoint replace (pattern replacement s : string) : string :=
  if String.prefix pattern s
  then replacement +:+ String.substring (String.length pattern) (String.length s - String.length pattern) s
  else match s with
       | EmptyString => EmptyString
       | String c s' => String c (replace pattern replacement s')
       end.

(** Whether every character of the string is an ASCII character. *)
Fixpoint isAscii (s : string) : bool :=
  match s with
  | EmptyString => true
  | String c s' => bool_decide (Ascii.nat_of_ascii c < 128)%nat && isAscii s'
  end.

(** [String.prototype.includes]. *)
Fixpoint includes (s pattern : string) : bool :=
  String.prefix pattern s ||
  match s with
  | EmptyString => false
  | String _ s' => includes s' pattern
  end.

(** [String.prototype.toLowerCase] on ASCII text, where a string is the
    sequence of its characters and lower case touches the letters A to Z
    only.  JavaScript lowers other letters as well and can lengthen the
    string; what is stated about lower case is stated for ASCII text. *)
Fixpoint toLowerCase (s : string) : string :=
  match s with
  | EmptyString => EmptyString
  | String c s' =>
      let n := Ascii.nat_of_ascii c in
      String (if decide (65 ≤ n ≤ 90)%nat then Ascii.ascii_of_nat (n + 32) else c)
             (toLowerCase s')
  end.

(** [Array.prototype.join]. *)
Definition join (sep : string) (l : list string) : string := String.concat sep l.

(** Sum of a numeric array, as [reduce ((sum, x) => sum + f x, 0)]. *)
Definition sumZ {A : Type} (f : A → Z) (l : list A) : Z :=
  foldl (λ sum x, sum + f x) 0 l.

Definition sumQ {A : Type} (f : A → Q) (l : list A) : Q :=
  foldl (λ sum x, (sum + f x)%Q) 0%Q l.

End JS.

(** ** Numbers *)

(** JavaScript numbers are doubles.  The embedding computes with integers
    and exact rationals, which agrees with the doubles where every
    intermediate double is a whole number of at most [wholeLimit] in size
    or is rounded to the same whole number.  A statement about the value
    of a computation names the range for which it is made. *)
Definition wholeLimit : Z := 1000000000000.

(** ** Dates *)

Definition msPerMinute : Z := 60000.
Definition msPerHour : Z := 3600000.
Definition msPerDay : Z := 86400000.

(** [date.getHours ()] on a device that keeps UTC; elsewhere the hours
    are shifted by the offset of the zone.  What is stated about hours
    holds for every such shift. *)
Definition getHours (t : Z) : Z := (t / msPerHour) mod 24.

(** Local time.  A time zone [zone] gives for every instant the offset of
    the local clock from UTC in milliseconds; [t + zone t] is what the
    local clock shows at [t], and its day is the local calendar day. *)
Definition localDay (zone : Z → Z) (t : Z) : Z := (t + zone t) / msPerDay.

(** The timestamp after [date.setHours (hours, minutes, seconds, ms)]: the
    instant of the local day of [t] at which the local clock shows that
    time.  The offset is the one in force at that instant, found from the
    offset at [t]; this is the instant JavaScript takes unless the zone
    skips or repeats that clock time. *)
Definition setHours (zone : Z → Z) (hours minutes seconds ms : Z) (t : Z) : Z :=
  let clock :=
    localDay zone t * msPerDay
    + hours * msPerHour + minutes * msPerMinute + seconds * 1000 + ms in
  clock - zone (clock - zone t).

(** The timestamp after [date.setHours (0, 0, 0, 0)]: local midnight. *)
Definition setHoursZero (zone : Z → Z) (t : Z) : Z := setHours zone 0 0 0 0 t.

(** The zone of a device that keeps UTC. *)
Definition utcZone : Z → Z := λ _, 0.

(** [date.toISOString ().split ('T') [0]], as a day number. *)
Definition formatDateKey (t : Z) : Z := t / msPerDay.

(** [a.toDateString () === b.toDateString ()] on a device that keeps
    UTC. *)
Definition sameDateString (a b : Z) : bool :=
  bool_decide (formatDateKey a = formatDateKey b).

(** ** Data model (types/analytics.ts, types/index.ts) *)

Inductive EventType :=
  | voice_recording_started
  | voice_recording_completed
  | voice_recording_failed
  | file_upload_started
  | file_upload_completed
  | file_upload_failed
  | search_performed
  | search_result_clicked
  | item_deleted
  | item_viewed
  | session_started
  | session_ended
  | goal_created
  | goal_completed
  | achievement_unlocked
  | feature_used
  | error_occurred.

#[global] Instance EventType_eq_dec : EqDecision EventType.
Proof. solve_decision. Defined.

(** A property value of an event payload. *)
Inductive JsValue :=
  | JsNumber (q : Q)
  | JsString (s : string)
  | JsBoolean (b : bool)
  | JsDate (t : Z)
  | JsUndefined.

(** [EventData] is an open object ([[key: string]: any]). *)
Abbreviation EventData := (gmap string JsValue).

(** [data.key || 0] for a numeric property. *)
Definition numberOr0 (data : EventData) (key : string) : Q :=
  match data !! key with
  | Some (JsNumber q) => q
  | _ => 0%Q
  end.

(** Identifiers of the shape [prefix_${Date.now()}_${random}]: the clock
    reading and the random suffix. *)
Definition UniqueId : Type := Z * nat.

Record AnalyticsEvent := {
  event_id : UniqueId;
  event_type : EventType;
  event_timestamp : Z;
  event_sessionId : UniqueId;
  event_data : EventData;
}.

Record DailyUsageData := {
  date : Z;
  recordingMinutes : Q;
  documentsProcessed : Z;
  searchCount : Z;
  timeSpent : Q;
  sessionsCount : Z;
  itemsCreated : Z;
  itemsDeleted : Z;
  productivityScore : Z;
}.

Inductive Trend := up | down | stable.

Record WeeklyUsageData := {
  weekStart : Z;
  weekEnd : Z;
  totalRecordingMinutes : Q;
  totalDocuments : Z;
  week_totalSearches : Z;
  week_totalTimeSpent : Q;
  averageDailyUsage : Q;
  peakDay : string;
  productivityTrend : Trend;
}.

Inductive MilestoneType :=
  | first_recording
  | first_upload
  | first_search
  | items_milestone
  | search_milestone
  | streak_milestone
  | time_milestone
  | productivity_milestone.

#[global] Instance MilestoneType_eq_dec : EqDecision MilestoneType.
Proof. solve_decision. Defined.

Record Milestone := {
  milestone_id : string;
  milestone_type : MilestoneType;
  milestone_title : string;
  milestone_description : string;
  achievedDate : Z;
  milestone_value : Z;
  milestone_icon : string;
}.

Record MonthlyUsageData := {
  month : Z;
  year : Z;
  month_totalItems : Z;
  month_totalSearches : Z;
  month_totalTimeSpent : Q;
  averageWeeklyUsage : Q;
  growthRate : Q;
  milestones : list Milestone;
}.

Record SearchTerm := {
  term : string;
  term_count : Z;
  lastSearched : Z;
  averageResultsFound : Q;
}.

Record ContentCategory := {
  category_name : string;
  category_count : Z;
  percentage : Q;
  averageLength : Q;
  lastUpdated : Z;
  tags : list string;
}.

Record UserAnalytics := {
  totalItems : Z;
  voiceRecordings : Z;
  documentsUploaded : Z;
  searchesPerformed : Z;
  dailyUsage : list DailyUsageData;
  weeklyUsage : list WeeklyUsageData;
  monthlyUsage : list MonthlyUsageData;
  ua_productivityScore : Z;
  streakDays : Z;
  level : Z;
  xp : Z;
  peakUsageHours : list Z;
  mostActiveDay : string;
  averageSessionDuration : Q;
  totalTimeSpent : Q;
  mostSearchedTerms : list SearchTerm;
  contentCategories : list ContentCategory;
  averageContentLength : Q;
  lastActiveDate : Z;
  accountCreatedDate : Z;
  totalSessions : Z;
  averageItemsPerSession : Q;
}.

Inductive GoalType :=
  | daily_recordings
  | daily_uploads
  | daily_searches
  | weekly_items
  | monthly_items
  | streak_days
  | productivity_score
  | time_spent.

Definition GoalType_name (t : GoalType) : string :=
  match t with
  | daily_recordings => "daily_recordings"
  | daily_uploads => "daily_uploads"
  | daily_searches => "daily_searches"
  | weekly_items => "weekly_items"
  | monthly_items => "monthly_items"
  | streak_days => "streak_days"
  | productivity_score => "productivity_score"
  | time_spent => "time_spent"
  end.

Inductive GoalStatus := active | completed | paused | failed.

#[global] Instance GoalStatus_eq_dec : EqDecision GoalStatus.
Proof. solve_decision. Defined.

(** ['low' | 'medium' | 'high'], used for priorities and impacts. *)
Inductive Grade := low | medium | high.

Record Goal := {
  goal_id : string;
  goal_type : GoalType;
  goal_title : string;
  goal_description : string;
  target : Q;
  current : Q;
  unit_ : string;
  deadline : Z;
  createdDate : Z;
  status : GoalStatus;
  priority : Grade;
  goal_category : string;
}.

(** The [Partial<Goal>] objects the services build: [current] is always
    set, [status] sometimes, nothing else. *)
Record GoalUpdates := {
  updates_current : Q;
  updates_status : option GoalStatus;
}.

Inductive InsightType :=
  | usage_pattern
  | productivity_trend
  | content_analysis
  | search_behavior
  | time_optimization
  | goal_progress.

Record ProductivityInsight := {
  insight_id : string;
  insight_type : InsightType;
  insight_title : string;
  insight_description : string;
  impact : Grade;
  insight_category : string;
  actionable : bool;
  relatedMetrics : list string;
  generatedDate : Z;
}.

Inductive ContentType := voice | file.

#[global] Instance ContentType_eq_dec : EqDecision ContentType.
Proof. solve_decision. Defined.

(** [ContentItem]; its [metadata] (blobs and file handles) is not read by
    the analytics code and is left out. *)
Record ContentItem := {
  item_id : string;
  item_type : ContentType;
  item_title : string;
  content : string;
  item_timestamp : Z;
}.

Inductive Rarity := common | rare | epic | legendary.

(** [Achievement], with the fields the gamification service fills in. *)
Record Achievement := {
  achievement_id : string;
  achievement_title : string;
  achievement_description : string;
  achievement_icon : string;
  achievement_category : string;
  progress : Q;
  maxProgress : Q;
  unlocked : bool;
  unlockedAt : Z;
  achievement_rarity : Rarity;
}.

Inductive RequirementType := req_count | req_streak | req_time | req_score | req_combo.

Inductive Timeframe := daily | weekly | monthly | all_time.

Record AchievementRequirement := {
  requirement_type : RequirementType;
  metric : string;
  requirement_value : Q;
  timeframe : option Timeframe;
}.

Record AchievementDefinition := {
  definition_id : string;
  definition_title : string;
  definition_description : string;
  definition_icon : string;
  definition_category : string;
  definition_rarity : Rarity;
  requirements : list AchievementRequirement;
  xpReward : Z;
  hidden : bool;
}.

(** ** AnalyticsCalculationService (pure calculations) *)

Module AnalyticsCalculationService.

(** The body of the [for] loop of [calculateProductivityScore]: the score
    of one day.  For a day with whole counters and a whole number of hours
    every term is a whole number, on doubles as here; for other times
    spent the doubles carry a rounding error that the rational does not
    have. *)
Definition dayScore (day : DailyUsageData) : Q :=
  let dayScore := 0%Q in
  let contentScore := JS.Math_min (inject_Z (itemsCreated day * 10)) 40 in
  let dayScore := (dayScore + contentScore)%Q in
  let searchScore := JS.Math_min (inject_Z (searchCount day * 2)) 20 in
  let dayScore := (dayScore + searchScore)%Q in
  let timeScore := JS.Math_min ((timeSpent day / 60) * 10)%Q 20 in
  let dayScore := (dayScore + timeScore)%Q in
  let consistencyScore := if decide (0 < itemsCreated day) then 20%Q else 0%Q in
  (dayScore + consistencyScore)%Q.

(** The mean of at most seven day scores, rounded by [Math.round].  On
    days with whole counters and whole hours the sum is a whole number of
    at most 700 and the rounded quotient is the one of the doubles. *)
Definition calculateProductivityScore
    (dailyUsage : list DailyUsageData) (contentItems : list ContentItem) : Z :=
  if decide (length dailyUsage = 0%nat) then 0
  else
    let recentDays := JS.slice (-7) None dailyUsage in
    let totalScore :=
      foldl (λ totalScore day, (totalScore + JS.Math_min (dayScore day) 100)%Q)
            0%Q recentDays in
    JS.Math_round (totalScore / inject_Z (Z.of_nat (length recentDays))).

(** [hourCounts] after the [forEach] of [analyzePeakUsageHours]. *)
Definition hourCounts (events : list AnalyticsEvent) : list Z :=
  foldl (λ counts event,
           alter Z.succ (Z.to_nat (getHours (event_timestamp event))) counts)
        (replicate 24 0) events.

Definition analyzePeakUsageHours (events : list AnalyticsEvent) : list Z :=
  let hourCounts := hourCounts events in
  let hourIndices := seqZ 0 24 in
  let hourIndices :=
    JS.sort (λ a b, hourCounts !!! Z.to_nat b - hourCounts !!! Z.to_nat a)
            hourIndices in
  JS.slice 0 (Some 3) hourIndices.

Definition itemMilestones : list Z := [10; 25; 50; 100; 250; 500; 1000].

Definition streakMilestones : list Z := [7; 14; 30; 60; 100].

Definition detectMilestones (now : Z)
    (userAnalytics : UserAnalytics) (events : list AnalyticsEvent) : list Milestone :=
  let milestones := [] in
  let firstRecording :=
    find (λ event, bool_decide (event_type event = voice_recording_completed)) events in
  let milestones :=
    match firstRecording with
    | Some firstRecording =>
        milestones ++
        [ {| milestone_id := "first_recording";
             milestone_type := first_recording;
             milestone_title := "First Voice Recording";
             milestone_description := "Congratulations on your first voice recording!";
             achievedDate := event_timestamp firstRecording;
             milestone_value := 1;
             milestone_icon := "🎤" |} ]
    | None => milestones
    end in
  let milestones :=
    foldl (λ milestones milestone,
             if decide (milestone ≤ totalItems userAnalytics) then
               milestones ++
               [ {| milestone_id := "items_" +:+ pretty milestone;
                    milestone_type := items_milestone;
                    milestone_title := pretty milestone +:+ " Items Created";
                    milestone_description :=
                      "You've created " +:+ pretty milestone +:+
                      " items! Keep up the great work!";
                    achievedDate := now;
                    milestone_value := milestone;
                    milestone_icon := "📝" |} ]
             else milestones)
          milestones itemMilestones in
  let milestones :=
    foldl (λ milestones milestone,
             if decide (milestone ≤ streakDays userAnalytics) then
               milestones ++
               [ {| milestone_id := "streak_" +:+ pretty milestone;
                    milestone_type := streak_milestone;
                    milestone_title := pretty milestone +:+ " Day Streak";
                    milestone_description :=
                      "Amazing! You've maintained a " +:+ pretty milestone +:+
                      " day streak!";
                    achievedDate := now;
                    milestone_value := milestone;
                    milestone_icon := "🔥" |} ]
             else milestones)
          milestones streakMilestones in
  milestones.

(** The text of [Math.round (x / y * 100)] inside a template string;
    a positive numerator over zero prints as [Infinity]. *)
Definition percentText (numerator denominator : Q) : string :=
  if decide (denominator == 0)%Q then
    if decide (numerator == 0)%Q then "NaN"
    else if decide (0 < numerator)%Q then "Infinity" else "-Infinity"
  else pretty (JS.Math_round (numerator / denominator * 100)).

Definition generateInsights (now : Z) (userAnalytics : UserAnalytics)
    (dailyUsage : list DailyUsageData) (events : list AnalyticsEvent)
    : list ProductivityInsight :=
  let insights := [] in
  let peakHours := analyzePeakUsageHours events in
  let insights :=
    if decide (0 < length peakHours)%nat then
      insights ++
      [ {| insight_id := "peak_usage_pattern";
           insight_type := usage_pattern;
           insight_title := "Peak Usage Hours Identified";
           insight_description :=
             "You're most productive during " +:+
             JS.join ", " (map (λ h, pretty h +:+ ":00") peakHours) +:+
             ". Consider scheduling important tasks during these times.";
           impact := medium;
           insight_category := "Time Management";
           actionable := true;
           relatedMetrics := ["session_duration"; "items_created"];
           generatedDate := now |} ]
    else insights in
  let insights :=
    if decide (7 ≤ length dailyUsage)%nat then
      let recentWeek := JS.slice (-7) None dailyUsage in
      let previousWeek := JS.slice (-14) (Some (-7)) dailyUsage in
      let recentAvg := (inject_Z (JS.sumZ itemsCreated recentWeek) / 7)%Q in
      let previousAvg := (inject_Z (JS.sumZ itemsCreated previousWeek) / 7)%Q in
      if decide (previousAvg * (12 # 10) < recentAvg)%Q then
        insights ++
        [ {| insight_id := "productivity_increase";
             insight_type := productivity_trend;
             insight_title := "Productivity Increasing";
             insight_description :=
               "Your productivity has increased by " +:+
               percentText (recentAvg - previousAvg) previousAvg +:+
               "% this week!";
             impact := high;
             insight_category := "Performance";
             actionable := false;
             relatedMetrics := ["items_created"; "productivity_score"];
             generatedDate := now |} ]
      else insights
    else insights in
  let searchEvents :=
    filter (λ event, event_type event = search_performed) events in
  let searchSuccessRate :=
    if decide (0 < length searchEvents)%nat then
      (inject_Z (Z.of_nat (length
         (filter (λ event, (0 < numberOr0 (event_data event) "resultsCount")%Q)
                 searchEvents)))
       / inject_Z (Z.of_nat (length searchEvents)))%Q
    else 0%Q in
  let insights :=
    if decide ((searchSuccessRate < 7 # 10)%Q ∧ (10 < length searchEvents)%nat) then
      insights ++
      [ {| insight_id := "search_optimization";
           insight_type := search_behavior;
           insight_title := "Search Results Could Be Improved";
           insight_description :=
             "Only " +:+ pretty (JS.Math_round (searchSuccessRate * 100)) +:+
             "% of your searches return results. Consider using more specific keywords or organizing your content better.";
           impact := medium;
           insight_category := "Content Organization";
           actionable := true;
           relatedMetrics := ["search_success_rate"; "content_utilization"];
           generatedDate := now |} ]
      else insights in
  insights.

End AnalyticsCalculationService.

(** ** The database, the clock and the service objects *)

(** Primary keys of table [analytics]: ['user_analytics_current'] and
    [`daily_usage_${dateKey}`]. *)
Inductive RecordKey :=
  | user_analytics_current
  | daily_usage (dateKey : Z).

#[global] Instance RecordKey_eq_dec : EqDecision RecordKey.
Proof. solve_decision. Defined.

Definition RecordKey_to_option (k : RecordKey) : option Z :=
  match k with user_analytics_current => None | daily_usage d => Some d end.

Definition RecordKey_of_option (o : option Z) : RecordKey :=
  match o with None => user_analytics_current | Some d => daily_usage d end.

Lemma RecordKey_of_to_option k : RecordKey_of_option (RecordKey_to_option k) = k.
Proof. by destruct k. Qed.

#[global] Instance RecordKey_countable : Countable RecordKey :=
  inj_countable' RecordKey_to_option RecordKey_of_option RecordKey_of_to_option.

Inductive RecordType := type_user_analytics | type_daily_usage.

#[global] Instance RecordType_eq_dec : EqDecision RecordType.
Proof. solve_decision. Defined.

Inductive RecordData :=
  | UserAnalyticsData (analytics : UserAnalytics)
  | DailyUsage (usage : DailyUsageData).

Record AnalyticsRecord := {
  record_id : RecordKey;
  record_type : RecordType;
  record_data : RecordData;
  record_timestamp : Z;
  record_version : Z;
}.

(** An entry of the collector's [activityBuffer]. *)
Record BufferedEvent := {
  buffered_type : EventType;
  buffered_data : EventData;
  buffered_timestamp : Z;
}.

Record World := {
  now : Z;  (* [Date.now ()] *)
  faults : list bool;  (* whether each of the coming Dexie requests is rejected; none is once the list is used up *)
  random : nat;  (* the state of [Math.random] *)
  db_analytics : gmap RecordKey AnalyticsRecord;  (* table [analytics] *)
  db_events : list AnalyticsEvent;  (* table [events], in insertion order *)
  db_goals : list Goal;  (* table [goals] *)
  db_insights : list ProductivityInsight;  (* table [insights] *)
  currentSessionId : UniqueId;  (* AnalyticsStorageService *)
  initialized : bool;  (* AnalyticsService *)
  sessionStartTime : Z;  (* AnalyticsCollectionService *)
  lastActivityTime : Z;
  activityBuffer : list BufferedEvent;
  flushInterval : bool;  (* whether the 30 s timer is armed *)
  isActive : bool;
  userLevel : Z;  (* GamificationService *)
  userXP : Z;
  timeZone : Z → Z;  (* the offset of local time from UTC at an instant, in ms *)
}.

Definition update_now (f : Z → Z) (w : World) : World :=
  {| now := f (now w);
     faults := faults w;
     random := random w;
     db_analytics := db_analytics w;
     db_events := db_events w;
     db_goals := db_goals w;
     db_insights := db_insights w;
     currentSessionId := currentSessionId w;
     initialized := initialized w;
     sessionStartTime := sessionStartTime w;
     lastActivityTime := lastActivityTime w;
     activityBuffer := activityBuffer w;
     flushInterval := flushInterval w;
     isActive := isActive w;
     userLevel := userLevel w;
     userXP := userXP w;
     timeZone := timeZone w |}.

Definition update_faults (f : list bool → list bool) (w : World) : World :=
  {| now := now w;
     faults := f (faults w);
     random := random w;
     db_analytics := db_analytics w;
     db_events := db_events w;
     db_goals := db_goals w;
     db_insights := db_insights w;
     currentSessionId := currentSessionId w;
     initialized := initialized w;
     sessionStartTime := sessionStartTime w;
     lastActivityTime := lastActivityTime w;
     activityBuffer := activityBuffer w;
     flushInterval := flushInterval w;
     isActive := isActive w;
     userLevel := userLevel w;
     userXP := userXP w;
     timeZone := timeZone w |}.

Definition update_random (f : nat → nat) (w : World) : World :=
  {| now := now w;
     faults := faults w;
     random := f (random w);
     db_analytics := db_analytics w;
     db_events := db_events w;
     db_goals := db_goals w;
     db_insights := db_insights w;
     currentSessionId := currentSessionId w;
     initialized := initialized w;
     sessionStartTime := sessionStartTime w;
     lastActivityTime := lastActivityTime w;
     activityBuffer := activityBuffer w;
     flushInterval := flushInterval w;
     isActive := isActive w;
     userLevel := userLevel w;
     userXP := userXP w;
     timeZone := timeZone w |}.

Definition update_db_analytics (f : gmap RecordKey AnalyticsRecord → gmap RecordKey AnalyticsRecord) (w : World) : World :=
  {| now := now w;
     faults := faults w;
     random := random w;
     db_analytics := f (db_analytics w);
     db_events := db_events w;
     db_goals := db_goals w;
     db_insights := db_insights w;
     currentSessionId := currentSessionId w;
     initialized := initialized w;
     sessionStartTime := sessionStartTime w;
     lastActivityTime := lastActivityTime w;
     activityBuffer := activityBuffer w;
     flushInterval := flushInterval w;
     isActive := isActive w;
     userLevel := userLevel w;
     userXP := userXP w;
     timeZone := timeZone w |}.

Definition update_db_events (f : list AnalyticsEvent → list AnalyticsEvent) (w : World) : World :=
  {| now := now w;
     faults := faults w;
     random := random w;
     db_analytics := db_analytics w;
     db_events := f (db_events w);
     db_goals := db_goals w;
     db_insights := db_insights w;
     currentSessionId := currentSessionId w;
     initialized := initialized w;
     sessionStartTime := sessionStartTime w;
     lastActivityTime := lastActivityTime w;
     activityBuffer := activityBuffer w;
     flushInterval := flushInterval w;
     isActive := isActive w;
     userLevel := userLevel w;
     userXP := userXP w;
     timeZone := timeZone w |}.

Definition update_db_goals (f : list Goal → list Goal) (w : World) : World :=
  {| now := now w;
     faults := faults w;
     random := random w;
     db_analytics := db_analytics w;
     db_events := db_events w;
     db_goals := f (db_goals w);
     db_insights := db_insights w;
     currentSessionId := currentSessionId w;
     initialized := initialized w;
     sessionStartTime := sessionStartTime w;
     lastActivityTime := lastActivityTime w;
     activityBuffer := activityBuffer w;
     flushInterval := flushInterval w;
     isActive := isActive w;
     userLevel := userLevel w;
     userXP := userXP w;
     timeZone := timeZone w |}.

Definition update_db_insights (f : list ProductivityInsight → list ProductivityInsight) (w : World) : World :=
  {| now := now w;
     faults := faults w;
     random := random w;
     db_analytics := db_analytics w;
     db_events := db_events w;
     db_goals := db_goals w;
     db_insights := f (db_insights w);
     currentSessionId := currentSessionId w;
     initialized := initialized w;
     sessionStartTime := sessionStartTime w;
     lastActivityTime := lastActivityTime w;
     activityBuffer := activityBuffer w;
     flushInterval := flushInterval w;
     isActive := isActive w;
     userLevel := userLevel w;
     userXP := userXP w;
     timeZone := timeZone w |}.

Definition update_currentSessionId (f : UniqueId → UniqueId) (w : World) : World :=
  {| now := now w;
     faults := faults w;
     random := random w;
     db_analytics := db_analytics w;
     db_events := db_events w;
     db_goals := db_goals w;
     db_insights := db_insights w;
     currentSessionId := f (currentSessionId w);
     initialized := initialized w;
     sessionStartTime := sessionStartTime w;
     lastActivityTime := lastActivityTime w;
     activityBuffer := activityBuffer w;
     flushInterval := flushInterval w;
     isActive := isActive w;
     userLevel := userLevel w;
     userXP := userXP w;
     timeZone := timeZone w |}.

Definition update_initialized (f : bool → bool) (w : World) : World :=
  {| now := now w;
     faults := faults w;
     random := random w;
     db_analytics := db_analytics w;
     db_events := db_events w;
     db_goals := db_goals w;
     db_insights := db_insights w;
     currentSessionId := currentSessionId w;
     initialized := f (initialized w);
     sessionStartTime := sessionStartTime w;
     lastActivityTime := lastActivityTime w;
     activityBuffer := activityBuffer w;
     flushInterval := flushInterval w;
     isActive := isActive w;
     userLevel := userLevel w;
     userXP := userXP w;
     timeZone := timeZone w |}.

Definition update_sessionStartTime (f : Z → Z) (w : World) : World :=
  {| now := now w;
     faults := faults w;
     random := random w;
     db_analytics := db_analytics w;
     db_events := db_events w;
     db_goals := db_goals w;
     db_insights := db_insights w;
     currentSessionId := currentSessionId w;
     initialized := initialized w;
     sessionStartTime := f (sessionStartTime w);
     lastActivityTime := lastActivityTime w;
     activityBuffer := activityBuffer w;
     flushInterval := flushInterval w;
     isActive := isActive w;
     userLevel := userLevel w;
     userXP := userXP w;
     timeZone := timeZone w |}.

Definition update_lastActivityTime (f : Z → Z) (w : World) : World :=
  {| now := now w;
     faults := faults w;
     random := random w;
     db_analytics := db_analytics w;
     db_events := db_events w;
     db_goals := db_goals w;
     db_insights := db_insights w;
     currentSessionId := currentSessionId w;
     initialized := initialized w;
     sessionStartTime := sessionStartTime w;
     lastActivityTime := f (lastActivityTime w);
     activityBuffer := activityBuffer w;
     flushInterval := flushInterval w;
     isActive := isActive w;
     userLevel := userLevel w;
     userXP := userXP w;
     timeZone := timeZone w |}.

Definition update_activityBuffer (f : list BufferedEvent → list BufferedEvent) (w : World) : World :=
  {| now := now w;
     faults := faults w;
     random := random w;
     db_analytics := db_analytics w;
     db_events := db_events w;
     db_goals := db_goals w;
     db_insights := db_insights w;
     currentSessionId := currentSessionId w;
     initialized := initialized w;
     sessionStartTime := sessionStartTime w;
     lastActivityTime := lastActivityTime w;
     activityBuffer := f (activityBuffer w);
     flushInterval := flushInterval w;
     isActive := isActive w;
     userLevel := userLevel w;
     userXP := userXP w;
     timeZone := timeZone w |}.

Definition update_flushInterval (f : bool → bool) (w : World) : World :=
  {| now := now w;
     faults := faults w;
     random := random w;
     db_analytics := db_analytics w;
     db_events := db_events w;
     db_goals := db_goals w;
     db_insights := db_insights w;
     currentSessionId := currentSessionId w;
     initialized := initialized w;
     sessionStartTime := sessionStartTime w;
     lastActivityTime := lastActivityTime w;
     activityBuffer := activityBuffer w;
     flushInterval := f (flushInterval w);
     isActive := isActive w;
     userLevel := userLevel w;
     userXP := userXP w;
     timeZone := timeZone w |}.

Definition update_isActive (f : bool → bool) (w : World) : World :=
  {| now := now w;
     faults := faults w;
     random := random w;
     db_analytics := db_analytics w;
     db_events := db_events w;
     db_goals := db_goals w;
     db_insights := db_insights w;
     currentSessionId := currentSessionId w;
     initialized := initialized w;
     sessionStartTime := sessionStartTime w;
     lastActivityTime := lastActivityTime w;
     activityBuffer := activityBuffer w;
     flushInterval := flushInterval w;
     isActive := f (isActive w);
     userLevel := userLevel w;
     userXP := userXP w;
     timeZone := timeZone w |}.

Definition update_userLevel (f : Z → Z) (w : World) : World :=
  {| now := now w;
     faults := faults w;
     random := random w;
     db_analytics := db_analytics w;
     db_events := db_events w;
     db_goals := db_goals w;
     db_insights := db_insights w;
     currentSessionId := currentSessionId w;
     initialized := initialized w;
     sessionStartTime := sessionStartTime w;
     lastActivityTime := lastActivityTime w;
     activityBuffer := activityBuffer w;
     flushInterval := flushInterval w;
     isActive := isActive w;
     userLevel := f (userLevel w);
     userXP := userXP w;
     timeZone := timeZone w |}.

Definition update_userXP (f : Z → Z) (w : World) : World :=
  {| now := now w;
     faults := faults w;
     random := random w;
     db_analytics := db_analytics w;
     db_events := db_events w;
     db_goals := db_goals w;
     db_insights := db_insights w;
     currentSessionId := currentSessionId w;
     initialized := initialized w;
     sessionStartTime := sessionStartTime w;
     lastActivityTime := lastActivityTime w;
     activityBuffer := activityBuffer w;
     flushInterval := flushInterval w;
     isActive := isActive w;
     userLevel := userLevel w;
     userXP := f (userXP w);
     timeZone := timeZone w |}.

(** Assignments to the fields of a daily usage row. *)
Definition set_recordingMinutes (v : Q) (usage : DailyUsageData) : DailyUsageData :=
  {| date := date usage; recordingMinutes := v; documentsProcessed := documentsProcessed usage; searchCount := searchCount usage; timeSpent := timeSpent usage; sessionsCount := sessionsCount usage; itemsCreated := itemsCreated usage; itemsDeleted := itemsDeleted usage; productivityScore := productivityScore usage |}.

Definition set_documentsProcessed (v : Z) (usage : DailyUsageData) : DailyUsageData :=
  {| date := date usage; recordingMinutes := recordingMinutes usage; documentsProcessed := v; searchCount := searchCount usage; timeSpent := timeSpent usage; sessionsCount := sessionsCount usage; itemsCreated := itemsCreated usage; itemsDeleted := itemsDeleted usage; productivityScore := productivityScore usage |}.

Definition set_searchCount (v : Z) (usage : DailyUsageData) : DailyUsageData :=
  {| date := date usage; recordingMinutes := recordingMinutes usage; documentsProcessed := documentsProcessed usage; searchCount := v; timeSpent := timeSpent usage; sessionsCount := sessionsCount usage; itemsCreated := itemsCreated usage; itemsDeleted := itemsDeleted usage; productivityScore := productivityScore usage |}.

Definition set_timeSpent (v : Q) (usage : DailyUsageData) : DailyUsageData :=
  {| date := date usage; recordingMinutes := recordingMinutes usage; documentsProcessed := documentsProcessed usage; searchCount := searchCount usage; timeSpent := v; sessionsCount := sessionsCount usage; itemsCreated := itemsCreated usage; itemsDeleted := itemsDeleted usage; productivityScore := productivityScore usage |}.

Definition set_itemsCreated (v : Z) (usage : DailyUsageData) : DailyUsageData :=
  {| date := date usage; recordingMinutes := recordingMinutes usage; documentsProcessed := documentsProcessed usage; searchCount := searchCount usage; timeSpent := timeSpent usage; sessionsCount := sessionsCount usage; itemsCreated := v; itemsDeleted := itemsDeleted usage; productivityScore := productivityScore usage |}.

Definition set_itemsDeleted (v : Z) (usage : DailyUsageData) : DailyUsageData :=
  {| date := date usage; recordingMinutes := recordingMinutes usage; documentsProcessed := documentsProcessed usage; searchCount := searchCount usage; timeSpent := timeSpent usage; sessionsCount := sessionsCount usage; itemsCreated := itemsCreated usage; itemsDeleted := v; productivityScore := productivityScore usage |}.

Definition set_productivityScore (v : Z) (usage : DailyUsageData) : DailyUsageData :=
  {| date := date usage; recordingMinutes := recordingMinutes usage; documentsProcessed := documentsProcessed usage; searchCount := searchCount usage; timeSpent := timeSpent usage; sessionsCount := sessionsCount usage; itemsCreated := itemsCreated usage; itemsDeleted := itemsDeleted usage; productivityScore := v |}.

(** Object spreads [{ ...analytics, field: v }] of the snapshot. *)
Definition with_searchesPerformed (v : Z) (analytics : UserAnalytics) : UserAnalytics :=
  {| totalItems := totalItems analytics;
     voiceRecordings := voiceRecordings analytics;
     documentsUploaded := documentsUploaded analytics;
     searchesPerformed := v;
     dailyUsage := dailyUsage analytics;
     weeklyUsage := weeklyUsage analytics;
     monthlyUsage := monthlyUsage analytics;
     ua_productivityScore := ua_productivityScore analytics;
     streakDays := streakDays analytics;
     level := level analytics;
     xp := xp analytics;
     peakUsageHours := peakUsageHours analytics;
     mostActiveDay := mostActiveDay analytics;
     averageSessionDuration := averageSessionDuration analytics;
     totalTimeSpent := totalTimeSpent analytics;
     mostSearchedTerms := mostSearchedTerms analytics;
     contentCategories := contentCategories analytics;
     averageContentLength := averageContentLength analytics;
     lastActiveDate := lastActiveDate analytics;
     accountCreatedDate := accountCreatedDate analytics;
     totalSessions := totalSessions analytics;
     averageItemsPerSession := averageItemsPerSession analytics |}.

Definition with_mostSearchedTerms (v : list SearchTerm) (analytics : UserAnalytics) : UserAnalytics :=
  {| totalItems := totalItems analytics;
     voiceRecordings := voiceRecordings analytics;
     documentsUploaded := documentsUploaded analytics;
     searchesPerformed := searchesPerformed analytics;
     dailyUsage := dailyUsage analytics;
     weeklyUsage := weeklyUsage analytics;
     monthlyUsage := monthlyUsage analytics;
     ua_productivityScore := ua_productivityScore analytics;
     streakDays := streakDays analytics;
     level := level analytics;
     xp := xp analytics;
     peakUsageHours := peakUsageHours analytics;
     mostActiveDay := mostActiveDay analytics;
     averageSessionDuration := averageSessionDuration analytics;
     totalTimeSpent := totalTimeSpent analytics;
     mostSearchedTerms := v;
     contentCategories := contentCategories analytics;
     averageContentLength := averageContentLength analytics;
     lastActiveDate := lastActiveDate analytics;
     accountCreatedDate := accountCreatedDate analytics;
     totalSessions := totalSessions analytics;
     averageItemsPerSession := averageItemsPerSession analytics |}.

Definition with_xp (v : Z) (analytics : UserAnalytics) : UserAnalytics :=
  {| totalItems := totalItems analytics;
     voiceRecordings := voiceRecordings analytics;
     documentsUploaded := documentsUploaded analytics;
     searchesPerformed := searchesPerformed analytics;
     dailyUsage := dailyUsage analytics;
     weeklyUsage := weeklyUsage analytics;
     monthlyUsage := monthlyUsage analytics;
     ua_productivityScore := ua_productivityScore analytics;
     streakDays := streakDays analytics;
     level := level analytics;
     xp := v;
     peakUsageHours := peakUsageHours analytics;
     mostActiveDay := mostActiveDay analytics;
     averageSessionDuration := averageSessionDuration analytics;
     totalTimeSpent := totalTimeSpent analytics;
     mostSearchedTerms := mostSearchedTerms analytics;
     contentCategories := contentCategories analytics;
     averageContentLength := averageContentLength analytics;
     lastActiveDate := lastActiveDate analytics;
     accountCreatedDate := accountCreatedDate analytics;
     totalSessions := totalSessions analytics;
     averageItemsPerSession := averageItemsPerSession analytics |}.

Definition with_level (v : Z) (analytics : UserAnalytics) : UserAnalytics :=
  {| totalItems := totalItems analytics;
     voiceRecordings := voiceRecordings analytics;
     documentsUploaded := documentsUploaded analytics;
     searchesPerformed := searchesPerformed analytics;
     dailyUsage := dailyUsage analytics;
     weeklyUsage := weeklyUsage analytics;
     monthlyUsage := monthlyUsage analytics;
     ua_productivityScore := ua_productivityScore analytics;
     streakDays := streakDays analytics;
     level := v;
     xp := xp analytics;
     peakUsageHours := peakUsageHours analytics;
     mostActiveDay := mostActiveDay analytics;
     averageSessionDuration := averageSessionDuration analytics;
     totalTimeSpent := totalTimeSpent analytics;
     mostSearchedTerms := mostSearchedTerms analytics;
     contentCategories := contentCategories analytics;
     averageContentLength := averageContentLength analytics;
     lastActiveDate := lastActiveDate analytics;
     accountCreatedDate := accountCreatedDate analytics;
     totalSessions := totalSessions analytics;
     averageItemsPerSession := averageItemsPerSession analytics |}.

(** ** Asynchronous methods *)

Inductive Exception := StoreError | TypeError.

Inductive Outcome (A : Type) :=
  | Returned (a : A)
  | Thrown (e : Exception).

Arguments Returned {A} a.
Arguments Thrown {A} e.

(** An [async] method: it reads and changes the world and either returns or
    throws. *)
Definition M (A : Type) : Type := World → Outcome A * World.

Definition bind {A B : Type} (m : M A) (k : A → M B) : M B :=
  λ w, match m w with
       | (Returned a, w') => k a w'
       | (Thrown e, w') => (Thrown e, w')
       end.

#[global] Instance M_ret : MRet M := λ A a w, (Returned a, w).

#[global] Instance M_bind : MBind M := λ A B k m, bind m k.

(** [const x = await m; k] *)
Notation "'let!' x := m 'in' k" := (bind m (λ x, k))
  (at level 10, x pattern, m at level 100, k at level 200).

Definition read {A : Type} (f : World → A) : M A := λ w, (Returned (f w), w).

Definition write (f : World → World) : M unit := λ w, (Returned (), f w).

Definition throw {A : Type} (e : Exception) : M A := λ w, (Thrown e, w).

(** [try { body } catch (error) { handler error }]. *)
Definition try_catch {A : Type} (body : M A) (handler : Exception → M A) : M A :=
  λ w, match body w with
       | (Returned a, w') => (Returned a, w')
       | (Thrown e, w') => handler e w'
       end.

(** An awaited request to a Dexie table. *)
Definition request {A : Type} (operation : M A) : M A :=
  λ w, match faults w with
       | true :: rest => (Thrown StoreError, update_faults (λ _, rest) w)
       | false :: rest => operation (update_faults (λ _, rest) w)
       | [] => operation w
       end.

(** The end of a method that returns nothing. *)
Definition resolved : M unit := mret ().

(** [for (const x of l) { await body x }]. *)
Fixpoint for_of {A : Type} (l : list A) (body : A → M unit) : M unit :=
  match l with
  | [] => mret ()
  | x :: l' => body x ;; for_of l' body
  end.

(** [`${prefix}_${Date.now()}_${Math.random().toString(36).substr(2, 9)}`]. *)
Definition uniqueId : M UniqueId :=
  let! timestamp := read now in
  let! suffix := read random in
  write (update_random S);;
  mret (timestamp, suffix).

Definition state {A : Type} (m : M A) (w : World) : World := (m w).2.

Definition outcome {A : Type} (m : M A) (w : World) : Outcome A := (m w).1.

(** [table.put (row)] on a table kept as the list of its rows. *)
Definition put {A K : Type} `{EqDecision K} (key : A → K) (row : A) (table : list A) : list A :=
  if decide (key row ∈ map key table)
  then map (λ r, if decide (key r = key row) then row else r) table
  else table ++ [row].

(** [const x = array.find (p); if (x) { mutate x }]: the first element
    that satisfies [p] is changed inside the array. *)
Fixpoint mutateFirst {A : Type} (p : A → bool) (f : A → A) (l : list A) : list A :=
  match l with
  | [] => []
  | x :: l' => if p x then f x :: l' else x :: mutateFirst p f l'
  end.

(** ** AnalyticsStorageService *)

Module AnalyticsStorageService.

Record AnalyticsQuery := {
  dateRange : option (Z * Z);
  limit : option Z;
}.

Definition generateSessionId : M UniqueId := uniqueId.

Definition createEmptyDailyUsage (date : Z) : DailyUsageData :=
  {| date := date;
     recordingMinutes := 0;
     documentsProcessed := 0;
     searchCount := 0;
     timeSpent := 0;
     sessionsCount := 1;
     itemsCreated := 0;
     itemsDeleted := 0;
     productivityScore := 0 |}.

Definition saveUserAnalytics (analytics : UserAnalytics) : M unit :=
  try_catch
    (let! timestamp := read now in
     let record :=
       {| record_id := user_analytics_current;
          record_type := type_user_analytics;
          record_data := UserAnalyticsData analytics;
          record_timestamp := timestamp;
          record_version := 1 |} in
     request (write (update_db_analytics (insert (record_id record) record))))
    (λ error, throw error).

Definition getUserAnalytics : M (option UserAnalytics) :=
  try_catch
    (let! record := request (read (λ w, db_analytics w !! user_analytics_current)) in
     mret (match record with
           | Some {| record_data := UserAnalyticsData analytics |} => Some analytics
           | _ => None
           end))
    (λ error, mret None).

Definition saveDailyUsage (date : Z) (usage : DailyUsageData) : M unit :=
  try_catch
    (let dateKey := formatDateKey date in
     let record :=
       {| record_id := daily_usage dateKey;
          record_type := type_daily_usage;
          record_data := DailyUsage usage;
          record_timestamp := date;
          record_version := 1 |} in
     request (write (update_db_analytics (insert (record_id record) record))))
    (λ error, throw error).

Definition getDailyUsage (date : Z) : M (option DailyUsageData) :=
  try_catch
    (let dateKey := formatDateKey date in
     let! record := request (read (λ w, db_analytics w !! daily_usage dateKey)) in
     mret (match record with
           | Some {| record_data := DailyUsage usage |} => Some usage
           | _ => None
           end))
    (λ error, mret None).

Definition getDailyUsageRange (startDate endDate : Z) : M (list DailyUsageData) :=
  try_catch
    (let! records := request (read (λ w,
       filter (λ record,
                 record_type record = type_daily_usage ∧
                 startDate ≤ record_timestamp record ∧
                 record_timestamp record ≤ endDate)
              (map snd (map_to_list (db_analytics w))))) in
     mret (JS.sort (λ a b, date a - date b)
             (omap (λ record,
                      match record_data record with
                      | DailyUsage usage => Some usage
                      | _ => None
                      end) records)))
    (λ error, mret []).

(** The [switch (event.type)] of [updateRealTimeMetrics]. *)
Definition applyEvent (event : AnalyticsEvent) (todayUsage : DailyUsageData) : DailyUsageData :=
  match event_type event with
  | voice_recording_completed =>
      let todayUsage :=
        set_recordingMinutes
          (recordingMinutes todayUsage + numberOr0 (event_data event) "duration")%Q
          todayUsage in
      set_itemsCreated (itemsCreated todayUsage + 1) todayUsage
  | file_upload_completed =>
      let todayUsage :=
        set_documentsProcessed (documentsProcessed todayUsage + 1) todayUsage in
      set_itemsCreated (itemsCreated todayUsage + 1) todayUsage
  | search_performed =>
      set_searchCount (searchCount todayUsage + 1) todayUsage
  | item_deleted =>
      set_itemsDeleted (itemsDeleted todayUsage + 1) todayUsage
  | _ => todayUsage
  end.

Definition updateRealTimeMetrics (event : AnalyticsEvent) : M unit :=
  try_catch
    (let! today := read now in
     let! stored := getDailyUsage today in
     let todayUsage := default (createEmptyDailyUsage today) stored in
     let todayUsage := applyEvent event todayUsage in
     saveDailyUsage today todayUsage)
    (λ error, mret ()).

Definition trackEvent (type : EventType) (data : EventData) : M unit :=
  try_catch
    (let! id := uniqueId in
     let! timestamp := read now in
     let! sessionId := read currentSessionId in
     let event :=
       {| event_id := id;
          event_type := type;
          event_timestamp := timestamp;
          event_sessionId := sessionId;
          event_data := data |} in
     request (write (update_db_events (λ events, events ++ [event])));;
     updateRealTimeMetrics event)
    (λ error, mret ()).

Definition initializeSession : M unit :=
  try_catch (trackEvent session_started ∅) (λ error, mret ()).

(** [new AnalyticsStorageService ()]. *)
Definition constructor : M unit :=
  let! sessionId := generateSessionId in
  write (update_currentSessionId (λ _, sessionId));;
  initializeSession.

Definition getEvents (query : AnalyticsQuery) : M (list AnalyticsEvent) :=
  try_catch
    (request (read (λ w,
       let collection :=
         JS.sort (λ a b, event_timestamp a - event_timestamp b) (db_events w) in
       let collection :=
         match dateRange query with
         | Some (start, end_) =>
             filter (λ event, start ≤ event_timestamp event ∧
                              event_timestamp event ≤ end_) collection
         | None => collection
         end in
       match limit query with
       | Some limit =>
           if decide (limit = 0) then collection
           else take (Z.to_nat limit) collection
       | None => collection
       end)))
    (λ error, mret []).

Definition saveGoal (goal : Goal) : M unit :=
  try_catch
    (request (write (update_db_goals (put goal_id goal)));;
     trackEvent goal_created
       (list_to_map
          [("goalId", JsString (goal_id goal));
           ("goalType", JsString (GoalType_name (goal_type goal)));
           ("targetValue", JsNumber (target goal))]))
    (λ error, throw error).

Definition getGoals (status_ : option GoalStatus) : M (list Goal) :=
  try_catch
    (match status_ with
     | Some status_ =>
         request (read (λ w, filter (λ goal, status goal = status_) (db_goals w)))
     | None => request (read db_goals)
     end)
    (λ error, mret []).

(** [Object.assign (goal, updates)] as done by [table.update]. *)
Definition applyUpdates (updates : GoalUpdates) (goal : Goal) : Goal :=
  {| goal_id := goal_id goal;
     goal_type := goal_type goal;
     goal_title := goal_title goal;
     goal_description := goal_description goal;
     target := target goal;
     current := updates_current updates;
     unit_ := unit_ goal;
     deadline := deadline goal;
     createdDate := createdDate goal;
     status := default (status goal) (updates_status updates);
     priority := priority goal;
     goal_category := goal_category goal |}.

Definition updateGoal (goalId : string) (updates : GoalUpdates) : M unit :=
  try_catch
    (request (write (update_db_goals
       (map (λ goal, if decide (goal_id goal = goalId)
                     then applyUpdates updates goal else goal))));;
     if decide (updates_status updates = Some completed) then
       trackEvent goal_completed
         (list_to_map
            [("goalId", JsString goalId);
             ("goalType", JsUndefined);
             ("currentValue", JsNumber (updates_current updates))])
     else mret ())
    (λ error, throw error).

Definition saveInsight (insight : ProductivityInsight) : M unit :=
  try_catch
    (request (write (update_db_insights (put insight_id insight))))
    (λ error, throw error).

Definition getInsights (category : option string) : M (list ProductivityInsight) :=
  try_catch
    (match category with
     | Some category =>
         request (read (λ w,
           filter (λ insight, insight_category insight = category) (db_insights w)))
     | None =>
         request (read (λ w,
           reverse (JS.sort (λ a b, generatedDate a - generatedDate b) (db_insights w))))
     end)
    (λ error, mret []).

End AnalyticsStorageService.

(** ** AnalyticsService *)

(** The methods of [AnalyticsCalculationService] whose results only fill
    fields of the snapshot; what follows holds for whatever they compute. *)
Record Calculator := {
  calculateWeeklyUsage : list DailyUsageData → list WeeklyUsageData;
  calculateMonthlyUsage : list WeeklyUsageData → list MonthlyUsageData;
  findMostActiveDay : list DailyUsageData → string;
  calculateAverageSessionDuration : list AnalyticsEvent → Q;
  analyzeSearchTerms : list AnalyticsEvent → list SearchTerm;
  categorizeContent : list ContentItem → list ContentCategory;
}.

(** What the call sites of [AnalyticsService.updateUserAnalytics] pass as
    [contentItems]: [processContentBatch] and the UI pass the array of
    content items; the collector passes an object literal
    [{ dailyUsage, totalItems, productivityScore }] or a whole analytics
    object. *)
Inductive Argument :=
  | ItemsArray (contentItems : list ContentItem)
  | PartialAnalytics (dailyUsage : list DailyUsageData) (totalItems : Z) (productivityScore : Z)
  | WholeAnalytics (analytics : UserAnalytics).

Module AnalyticsService.

Definition initialAnalytics (now : Z) : UserAnalytics :=
  {| totalItems := 0;
     voiceRecordings := 0;
     documentsUploaded := 0;
     searchesPerformed := 0;
     dailyUsage := [];
     weeklyUsage := [];
     monthlyUsage := [];
     ua_productivityScore := 0;
     streakDays := 0;
     level := 1;
     xp := 0;
     peakUsageHours := [];
     mostActiveDay := "Monday";
     averageSessionDuration := 0;
     totalTimeSpent := 0;
     mostSearchedTerms := [];
     contentCategories := [];
     averageContentLength := 0;
     lastActiveDate := now;
     accountCreatedDate := now;
     totalSessions := 0;
     averageItemsPerSession := 0 |}.

Definition createInitialAnalytics : M unit :=
  let! now := read now in
  AnalyticsStorageService.saveUserAnalytics (initialAnalytics now).

Definition initialize : M unit :=
  let! initialized_ := read initialized in
  if initialized_ then resolved
  else
    try_catch
      (let! existingAnalytics := AnalyticsStorageService.getUserAnalytics in
       (if existingAnalytics is None then createInitialAnalytics else resolved);;
       write (update_initialized (λ _, true)))
      (λ error, throw error).

Definition ensureInitialized : M unit :=
  let! initialized_ := read initialized in
  if initialized_ then resolved else initialize.

Definition getUserAnalytics : M (option UserAnalytics) :=
  ensureInitialized;;
  AnalyticsStorageService.getUserAnalytics.

(** The comparison function of the sort in [calculateCurrentStreak]. *)
Definition byDateDescending (a b : DailyUsageData) : Z := date b - date a.

(** [Math.floor ((today - usageDate) / (1000 * 60 * 60 * 24))] after both
    dates were set to midnight. *)
Definition daysDiff (zone : Z → Z) (today : Z) (usage : DailyUsageData) : Z :=
  (setHoursZero zone today - setHoursZero zone (date usage)) / msPerDay.

(** The [for] loop of [calculateCurrentStreak], entered with the running
    [streak]. *)
Fixpoint streakLoop (zone : Z → Z) (today streak : Z)
    (sortedUsage : list DailyUsageData) : Z :=
  match sortedUsage with
  | [] => streak
  | usage :: rest =>
      if decide (daysDiff zone today usage = streak ∧ 0 < itemsCreated usage)
      then streakLoop zone today (streak + 1) rest
      else streak
  end.

(** [calculateCurrentStreak], with [today] the clock reading and [zone]
    the time zone of the device.  The sort is in place: the caller's array
    is left in descending order. *)
Definition calculateCurrentStreak (zone : Z → Z) (today : Z)
    (dailyUsage : list DailyUsageData) : Z :=
  if decide (length dailyUsage = 0%nat) then 0
  else
    let sortedUsage := JS.sort byDateDescending dailyUsage in
    streakLoop zone today 0 sortedUsage.

Definition calculateExperiencePoints (totalItems totalEvents : Z) : Z :=
  totalItems * 100 + totalEvents * 10.

Definition calculateUserLevel (totalItems totalEvents : Z) : Z :=
  let xp := calculateExperiencePoints totalItems totalEvents in
  xp / 1000 + 1.

Definition getAccountCreatedDate : M Z :=
  let! events := AnalyticsStorageService.getEvents
    {| AnalyticsStorageService.dateRange := None;
       AnalyticsStorageService.limit := Some 1 |} in
  let! now := read now in
  mret (match events with
        | event :: _ => event_timestamp event
        | [] => now
        end).

Definition trackEvent (type : EventType) (data : EventData) : M unit :=
  ensureInitialized;;
  AnalyticsStorageService.trackEvent type data.

Definition createGoal (goalData : Goal) : M Goal :=
  ensureInitialized;;
  let! (timestamp, suffix) := uniqueId in
  let newGoal :=
    {| goal_id := "goal_" +:+ pretty timestamp +:+ "_" +:+ pretty suffix;
       goal_type := goal_type goalData;
       goal_title := goal_title goalData;
       goal_description := goal_description goalData;
       target := target goalData;
       current := current goalData;
       unit_ := unit_ goalData;
       deadline := deadline goalData;
       createdDate := timestamp;
       status := active;
       priority := priority goalData;
       goal_category := goal_category goalData |} in
  AnalyticsStorageService.saveGoal newGoal;;
  mret newGoal.

Definition updateGoalProgress (goalId : string) (currentValue : Q) : M unit :=
  ensureInitialized;;
  let! goals := AnalyticsStorageService.getGoals None in
  let goal := find (λ g, bool_decide (goal_id g = goalId)) goals in
  match goal with
  | Some goal =>
      let updates :=
        {| updates_current := currentValue;
           updates_status :=
             if decide (target goal <= currentValue)%Q then Some completed else None |} in
      AnalyticsStorageService.updateGoal goalId updates
  | None => resolved
  end.

Definition getGoals (status_ : option GoalStatus) : M (list Goal) :=
  ensureInitialized;;
  AnalyticsStorageService.getGoals status_.

Definition generateInsights : M (list ProductivityInsight) :=
  ensureInitialized;;
  let! userAnalytics := getUserAnalytics in
  match userAnalytics with
  | None => mret []
  | Some userAnalytics =>
      let! now := read now in
      let! events := AnalyticsStorageService.getEvents
        {| AnalyticsStorageService.dateRange := Some (now - 30 * msPerDay, now);
           AnalyticsStorageService.limit := None |} in
      let insights :=
        AnalyticsCalculationService.generateInsights
          now userAnalytics (dailyUsage userAnalytics) events in
      for_of insights AnalyticsStorageService.saveInsight;;
      mret insights
  end.

Section UpdateUserAnalytics.
Context (calculationService : Calculator).

Definition updateUserAnalytics (contentItems : Argument) : M UserAnalytics :=
  ensureInitialized;;
  let! now := read now in
  let! events := AnalyticsStorageService.getEvents
    {| AnalyticsStorageService.dateRange := Some (now - 90 * msPerDay, now);
       AnalyticsStorageService.limit := None |} in
  let! dailyUsage := AnalyticsStorageService.getDailyUsageRange (now - 30 * msPerDay) now in
  match contentItems with
  | ItemsArray contentItems =>
      let weeklyUsage := calculateWeeklyUsage calculationService dailyUsage in
      let monthlyUsage :=
        calculateMonthlyUsage calculationService
          (calculateWeeklyUsage calculationService dailyUsage) in
      let productivityScore_ :=
        AnalyticsCalculationService.calculateProductivityScore dailyUsage contentItems in
      let! zone := read timeZone in
      let streakDays := calculateCurrentStreak zone now dailyUsage in
      (* [calculateCurrentStreak] has sorted the array the literal refers to *)
      let dailyUsage := JS.sort byDateDescending dailyUsage in
      let sessions := remove_dups (map event_sessionId events) in
      let! accountCreatedDate := getAccountCreatedDate in
      let analytics :=
        {| totalItems := Z.of_nat (length contentItems);
           voiceRecordings :=
             Z.of_nat (length (filter (λ item, item_type item = voice) contentItems));
           documentsUploaded :=
             Z.of_nat (length (filter (λ item, item_type item = file) contentItems));
           searchesPerformed :=
             Z.of_nat (length (filter (λ event, event_type event = search_performed) events));
           dailyUsage := dailyUsage;
           weeklyUsage := weeklyUsage;
           monthlyUsage := monthlyUsage;
           ua_productivityScore := productivityScore_;
           streakDays := streakDays;
           level := calculateUserLevel (Z.of_nat (length contentItems)) (Z.of_nat (length events));
           xp := calculateExperiencePoints (Z.of_nat (length contentItems)) (Z.of_nat (length events));
           peakUsageHours := AnalyticsCalculationService.analyzePeakUsageHours events;
           mostActiveDay := findMostActiveDay calculationService dailyUsage;
           averageSessionDuration := calculateAverageSessionDuration calculationService events;
           totalTimeSpent := JS.sumQ timeSpent dailyUsage;
           mostSearchedTerms := analyzeSearchTerms calculationService events;
           contentCategories := categorizeContent calculationService contentItems;
           averageContentLength :=
             if decide (0 < length contentItems)%nat then
               (inject_Z (JS.sumZ (λ item, Z.of_nat (String.length (content item))) contentItems)
                / inject_Z (Z.of_nat (length contentItems)))%Q
             else 0%Q;
           lastActiveDate := now;
           accountCreatedDate := accountCreatedDate;
           totalSessions := Z.of_nat (length sessions);
           averageItemsPerSession :=
             if decide (0 < length contentItems ∧ 0 < length events)%nat then
               (inject_Z (Z.of_nat (length contentItems))
                / inject_Z (Z.of_nat (length sessions)))%Q
             else 0%Q |} in
      AnalyticsStorageService.saveUserAnalytics analytics;;
      mret analytics
  | PartialAnalytics _ _ _ | WholeAnalytics _ =>
      (* [contentItems.filter] is not a function *)
      throw TypeError
  end.

End UpdateUserAnalytics.

End AnalyticsService.

(** ** AnalyticsCollectionService *)

Module AnalyticsCollectionService.

Inductive ActivityType := voice_recording | file_upload.

Inductive SearchType := text_search | voice_search.

Definition SearchType_name (t : SearchType) : string :=
  match t with text_search => "text" | voice_search => "voice" end.

Definition ContentType_name (t : ContentType) : string :=
  match t with voice => "voice" | file => "file" end.

Definition Grade_name (g : Grade) : string :=
  match g with low => "low" | medium => "medium" | high => "high" end.

Definition calculateQuickProductivityScore (dailyUsage : DailyUsageData) : Z :=
  let score := 0%Q in
  let score := (score + JS.Math_min (inject_Z (itemsCreated dailyUsage * 10)) 40)%Q in
  let score := (score + JS.Math_min (inject_Z (searchCount dailyUsage * 2)) 20)%Q in
  let score := (score + JS.Math_min ((timeSpent dailyUsage / 60) * 10)%Q 20)%Q in
  let score := (score + if decide (0 < itemsCreated dailyUsage)%Z then 20 else 0)%Q in
  Z.min (JS.Math_round score) 100.

(** What [updateProductivityMetrics] does to the row of today that it found
    in the snapshot. *)
Definition applyActivity (activityType : ActivityType) (duration : Q)
    (todayUsage : DailyUsageData) : DailyUsageData :=
  let todayUsage :=
    match activityType with
    | voice_recording =>
        let todayUsage :=
          set_recordingMinutes (recordingMinutes todayUsage + duration / 60)%Q todayUsage in
        set_itemsCreated (itemsCreated todayUsage + 1) todayUsage
    | file_upload =>
        let todayUsage :=
          set_documentsProcessed (documentsProcessed todayUsage + 1) todayUsage in
        set_itemsCreated (itemsCreated todayUsage + 1) todayUsage
    end in
  let todayUsage := set_timeSpent (timeSpent todayUsage + duration / 60)%Q todayUsage in
  let newScore := calculateQuickProductivityScore todayUsage in
  set_productivityScore newScore todayUsage.

Section Collector.
Context (calculationService : Calculator).

Definition flushActivityBuffer : M unit :=
  let! buffer := read activityBuffer in
  if decide (length buffer = 0%nat) then resolved
  else
    let eventsToFlush := buffer in
    write (update_activityBuffer (λ _, []));;
    try_catch
      (for_of eventsToFlush (λ event,
         AnalyticsService.trackEvent (buffered_type event) (buffered_data event)))
      (λ error, write (update_activityBuffer (λ buffer, eventsToFlush ++ buffer))).

Definition bufferEvent (type : EventType) (data : EventData) : M unit :=
  let! now := read now in
  write (update_lastActivityTime (λ _, now));;
  write (update_activityBuffer (λ buffer,
    buffer ++ [ {| buffered_type := type; buffered_data := data; buffered_timestamp := now |} ]));;
  let! buffer := read activityBuffer in
  if decide (10 ≤ length buffer)%nat then flushActivityBuffer else resolved.

Definition updateProductivityMetrics (activityType : ActivityType) (duration : Q) : M unit :=
  try_catch
    (let! today := read now in
     let! userAnalytics := AnalyticsService.getUserAnalytics in
     match userAnalytics with
     | Some userAnalytics =>
         let isToday usage := sameDateString (date usage) today in
         match find isToday (dailyUsage userAnalytics) with
         | Some todayUsage =>
             let newScore := productivityScore (applyActivity activityType duration todayUsage) in
             let dailyUsage :=
               mutateFirst isToday (applyActivity activityType duration)
                           (dailyUsage userAnalytics) in
             AnalyticsService.updateUserAnalytics calculationService
               (PartialAnalytics dailyUsage (totalItems userAnalytics + 1) newScore);;
             resolved
         | None => resolved
         end
     | None => resolved
     end)
    (λ error, resolved).

Definition updateSearchMetrics (query : string) (resultsCount : Q) (searchType : SearchType) : M unit :=
  try_catch
    (let! userAnalytics := AnalyticsService.getUserAnalytics in
     match userAnalytics with
     | Some userAnalytics =>
         let! now := read now in
         let updatedAnalytics :=
           with_searchesPerformed (searchesPerformed userAnalytics + 1) userAnalytics in
         let searchTerm := JS.toLowerCase query in
         let isTerm t := bool_decide (term t = searchTerm) in
         let terms :=
           match find isTerm (mostSearchedTerms updatedAnalytics) with
           | Some existingTerm =>
               mutateFirst isTerm
                 (λ t, {| term := term t;
                          term_count := term_count t + 1;
                          lastSearched := now;
                          averageResultsFound := ((averageResultsFound t + resultsCount) / 2)%Q |})
                 (mostSearchedTerms updatedAnalytics)
           | None =>
               mostSearchedTerms updatedAnalytics ++
               [ {| term := searchTerm;
                    term_count := 1;
                    lastSearched := now;
                    averageResultsFound := resultsCount |} ]
           end in
         let terms :=
           JS.slice 0 (Some 20) (JS.sort (λ a b, term_count b - term_count a) terms) in
         let updatedAnalytics := with_mostSearchedTerms terms updatedAnalytics in
         AnalyticsService.updateUserAnalytics calculationService
           (WholeAnalytics updatedAnalytics);;
         resolved
     | None => resolved
     end)
    (λ error, resolved).

Definition trackVoiceRecordingStart : M unit :=
  let! now := read now in
  bufferEvent voice_recording_started (list_to_map [("timestamp", JsDate now)]).

Definition trackVoiceRecordingComplete
    (duration transcriptionLength : Q) (audioQuality : Grade) : M unit :=
  bufferEvent voice_recording_completed
    (list_to_map
       [("duration", JsNumber duration);
        ("transcriptionLength", JsNumber transcriptionLength);
        ("audioQuality", JsString (Grade_name audioQuality));
        ("success", JsBoolean true)]);;
  updateProductivityMetrics voice_recording duration.

Definition trackVoiceRecordingFailed (duration : Q) (errorMessage : string) : M unit :=
  bufferEvent voice_recording_failed
    (list_to_map
       [("duration", JsNumber duration);
        ("errorMessage", JsString errorMessage);
        ("success", JsBoolean false)]).

Definition trackFileUploadStart (fileSize : Q) (fileType : string) : M unit :=
  let! now := read now in
  bufferEvent file_upload_started
    (list_to_map
       [("fileSize", JsNumber fileSize);
        ("fileType", JsString fileType);
        ("timestamp", JsDate now)]).

Definition trackFileUploadComplete
    (fileSize : Q) (fileType : string) (processingTime contentLength : Q) : M unit :=
  bufferEvent file_upload_completed
    (list_to_map
       [("fileSize", JsNumber fileSize);
        ("fileType", JsString fileType);
        ("processingTime", JsNumber processingTime);
        ("contentLength", JsNumber contentLength);
        ("success", JsBoolean true)]);;
  updateProductivityMetrics file_upload processingTime.

Definition trackFileUploadFailed (fileSize : Q) (fileType errorMessage : string) : M unit :=
  bufferEvent file_upload_failed
    (list_to_map
       [("fileSize", JsNumber fileSize);
        ("fileType", JsString fileType);
        ("errorMessage", JsString errorMessage);
        ("success", JsBoolean false)]).

Definition trackSearchStart (query : string) (searchType : SearchType) : M unit :=
  let! now := read now in
  bufferEvent search_performed
    (list_to_map
       [("query", JsString query);
        ("searchType", JsString (SearchType_name searchType));
        ("timestamp", JsDate now)]).

Definition trackSearchComplete
    (query : string) (resultsCount : Q) (searchType : SearchType) (searchDuration : Q) : M unit :=
  bufferEvent search_performed
    (list_to_map
       [("query", JsString query);
        ("resultsCount", JsNumber resultsCount);
        ("searchType", JsString (SearchType_name searchType));
        ("duration", JsNumber searchDuration);
        ("success", JsBoolean (bool_decide (0 < resultsCount)%Q))]);;
  updateSearchMetrics query resultsCount searchType.

Definition trackSearchResultClick (query : string) (resultIndex : Q) (contentId : string) : M unit :=
  bufferEvent search_result_clicked
    (list_to_map
       [("query", JsString query);
        ("selectedResultIndex", JsNumber resultIndex);
        ("contentId", JsString contentId)]).

Definition trackContentView (contentId : string) (contentType : ContentType) (viewDuration : Q) : M unit :=
  bufferEvent item_viewed
    (list_to_map
       [("contentId", JsString contentId);
        ("contentType", JsString (ContentType_name contentType));
        ("duration", JsNumber viewDuration)]).

Definition trackContentDelete (contentId : string) (contentType : ContentType) : M unit :=
  bufferEvent item_deleted
    (list_to_map
       [("contentId", JsString contentId);
        ("contentType", JsString (ContentType_name contentType))]).

Definition trackFeatureUsage (featureName featureCategory : string) (context : EventData) : M unit :=
  bufferEvent feature_used
    (context ∪ list_to_map
       [("featureName", JsString featureName);
        ("featureCategory", JsString featureCategory)]).

Definition trackError (errorType errorMessage : string) (context : EventData) : M unit :=
  bufferEvent error_occurred
    (context ∪ list_to_map
       [("errorMessage", JsString errorMessage);
        ("errorType", JsString errorType)]).

Definition trackGoalCreated (goalId goalType : string) (targetValue : Q) : M unit :=
  bufferEvent goal_created
    (list_to_map
       [("goalId", JsString goalId);
        ("goalType", JsString goalType);
        ("targetValue", JsNumber targetValue)]).

Definition trackGoalCompleted (goalId goalType : string) (finalValue : Q) : M unit :=
  bufferEvent goal_completed
    (list_to_map
       [("goalId", JsString goalId);
        ("goalType", JsString goalType);
        ("currentValue", JsNumber finalValue)]).

Definition trackAchievementUnlocked (achievementId achievementType : string) (value : Q) : M unit :=
  bufferEvent achievement_unlocked
    (list_to_map
       [("goalId", JsString achievementId);
        ("goalType", JsString achievementType);
        ("currentValue", JsNumber value)]).

Definition trackPerformanceMetric (metricName : string) (value : Q) (unit_ : string) : M unit :=
  bufferEvent feature_used
    (list_to_map
       [("featureName", JsString "performance_metric");
        ("featureCategory", JsString "performance");
        ("metricName", JsString metricName);
        ("value", JsNumber value);
        ("unit", JsString unit_)]).

Definition trackLoadTime (componentName : string) (loadTime : Q) : M unit :=
  trackPerformanceMetric (componentName +:+ "_load_time") loadTime "ms".

Definition trackUserInteraction (interactionType element : string) (duration : option Q) : M unit :=
  bufferEvent feature_used
    (list_to_map
       [("featureName", JsString "user_interaction");
        ("featureCategory", JsString "ui");
        ("interactionType", JsString interactionType);
        ("element", JsString element);
        ("duration", from_option JsNumber JsUndefined duration)]).

Definition handleSessionPause : M unit :=
  write (update_isActive (λ _, false));;
  flushActivityBuffer.

Definition handleSessionResume : M unit :=
  write (update_isActive (λ _, true));;
  let! now := read now in
  write (update_lastActivityTime (λ _, now)).

Definition handleSessionEnd : M unit :=
  let! now := read now in
  let! sessionStartTime := read sessionStartTime in
  let sessionDuration := now - sessionStartTime in
  bufferEvent session_ended
    (list_to_map
       [("duration", JsNumber (inject_Z sessionDuration / 1000 / 60));
        ("sessionDuration", JsNumber (inject_Z sessionDuration))]);;
  flushActivityBuffer;;
  write (update_flushInterval (λ _, false)).

(** The callback of [setInterval (..., 30000)]; it runs while the timer is
    armed. *)
Definition timerTick : M unit :=
  let! armed := read flushInterval in
  if armed then flushActivityBuffer else resolved.

(** [new AnalyticsCollectionService (analyticsService)]. *)
Definition constructor : M unit :=
  let! now := read now in
  write (update_sessionStartTime (λ _, now));;
  write (update_lastActivityTime (λ _, now));;
  write (update_activityBuffer (λ _, []));;
  write (update_isActive (λ _, true));;
  write (update_flushInterval (λ _, true)).

Definition destroy : M unit :=
  write (update_flushInterval (λ _, false));;
  flushActivityBuffer.

(** The public tracking methods, as data. *)
Inductive TrackCall :=
  | VoiceRecordingStart
  | VoiceRecordingComplete (duration transcriptionLength : Q) (audioQuality : Grade)
  | VoiceRecordingFailed (duration : Q) (errorMessage : string)
  | FileUploadStart (fileSize : Q) (fileType : string)
  | FileUploadComplete (fileSize : Q) (fileType : string) (processingTime contentLength : Q)
  | FileUploadFailed (fileSize : Q) (fileType errorMessage : string)
  | SearchStart (query : string) (searchType : SearchType)
  | SearchComplete (query : string) (resultsCount : Q) (searchType : SearchType) (searchDuration : Q)
  | SearchResultClick (query : string) (resultIndex : Q) (contentId : string)
  | ContentView (contentId : string) (contentType : ContentType) (viewDuration : Q)
  | ContentDelete (contentId : string) (contentType : ContentType)
  | FeatureUsage (featureName featureCategory : string) (context : EventData)
  | Error (errorType errorMessage : string) (context : EventData)
  | GoalCreated (goalId goalType : string) (targetValue : Q)
  | GoalCompleted (goalId goalType : string) (finalValue : Q)
  | AchievementUnlocked (achievementId achievementType : string) (value : Q)
  | PerformanceMetric (metricName : string) (value : Q) (unit_ : string)
  | LoadTime (componentName : string) (loadTime : Q)
  | UserInteraction (interactionType element : string) (duration : option Q).

Definition track (call : TrackCall) : M unit :=
  match call with
  | VoiceRecordingStart => trackVoiceRecordingStart
  | VoiceRecordingComplete d l q => trackVoiceRecordingComplete d l q
  | VoiceRecordingFailed d e => trackVoiceRecordingFailed d e
  | FileUploadStart s t => trackFileUploadStart s t
  | FileUploadComplete s t p l => trackFileUploadComplete s t p l
  | FileUploadFailed s t e => trackFileUploadFailed s t e
  | SearchStart q t => trackSearchStart q t
  | SearchComplete q n t d => trackSearchComplete q n t d
  | SearchResultClick q i c => trackSearchResultClick q i c
  | ContentView c t d => trackContentView c t d
  | ContentDelete c t => trackContentDelete c t
  | FeatureUsage n c x => trackFeatureUsage n c x
  | Error t e x => trackError t e x
  | GoalCreated g t v => trackGoalCreated g t v
  | GoalCompleted g t v => trackGoalCompleted g t v
  | AchievementUnlocked a t v => trackAchievementUnlocked a t v
  | PerformanceMetric n v u => trackPerformanceMetric n v u
  | LoadTime c t => trackLoadTime c t
  | UserInteraction i e d => trackUserInteraction i e d
  end.

(** What happens to a collector: a tracking call, a firing of the flush
    timer, or time passing. *)
Inductive Step :=
  | Track (call : TrackCall)
  | TimerFires
  | Elapse (milliseconds : Z).

Definition step (s : Step) : M unit :=
  match s with
  | Track call => track call
  | TimerFires => timerTick
  | Elapse milliseconds => write (update_now (λ now, now + milliseconds))
  end.

Definition run (steps : list Step) : M unit := for_of steps step.

(** The number of tracking calls among the steps. *)
Definition isTrack (s : Step) : bool := if s is Track _ then true else false.

Definition tracked (steps : list Step) : nat := length (filter isTrack steps).

End Collector.

End AnalyticsCollectionService.

(** ** GamificationService *)

Module GamificationService.

Definition achievementDefinitions : list AchievementDefinition :=
  [
    {| definition_id := "first_voice_note";
       definition_title := "First Words";
       definition_description := "Record your first voice note";
       definition_icon := "🎤";
       definition_category := "Getting Started";
       definition_rarity := common;
       requirements :=
         [ {| requirement_type := req_count; metric := "voice_recordings"; requirement_value := 1; timeframe := None |} ];
       xpReward := 100;
       hidden := false |};
    {| definition_id := "first_file_upload";
       definition_title := "Digital Packrat";
       definition_description := "Upload your first document";
       definition_icon := "📄";
       definition_category := "Getting Started";
       definition_rarity := common;
       requirements :=
         [ {| requirement_type := req_count; metric := "file_uploads"; requirement_value := 1; timeframe := None |} ];
       xpReward := 100;
       hidden := false |};
    {| definition_id := "first_search";
       definition_title := "Seeker";
       definition_description := "Perform your first search";
       definition_icon := "🔍";
       definition_category := "Getting Started";
       definition_rarity := common;
       requirements :=
         [ {| requirement_type := req_count; metric := "searches"; requirement_value := 1; timeframe := None |} ];
       xpReward := 50;
       hidden := false |};
    {| definition_id := "voice_enthusiast";
       definition_title := "Voice Enthusiast";
       definition_description := "Record 10 voice notes";
       definition_icon := "🎙️";
       definition_category := "Content Creation";
       definition_rarity := common;
       requirements :=
         [ {| requirement_type := req_count; metric := "voice_recordings"; requirement_value := 10; timeframe := None |} ];
       xpReward := 250;
       hidden := false |};
    {| definition_id := "content_creator";
       definition_title := "Content Creator";
       definition_description := "Create 50 items total";
       definition_icon := "📝";
       definition_category := "Content Creation";
       definition_rarity := rare;
       requirements :=
         [ {| requirement_type := req_count; metric := "total_items"; requirement_value := 50; timeframe := None |} ];
       xpReward := 500;
       hidden := false |};
    {| definition_id := "prolific_creator";
       definition_title := "Prolific Creator";
       definition_description := "Create 100 items total";
       definition_icon := "🏆";
       definition_category := "Content Creation";
       definition_rarity := epic;
       requirements :=
         [ {| requirement_type := req_count; metric := "total_items"; requirement_value := 100; timeframe := None |} ];
       xpReward := 1000;
       hidden := false |};
    {| definition_id := "consistent_user";
       definition_title := "Consistent User";
       definition_description := "Maintain a 7-day streak";
       definition_icon := "🔥";
       definition_category := "Consistency";
       definition_rarity := rare;
       requirements :=
         [ {| requirement_type := req_streak; metric := "daily_usage"; requirement_value := 7; timeframe := None |} ];
       xpReward := 300;
       hidden := false |};
    {| definition_id := "dedication_master";
       definition_title := "Dedication Master";
       definition_description := "Maintain a 30-day streak";
       definition_icon := "💎";
       definition_category := "Consistency";
       definition_rarity := epic;
       requirements :=
         [ {| requirement_type := req_streak; metric := "daily_usage"; requirement_value := 30; timeframe := None |} ];
       xpReward := 1500;
       hidden := false |};
    {| definition_id := "legendary_dedication";
       definition_title := "Legendary Dedication";
       definition_description := "Maintain a 100-day streak";
       definition_icon := "👑";
       definition_category := "Consistency";
       definition_rarity := legendary;
       requirements :=
         [ {| requirement_type := req_streak; metric := "daily_usage"; requirement_value := 100; timeframe := None |} ];
       xpReward := 5000;
       hidden := false |};
    {| definition_id := "productivity_novice";
       definition_title := "Productivity Novice";
       definition_description := "Achieve a productivity score of 70+";
       definition_icon := "📈";
       definition_category := "Productivity";
       definition_rarity := common;
       requirements :=
         [ {| requirement_type := req_score; metric := "productivity_score"; requirement_value := 70; timeframe := None |} ];
       xpReward := 200;
       hidden := false |};
    {| definition_id := "efficiency_expert";
       definition_title := "Efficiency Expert";
       definition_description := "Achieve a productivity score of 90+";
       definition_icon := "⚡";
       definition_category := "Productivity";
       definition_rarity := rare;
       requirements :=
         [ {| requirement_type := req_score; metric := "productivity_score"; requirement_value := 90; timeframe := None |} ];
       xpReward := 500;
       hidden := false |};
    {| definition_id := "productivity_legend";
       definition_title := "Productivity Legend";
       definition_description := "Maintain 90+ productivity for a week";
       definition_icon := "🚀";
       definition_category := "Productivity";
       definition_rarity := legendary;
       requirements :=
         [ {| requirement_type := req_score; metric := "productivity_score"; requirement_value := 90; timeframe := Some weekly |} ];
       xpReward := 2000;
       hidden := false |};
    {| definition_id := "search_explorer";
       definition_title := "Search Explorer";
       definition_description := "Perform 50 searches";
       definition_icon := "🗺️";
       definition_category := "Discovery";
       definition_rarity := common;
       requirements :=
         [ {| requirement_type := req_count; metric := "searches"; requirement_value := 50; timeframe := None |} ];
       xpReward := 300;
       hidden := false |};
    {| definition_id := "information_hunter";
       definition_title := "Information Hunter";
       definition_description := "Achieve 90% search success rate";
       definition_icon := "🎯";
       definition_category := "Discovery";
       definition_rarity := rare;
       requirements :=
         [ {| requirement_type := req_score; metric := "search_success_rate"; requirement_value := 90; timeframe := None |} ];
       xpReward := 400;
       hidden := false |};
    {| definition_id := "marathon_session";
       definition_title := "Marathon Session";
       definition_description := "Spend 2+ hours in a single session";
       definition_icon := "⏰";
       definition_category := "Engagement";
       definition_rarity := rare;
       requirements :=
         [ {| requirement_type := req_time; metric := "session_duration"; requirement_value := 120; timeframe := None |} ];
       xpReward := 350;
       hidden := false |};
    {| definition_id := "time_investor";
       definition_title := "Time Investor";
       definition_description := "Spend 50+ hours total";
       definition_icon := "💰";
       definition_category := "Engagement";
       definition_rarity := epic;
       requirements :=
         [ {| requirement_type := req_time; metric := "total_time"; requirement_value := 3000; timeframe := None |} ];
       xpReward := 800;
       hidden := false |};
    {| definition_id := "early_bird";
       definition_title := "Early Bird";
       definition_description := "Use the app before 7 AM";
       definition_icon := "🌅";
       definition_category := "Special";
       definition_rarity := rare;
       requirements :=
         [ {| requirement_type := req_combo; metric := "early_usage"; requirement_value := 1; timeframe := None |} ];
       xpReward := 200;
       hidden := true |};
    {| definition_id := "night_owl";
       definition_title := "Night Owl";
       definition_description := "Use the app after 11 PM";
       definition_icon := "🦉";
       definition_category := "Special";
       definition_rarity := rare;
       requirements :=
         [ {| requirement_type := req_combo; metric := "late_usage"; requirement_value := 1; timeframe := None |} ];
       xpReward := 200;
       hidden := true |};
    {| definition_id := "perfectionist";
       definition_title := "Perfectionist";
       definition_description := "Complete all daily goals for a week";
       definition_icon := "✨";
       definition_category := "Special";
       definition_rarity := epic;
       requirements :=
         [ {| requirement_type := req_combo; metric := "perfect_week"; requirement_value := 1; timeframe := None |} ];
       xpReward := 1000;
       hidden := false |}
  ].

(** [new GamificationService (storageService)]. *)
Definition constructor : M unit :=
  write (update_userLevel (λ _, 1));;
  write (update_userXP (λ _, 0)).

(** [Math.floor (Math.sqrt (xp / 100)) + 1], for points from 0 to
    [wholeLimit]; for negative points the square root is [NaN], which the
    embedding does not have. *)
Definition calculateLevel (xp : Z) : Z := JS.floor_sqrt (xp / 100) + 1.

Definition getXPForNextLevel (currentXP : Z) : Z :=
  let currentLevel := calculateLevel currentXP in
  let nextLevelXP := currentLevel ^ 2 * 100 in
  nextLevelXP - currentXP.

Definition awardXP (amount : Z) : M (Z * bool) :=
  let! currentXP := read userXP in
  let! currentLevel := read userLevel in
  write (update_userXP (λ userXP, userXP + amount));;
  let! userXP_ := read userXP in
  let newLevel := calculateLevel userXP_ in
  let leveledUp := bool_decide (currentLevel < newLevel) in
  (if leveledUp then
     write (update_userLevel (λ _, newLevel));;
     AnalyticsStorageService.trackEvent achievement_unlocked
       (list_to_map
          [("goalId", JsString ("level_" +:+ pretty newLevel));
           ("goalType", JsString "level_up");
           ("currentValue", JsNumber (inject_Z newLevel))])
   else resolved);;
  let! userAnalytics := AnalyticsStorageService.getUserAnalytics in
  match userAnalytics with
  | Some userAnalytics =>
      let! xp := read userXP in
      let! level := read userLevel in
      AnalyticsStorageService.saveUserAnalytics
        (with_level level (with_xp xp userAnalytics))
  | None => resolved
  end;;
  mret (newLevel, leveledUp).

Definition unlockAchievement (achievement : Achievement) (xpReward : Z) : M unit :=
  let! now := read now in
  AnalyticsStorageService.saveInsight
    {| insight_id := "achievement_" +:+ achievement_id achievement;
       insight_type := productivity_trend;
       insight_title := "Achievement Unlocked: " +:+ achievement_title achievement;
       insight_description := achievement_description achievement;
       impact := high;
       insight_category := "Achievements";
       actionable := false;
       relatedMetrics := [];
       generatedDate := now |};;
  awardXP xpReward;;
  AnalyticsStorageService.trackEvent achievement_unlocked
    (list_to_map
       [("goalId", JsString (achievement_id achievement));
        ("goalType", JsString (achievement_category achievement));
        ("currentValue", JsNumber (inject_Z xpReward))]).

Definition getUnlockedAchievements : M (list Achievement) :=
  let! insights := AnalyticsStorageService.getInsights (Some "Achievements") in
  mret (map (λ insight,
               {| achievement_id := JS.replace "achievement_" "" (insight_id insight);
                  achievement_title :=
                    JS.replace "Achievement Unlocked: " "" (insight_title insight);
                  achievement_description := insight_description insight;
                  achievement_icon := "🏆";
                  achievement_category := "Achievement";
                  progress := 100;
                  maxProgress := 100;
                  unlocked := true;
                  unlockedAt := generatedDate insight;
                  achievement_rarity := common |})
            insights).

Definition createGoal (goalData : Goal) : M Goal :=
  let! (timestamp, suffix) := uniqueId in
  let goal :=
    {| goal_id := "goal_" +:+ pretty timestamp +:+ "_" +:+ pretty suffix;
       goal_type := goal_type goalData;
       goal_title := goal_title goalData;
       goal_description := goal_description goalData;
       target := target goalData;
       current := current goalData;
       unit_ := unit_ goalData;
       deadline := deadline goalData;
       createdDate := timestamp;
       status := active;
       priority := priority goalData;
       goal_category := goal_category goalData |} in
  AnalyticsStorageService.saveGoal goal;;
  AnalyticsStorageService.trackEvent goal_created
    (list_to_map
       [("goalId", JsString (goal_id goal));
        ("goalType", JsString (GoalType_name (goal_type goal)));
        ("targetValue", JsNumber (target goal))]);;
  mret goal.

(** [Math.round (baseXP * difficultyMultiplier * priorityMultiplier)].  For
    a target that is a whole number the product is a whole number and the
    doubles round to it; for other targets the product on doubles can
    fall to the other side of a half. *)
Definition calculateGoalXP (goal : Goal) : Z :=
  let baseXP := 100%Q in
  let difficultyMultiplier := JS.Math_max 1 (target goal / 10) in
  let priorityMultiplier :=
    match priority goal with
    | high => 15 # 10
    | medium => 12 # 10
    | low => 1%Q
    end in
  JS.Math_round (baseXP * difficultyMultiplier * priorityMultiplier).

Definition checkGoalAchievements (completedGoal : Goal) : M unit :=
  let! allGoals := AnalyticsStorageService.getGoals None in
  let completedGoals := filter (λ g, status g = completed) allGoals in
  let! now := read now in
  (if decide (length completedGoals = 1%nat) then
     unlockAchievement
       {| achievement_id := "first_goal";
          achievement_title := "Goal Getter";
          achievement_description := "Complete your first goal";
          achievement_icon := "🎯";
          achievement_category := "Goals";
          progress := 1;
          maxProgress := 1;
          unlocked := true;
          unlockedAt := now;
          achievement_rarity := common |} 150
   else resolved);;
  if decide (length completedGoals = 10%nat) then
    unlockAchievement
      {| achievement_id := "goal_master";
         achievement_title := "Goal Master";
         achievement_description := "Complete 10 goals";
         achievement_icon := "🏆";
         achievement_category := "Goals";
         progress := 10;
         maxProgress := 10;
         unlocked := true;
         unlockedAt := now;
         achievement_rarity := rare |} 500
  else resolved.

Definition updateGoalProgress (goalId : string) (currentValue : Q) : M bool :=
  let! goals := AnalyticsStorageService.getGoals None in
  let goal := find (λ g, bool_decide (goal_id g = goalId)) goals in
  match goal with
  | None => mret false
  | Some goal =>
      let wasCompleted := bool_decide (status goal = completed) in
      let completes :=
        bool_decide (target goal <= currentValue)%Q && negb wasCompleted in
      let updates :=
        {| updates_current := currentValue;
           updates_status := if completes then Some completed else None |} in
      (if completes then
         let xpReward := calculateGoalXP goal in
         awardXP xpReward;;
         AnalyticsStorageService.trackEvent goal_completed
           (list_to_map
              [("goalId", JsString (goal_id goal));
               ("goalType", JsString (GoalType_name (goal_type goal)));
               ("currentValue", JsNumber currentValue)]);;
         checkGoalAchievements goal
       else resolved);;
      AnalyticsStorageService.updateGoal goalId updates;;
      mret (bool_decide (updates_status updates = Some completed))
  end.

Definition getActiveGoals : M (list Goal) :=
  AnalyticsStorageService.getGoals (Some active).

Definition getCompletedGoals : M (list Goal) :=
  AnalyticsStorageService.getGoals (Some completed).

Definition checkPerfectWeek : M bool :=
  let! goals := AnalyticsStorageService.getGoals (Some completed) in
  let! now := read now in
  let weekAgo := now - 7 * msPerDay in
  let recentCompletedGoals :=
    filter (λ goal, JS.includes (GoalType_name (goal_type goal)) "daily" = true ∧
                    weekAgo ≤ createdDate goal) goals in
  mret (bool_decide (7 ≤ length recentCompletedGoals)%nat).

Definition getMetricValue (requirement : AchievementRequirement)
    (userAnalytics : UserAnalytics) (events : list AnalyticsEvent) : M Q :=
  let metric := metric requirement in
  if decide (metric = "voice_recordings") then
    mret (inject_Z (voiceRecordings userAnalytics))
  else if decide (metric = "file_uploads") then
    mret (inject_Z (documentsUploaded userAnalytics))
  else if decide (metric = "total_items") then
    mret (inject_Z (totalItems userAnalytics))
  else if decide (metric = "searches") then
    mret (inject_Z (searchesPerformed userAnalytics))
  else if decide (metric = "productivity_score") then
    mret (inject_Z (ua_productivityScore userAnalytics))
  else if decide (metric = "daily_usage") then
    mret (inject_Z (streakDays userAnalytics))
  else if decide (metric = "search_success_rate") then
    let searchEvents := filter (λ e, event_type e = search_performed) events in
    let successfulSearches :=
      filter (λ e, (0 < numberOr0 (event_data e) "resultsCount")%Q) searchEvents in
    mret (if decide (0 < length searchEvents)%nat then
            (inject_Z (Z.of_nat (length successfulSearches))
             / inject_Z (Z.of_nat (length searchEvents)) * 100)%Q
          else 0%Q)
  else if decide (metric = "session_duration") then
    mret (averageSessionDuration userAnalytics)
  else if decide (metric = "total_time") then
    mret (totalTimeSpent userAnalytics)
  else if decide (metric = "early_usage") then
    mret (if existsb (λ e, bool_decide (getHours (event_timestamp e) < 7)) events
          then 1%Q else 0%Q)
  else if decide (metric = "late_usage") then
    mret (if existsb (λ e, bool_decide (23 ≤ getHours (event_timestamp e))) events
          then 1%Q else 0%Q)
  else if decide (metric = "perfect_week") then
    let! perfect := checkPerfectWeek in
    mret (if perfect : bool then 1%Q else 0%Q)
  else mret 0%Q.

(** The [for] loop of [checkAchievementRequirements]. *)
Fixpoint requirementsLoop (requirements : list AchievementRequirement)
    (userAnalytics : UserAnalytics) (events : list AnalyticsEvent) : M bool :=
  match requirements with
  | [] => mret true
  | requirement :: rest =>
      let! currentValue := getMetricValue requirement userAnalytics events in
      if decide (currentValue < requirement_value requirement)%Q then mret false
      else requirementsLoop rest userAnalytics events
  end.

Definition checkAchievementRequirements (definition : AchievementDefinition)
    (userAnalytics : UserAnalytics) (events : list AnalyticsEvent) : M bool :=
  requirementsLoop (requirements definition) userAnalytics events.

(** The [for] loop of [checkAchievements] over the catalogue, entered with
    the achievements unlocked so far by this call. *)
Fixpoint achievementsLoop (definitions : list AchievementDefinition)
    (existingIds : list string) (userAnalytics : UserAnalytics)
    (events : list AnalyticsEvent) (newAchievements : list Achievement)
    : M (list Achievement) :=
  match definitions with
  | [] => mret newAchievements
  | definition :: rest =>
      if decide (definition_id definition ∈ existingIds) then
        achievementsLoop rest existingIds userAnalytics events newAchievements
      else
        let! isUnlocked := checkAchievementRequirements definition userAnalytics events in
        if isUnlocked : bool then
          match requirements definition with
          | [] => throw TypeError
          | first :: _ =>
              let! now := read now in
              let achievement :=
                {| achievement_id := definition_id definition;
                   achievement_title := definition_title definition;
                   achievement_description := definition_description definition;
                   achievement_icon := definition_icon definition;
                   achievement_category := definition_category definition;
                   progress := requirement_value first;
                   maxProgress := requirement_value first;
                   unlocked := true;
                   unlockedAt := now;
                   achievement_rarity := definition_rarity definition |} in
              unlockAchievement achievement (xpReward definition);;
              achievementsLoop rest existingIds userAnalytics events
                               (newAchievements ++ [achievement])
          end
        else
          achievementsLoop rest existingIds userAnalytics events newAchievements
  end.

Definition checkAchievements (userAnalytics : UserAnalytics)
    (events : list AnalyticsEvent) : M (list Achievement) :=
  let newAchievements := [] in
  let! existingAchievements := getUnlockedAchievements in
  let existingIds := map achievement_id existingAchievements in
  achievementsLoop achievementDefinitions existingIds userAnalytics events newAchievements.

Definition contentMilestones : list Z := [1; 5; 10; 25; 50; 100; 250; 500; 1000].

Definition streakMilestones : list Z := [3; 7; 14; 30; 60; 100; 365].

Definition searchMilestones : list Z := [10; 50; 100; 500; 1000].

Definition checkMilestones (now : Z) (userAnalytics : UserAnalytics) : list Milestone :=
  let milestones := [] in
  let milestones :=
    foldl (λ milestones milestone,
             if decide (totalItems userAnalytics = milestone) then
               milestones ++
               [ {| milestone_id := "items_" +:+ pretty milestone;
                    milestone_type := items_milestone;
                    milestone_title := pretty milestone +:+ " Items Created";
                    milestone_description :=
                      "Congratulations! You've created " +:+ pretty milestone +:+ " items.";
                    achievedDate := now;
                    milestone_value := milestone;
                    milestone_icon :=
                      if decide (100 ≤ milestone) then "🏆"
                      else if decide (50 ≤ milestone) then "🥇" else "📝" |} ]
             else milestones)
          milestones contentMilestones in
  let milestones :=
    foldl (λ milestones milestone,
             if decide (streakDays userAnalytics = milestone) then
               milestones ++
               [ {| milestone_id := "streak_" +:+ pretty milestone;
                    milestone_type := streak_milestone;
                    milestone_title := pretty milestone +:+ " Day Streak";
                    milestone_description :=
                      "Amazing! You've maintained a " +:+ pretty milestone +:+ " day streak!";
                    achievedDate := now;
                    milestone_value := milestone;
                    milestone_icon :=
                      if decide (100 ≤ milestone) then "👑"
                      else if decide (30 ≤ milestone) then "🔥" else "⚡" |} ]
             else milestones)
          milestones streakMilestones in
  let milestones :=
    foldl (λ milestones milestone,
             if decide (searchesPerformed userAnalytics = milestone) then
               milestones ++
               [ {| milestone_id := "searches_" +:+ pretty milestone;
                    milestone_type := search_milestone;
                    milestone_title := pretty milestone +:+ " Searches Performed";
                    milestone_description :=
                      "You're becoming a search expert with " +:+ pretty milestone +:+
                      " searches!";
                    achievedDate := now;
                    milestone_value := milestone;
                    milestone_icon := "🔍" |} ]
             else milestones)
          milestones searchMilestones in
  milestones.

End GamificationService.

(** * The vocabulary of the statements *)

(** A zone that never changes its clock. *)
Definition steadyZone (zone : Z → Z) : Prop := ∀ t t', zone t = zone t'.

(** A row with a created item is dated on the local calendar day that
    lies [offset] days before the one of [today]. *)
Definition activeOn (zone : Z → Z) (today : Z) (rows : list DailyUsageData)
    (offset : Z) : Prop :=
  ∃ usage, usage ∈ rows ∧
           localDay zone (date usage) = localDay zone today - offset ∧
           0 < itemsCreated usage.

(** The productivity score in the words of the specification. *)
Module ProductivitySpec.

Definition contentScore (day : DailyUsageData) : Q := Qmin (inject_Z (itemsCreated day) * 10) 40.
Definition searchScore (day : DailyUsageData) : Q := Qmin (inject_Z (searchCount day) * 2) 20.
Definition timeScore (day : DailyUsageData) : Q := Qmin (timeSpent day / 60 * 10) 20.
Definition consistencyScore (day : DailyUsageData) : Q :=
  if decide (0 < itemsCreated day) then 20%Q else 0%Q.

(** One day's total, capped at 100. *)
Definition dayTotal (day : DailyUsageData) : Q :=
  Qmin (contentScore day + searchScore day + timeScore day + consistencyScore day) 100.

Definition lastDays (n : nat) (days : list DailyUsageData) : list DailyUsageData :=
  drop (length days - n) days.

Definition total (scores : list Q) : Q := foldr Qplus 0%Q scores.

Definition arithmeticMean (scores : list Q) : Q :=
  (total scores / inject_Z (Z.of_nat (length scores)))%Q.

End ProductivitySpec.

Definition usageRow (date_ itemsCreated_ searchCount_ : Z) (timeSpent_ : Q) : DailyUsageData :=
  {| date := date_;
     recordingMinutes := 0;
     documentsProcessed := 0;
     searchCount := searchCount_;
     timeSpent := timeSpent_;
     sessionsCount := 1;
     itemsCreated := itemsCreated_;
     itemsDeleted := 0;
     productivityScore := 0 |}.


(** A milestone of the given type and threshold is in the list. *)
Definition generated (type : MilestoneType) (threshold : Z) (milestones : list Milestone) : Prop :=
  ∃ m, m ∈ milestones ∧ milestone_type m = type ∧ milestone_value m = threshold.

(** The store is available: no coming request is rejected. *)
Definition available (w : World) : Prop := faults w = [].

(** Observations of the world that a method leaves as they were. *)
Definition unchanged {T : Type} (observe : World → T) : relation World :=
  λ w w', observe w' = observe w.

(** Properties of the world that a method keeps. *)
Definition kept (I : World → Prop) : relation World := λ w w', I w → I w'.

(** A method keeps a relation between the world before and after it,
    whatever it returns or throws. *)
Definition preserves {A : Type} (R : relation World) (m : M A) : Prop :=
  ∀ w, R w (state m w).

(** Relations that the consumption of a fault entry does not break. *)
Class Stable (R : relation World) := {
  stable_preorder :: PreOrder R;
  stable_faults : ∀ w b rest, faults w = b :: rest → R w (update_faults (λ _, rest) w);
}.

(** A method never throws. *)
Definition returns {A : Type} (m : M A) : Prop :=
  ∀ w, ∃ a, outcome m w = Returned a.

(** What the collector owns. *)
Definition collectorState (w : World) :=
  (activityBuffer w, flushInterval w, sessionStartTime w, isActive w).

(** The event that [AnalyticsStorageService.trackEvent] builds in world [w]. *)
Definition eventAt (w : World) (type : EventType) (data : EventData) : AnalyticsEvent :=
  {| event_id := (now w, random w);
     event_type := type;
     event_timestamp := now w;
     event_sessionId := currentSessionId w;
     event_data := data |}.

(** The row of today that the store holds, or the empty row. *)
Definition todayUsage (w : World) : DailyUsageData :=
  match db_analytics w !! daily_usage (formatDateKey (now w)) with
  | Some {| record_data := DailyUsage usage |} => usage
  | _ => AnalyticsStorageService.createEmptyDailyUsage (now w)
  end.

(** The snapshot that the store holds. *)
Definition snapshot (w : World) : option UserAnalytics :=
  match db_analytics w !! user_analytics_current with
  | Some {| record_data := UserAnalyticsData analytics |} => Some analytics
  | _ => None
  end.

(** What an event says, apart from when and in which session. *)
Definition eventContent (e : AnalyticsEvent) : EventType * EventData :=
  (event_type e, event_data e).

Definition bufferedContent (b : BufferedEvent) : EventType * EventData :=
  (buffered_type b, buffered_data b).

(** The loop of [flushActivityBuffer]. *)
Definition deliver (eventsToFlush : list BufferedEvent) : M unit :=
  for_of eventsToFlush (λ event,
    AnalyticsService.trackEvent (buffered_type event) (buffered_data event)).

(** A world in which nothing has happened yet, on a device that keeps UTC. *)
Definition emptyWorld (now_ : Z) (faults_ : list bool) : World :=
  {| now := now_;
     faults := faults_;
     random := 0;
     db_analytics := ∅;
     db_events := [];
     db_goals := [];
     db_insights := [];
     currentSessionId := (0, 0%nat);
     initialized := false;
     sessionStartTime := 0;
     lastActivityTime := 0;
     activityBuffer := [];
     flushInterval := false;
     isActive := false;
     userLevel := 1;
     userXP := 0;
     timeZone := utcZone |}.

(** The application creates the services. *)
Definition startServices : M unit :=
  AnalyticsStorageService.constructor;;
  AnalyticsCollectionService.constructor;;
  GamificationService.constructor.

Definition startedWorld (now_ : Z) (faults_ : list bool) : World :=
  state startServices (emptyWorld now_ faults_).

(** A calculator that leaves the derived fields of the snapshot empty, for
    examples. *)
Definition idleCalculator : Calculator :=
  {| calculateWeeklyUsage := λ _, [];
     calculateMonthlyUsage := λ _, [];
     findMostActiveDay := λ _, "Sunday";
     calculateAverageSessionDuration := λ _, 0%Q;
     analyzeSearchTerms := λ _, [];
     categorizeContent := λ _, [] |}.

(** The sum that delivery keeps: what is stored and what is buffered. *)
Definition held (w : World) : nat := length (db_events w) + length (activityBuffer w).

Definition eventsAndBuffer (w : World) := (db_events w, activityBuffer w).

(** Tracking calls in quick succession: [bufferEvent] for each of them, with
    no timer tick in between. *)
Definition bufferAll (calls : list (EventType * EventData)) : M unit :=
  for_of calls (λ call, AnalyticsCollectionService.bufferEvent call.1 call.2).

(** Eleven searches, numbered in their queries. *)
Definition elevenSearches : list (EventType * EventData) :=
  map (λ n : nat, (search_performed, {[ "query" := JsString (pretty n) ]})) (seq 0 11).

(** The record under which a snapshot is stored. *)
Definition snapshotRecord (timestamp : Z) (analytics : UserAnalytics) : AnalyticsRecord :=
  {| record_id := user_analytics_current;
     record_type := type_user_analytics;
     record_data := UserAnalyticsData analytics;
     record_timestamp := timestamp;
     record_version := 1 |}.

(** A method returns whenever the store is available. *)
Definition succeeds {A : Type} (m : M A) : Prop :=
  ∀ w, available w → ∃ a, outcome m w = Returned a.

(** The insight under which an achievement is recorded as unlocked. *)
Definition achievementInsight (achievement : Achievement) (now_ : Z) : ProductivityInsight :=
  {| insight_id := "achievement_" +:+ achievement_id achievement;
     insight_type := productivity_trend;
     insight_title := "Achievement Unlocked: " +:+ achievement_title achievement;
     insight_description := achievement_description achievement;
     impact := high;
     insight_category := "Achievements";
     actionable := false;
     relatedMetrics := [];
     generatedDate := now_ |}.

(** The points [checkGoalAchievements] awards in world [w]. *)
Definition goalBonus (w : World) : Z :=
  let completedGoals := filter (λ g, status g = completed) (db_goals w) in
  (if decide (length completedGoals = 1%nat) then 150 else 0) +
  (if decide (length completedGoals = 10%nat) then 500 else 0).

(** The number of stored events of a type. *)
Definition eventCount (type : EventType) (w : World) : nat :=
  length (filter (λ e, event_type e = type) (db_events w)).

(** The goal stored under an id, as [goals.find (g => g.id === goalId)]. *)
Definition findGoal (goalId : string) (w : World) : option Goal :=
  find (λ g, bool_decide (goal_id g = goalId)) (db_goals w).

Definition exampleGoal : Goal :=
  {| goal_id := "goal_1";
     goal_type := daily_recordings;
     goal_title := "Voice Note Challenge";
     goal_description := "Record 3 voice notes today";
     target := 3;
     current := 0;
     unit_ := "notes";
     deadline := 1700006399999;
     createdDate := 1700000000000;
     status := active;
     priority := medium;
     goal_category := "Daily Challenge" |}.

(** The services are running and one active goal is stored. *)
Definition goalWorld : World :=
  update_db_goals (λ _, [exampleGoal]) (startedWorld 1700000000000 []).

(** Three content items. *)
Definition threeItems : list ContentItem :=
  [ {| item_id := "a"; item_type := voice; item_title := "Standup";
       content := "meeting notes"; item_timestamp := 1700000000000 |};
    {| item_id := "b"; item_type := file; item_title := "Plan";
       content := "project plan"; item_timestamp := 1700000000000 |};
    {| item_id := "c"; item_type := voice; item_title := "Idea";
       content := "an idea"; item_timestamp := 1700000000000 |} ].

(** A snapshot for three items is stored; then the page is reloaded, so the
    analytics service is a new, uninitialized object over the same database,
    and the first and the sixth request to come are rejected. *)
Definition reloadedWorld : World :=
  update_faults (λ _, [true; false; false; false; false; true])
    (update_initialized (λ _, false)
       (state (AnalyticsService.updateUserAnalytics idleCalculator (ItemsArray threeItems))
              (startedWorld 1700000000000 []))).

(** The ids [getUnlockedAchievements] reads back from the insights. *)
Definition unlockedIds (w : World) : list string :=
  map (λ insight, JS.replace "achievement_" "" (insight_id insight))
      (filter (λ insight, insight_category insight = "Achievements") (db_insights w)).

(** The value [getMetricValue] returns for a requirement in world [w]. *)
Definition metricValue (w : World) (requirement : AchievementRequirement)
    (userAnalytics : UserAnalytics) (events : list AnalyticsEvent) : Q :=
  match outcome (GamificationService.getMetricValue requirement userAnalytics events) w with
  | Returned value => value
  | Thrown _ => 0%Q
  end.

(** All the listed requirements of a definition are met. *)
Definition requirementsMet (w : World) (userAnalytics : UserAnalytics)
    (events : list AnalyticsEvent) (definition : AchievementDefinition) : Prop :=
  Forall (λ requirement,
            Qle (requirement_value requirement)
                (metricValue w requirement userAnalytics events))
         (requirements definition).

(** A definition that [checkAchievements] unlocks: not unlocked before, and
    all its requirements met. *)
Definition unlockable (w : World) (existingIds : list string)
    (userAnalytics : UserAnalytics) (events : list AnalyticsEvent)
    (definition : AchievementDefinition) : Prop :=
  (definition_id definition ∉ existingIds) ∧ requirementsMet w userAnalytics events definition.

#[global] Instance unlockable_dec w existingIds userAnalytics events definition :
  Decision (unlockable w existingIds userAnalytics events definition).
Proof. unfold unlockable, requirementsMet. apply _. Defined.

(** The achievement [checkAchievements] builds from a definition. *)
Definition achievementOf (definition : AchievementDefinition) (now_ : Z) : Achievement :=
  {| achievement_id := definition_id definition;
     achievement_title := definition_title definition;
     achievement_description := definition_description definition;
     achievement_icon := definition_icon definition;
     achievement_category := definition_category definition;
     progress := from_option requirement_value 0%Q (head (requirements definition));
     maxProgress := from_option requirement_value 0%Q (head (requirements definition));
     unlocked := true;
     unlockedAt := now_;
     achievement_rarity := definition_rarity definition |}.

(** The snapshot of a user who has searched once. *)
Definition firstSearch : UserAnalytics :=
  with_searchesPerformed 1 (AnalyticsService.initialAnalytics 1700000000000).

(** The world after [checkAchievements] has run for that user, with the
    next request to the store rejected. *)
Definition unlockedThenFailing : World :=
  update_faults (λ _, [true])
    (state (GamificationService.checkAchievements firstSearch [])
           (emptyWorld 1700000000000 [])).

(** Rows of four days: two items today, one yesterday, none the day
    before, five three days ago. *)
Definition fourDays : list DailyUsageData :=
  [ usageRow 1699660800000 5 0 0;
    usageRow 1700000000000 2 0 0;
    usageRow 1699747200000 0 0 0;
    usageRow 1699833600000 1 0 0 ].

(** A snapshot with sixty items. *)
Definition sixtyItems : UserAnalytics :=
  {| totalItems := 60;
     voiceRecordings := 0;
     documentsUploaded := 60;
     searchesPerformed := 0;
     dailyUsage := [];
     weeklyUsage := [];
     monthlyUsage := [];
     ua_productivityScore := 0;
     streakDays := 0;
     level := 1;
     xp := 0;
     peakUsageHours := [];
     mostActiveDay := "Monday";
     averageSessionDuration := 0;
     totalTimeSpent := 0;
     mostSearchedTerms := [];
     contentCategories := [];
     averageContentLength := 0;
     lastActiveDate := 1700000000000;
     accountCreatedDate := 1700000000000;
     totalSessions := 0;
     averageItemsPerSession := 0 |}.

(** The zone of Los Angeles around 10 March 2024: the clock is eight hours
    behind UTC until 10:00 UTC on that day, when it is put forward by an
    hour, and seven hours behind afterwards; the local day of 10 March has
    23 hours. *)
Definition springForward : Z → Z :=
  λ t, if decide (t < 1710064800000) then -28800000 else -25200000.

(** Noon of Monday, 11 March 2024, in Los Angeles. *)
Definition mondayNoon : Z := 1710183600000.

(** A row of Monday morning and a row of Sunday noon, local time, each
    with a created item. *)
Definition mondayRow : DailyUsageData := usageRow 1710172800000 1 0 0.
Definition sundayRow : DailyUsageData := usageRow 1710097200000 1 0 0.

(** A search is buffered on a new service whose store will accept the
    read of the snapshot and reject the write of the initial one. *)
Definition searchBeforeFailedStart : World :=
  state (AnalyticsCollectionService.run idleCalculator
           [AnalyticsCollectionService.Track
              (AnalyticsCollectionService.SearchStart
                 "notes" AnalyticsCollectionService.text_search)])
        (startedWorld 1700000000000 [false; false; false; false; true]).

(** A search is stored, a second one is buffered, and the store will
    reject the next request. *)
Definition searchBeforeRejectedAdd : World :=
  update_faults (λ _, [true])
    (state (AnalyticsCollectionService.run idleCalculator
              [AnalyticsCollectionService.Track
                 (AnalyticsCollectionService.SearchStart
                    "notes" AnalyticsCollectionService.text_search);
               AnalyticsCollectionService.TimerFires;
               AnalyticsCollectionService.Track
                 (AnalyticsCollectionService.SearchStart
                    "plans" AnalyticsCollectionService.text_search)])
           (startedWorld 1700000000000 [])).

(** The services are running and the analytics service is initialized. *)
Definition initializedWorld : World :=
  state AnalyticsService.ensureInitialized (startedWorld 1700000000000 []).

(** An achievement for examples. *)
Definition exampleAchievement : Achievement :=
  achievementOf
    {| definition_id := "first_search";
       definition_title := "Seeker";
       definition_description := "Perform your first search";
       definition_icon := "🔍";
       definition_category := "Getting Started";
       definition_rarity := common;
       requirements := [];
       xpReward := 50;
       hidden := false |} 1700000000000.

Module DailyChallenges.

(** [endOfDay.setHours (23, 59, 59, 999)] on the clock reading, in the
    time zone of the device. *)
Definition getEndOfDay : M Z :=
  let! now := read now in
  let! zone := read timeZone in
  mret (setHours zone 23 59 59 999 now).

(** A goal as [createGoal] is given it: without id, date of creation and
    status, which are filled in here with values that [createGoal]
    replaces. *)
Definition challenge (type : GoalType) (title description : string) (target_ : Q)
    (unit__ : string) (deadline_ : Z) (priority_ : Grade) : Goal :=
  {| goal_id := "";
     goal_type := type;
     goal_title := title;
     goal_description := description;
     target := target_;
     current := 0;
     unit_ := unit__;
     deadline := deadline_;
     createdDate := 0;
     status := active;
     priority := priority_;
     goal_category := "Daily Challenge" |}.

(** The [for] loop of [generateDailyChallenges]. *)
Fixpoint challengesLoop (challenges createdChallenges : list Goal) : M (list Goal) :=
  match challenges with
  | [] => mret createdChallenges
  | challenge :: rest =>
      let! created := GamificationService.createGoal challenge in
      challengesLoop rest (createdChallenges ++ [created])
  end.

Definition generateDailyChallenges : M (list Goal) :=
  let! deadline1 := getEndOfDay in
  let! deadline2 := getEndOfDay in
  let! deadline3 := getEndOfDay in
  let challenges :=
    [ challenge daily_recordings "Voice Note Challenge" "Record 3 voice notes today"
                3 "notes" deadline1 medium;
      challenge daily_searches "Search Explorer" "Perform 5 searches today"
                5 "searches" deadline2 low;
      challenge time_spent "Focused Session" "Spend 30 minutes in the app today"
                30 "minutes" deadline3 high ] in
  let createdChallenges := [] in
  challengesLoop challenges createdChallenges.

End DailyChallenges.

(** What [createGoal] keeps of the goal it is given, and what it sets. *)
Definition createdFrom (now_ : Z) (goalData goal : Goal) : Prop :=
  goal_type goal = goal_type goalData ∧ target goal = target goalData ∧
  current goal = current goalData ∧ deadline goal = deadline goalData ∧
  priority goal = priority goalData ∧ goal_category goal = goal_category goalData ∧
  status goal = active ∧ createdDate goal = now_.

(** On an initialized service, the table of snapshots and daily rows is
    left as it was. *)
Definition settled : relation World :=
  λ w w', initialized w = true → initialized w' = true ∧ db_analytics w' = db_analytics w.

(** A search is tracked, five seconds pass, and the timer fires. *)
Definition searchWaitFlush : list AnalyticsCollectionService.Step :=
  [AnalyticsCollectionService.Track
     (AnalyticsCollectionService.SearchStart "notes" AnalyticsCollectionService.text_search);
   AnalyticsCollectionService.Elapse 5000].

(** Strings are the strings of bytes of the embedding; [toLowerCase]
    changes the ASCII letters only, so it keeps the length of a name. *)
Module JSString.

(** The index of the last occurrence of a character. *)
Fixpoint lastIndex (c : Ascii.ascii) (s : string) : option nat :=
  match s with
  | EmptyString => None
  | String a s' =>
      match lastIndex c s' with
      | Some i => Some (S i)
      | None => if decide (a = c) then Some 0%nat else None
      end
  end.

(** [String.prototype.lastIndexOf] for a pattern of one character: -1
    when the character does not occur. *)
Definition lastIndexOf (c : Ascii.ascii) (s : string) : Z :=
  match lastIndex c s with
  | Some i => Z.of_nat i
  | None => -1
  end.

Fixpoint drop (n : nat) (s : string) : string :=
  match n, s with
  | O, _ => s
  | S n', String _ s' => drop n' s'
  | S _, EmptyString => EmptyString
  end.

(** [String.prototype.substring (indexStart)]: a negative index counts
    as 0, an index past the end as the length. *)
Definition substring (indexStart : Z) (s : string) : string :=
  drop (Z.to_nat indexStart) s.

End JSString.

Module FileProcessingService.

(** What the service reads of a browser [File]. *)
Record File := {
  file_name : string;
  file_size : Z;
}.

Record ValidationResult := {
  isValid : bool;
  error : option string;
}.

Definition maxFileSize : Z := 10 * 1024 * 1024.

Definition supportedFormats : list string := [".txt"; ".pdf"; ".doc"; ".docx"].

Definition getSupportedFormats : list string := supportedFormats.

Definition getFileExtension (filename : string) : string :=
  JSString.substring (JSString.lastIndexOf "."%char filename) (JS.toLowerCase filename).

(** [file_] is [None] for a missing file ([!file]). *)
Definition validateFile (file_ : option File) : ValidationResult :=
  match file_ with
  | None => {| isValid := false; error := Some "No file provided" |}
  | Some file_ =>
      if decide (maxFileSize < file_size file_) then
        {| isValid := false;
           error := Some ("File size exceeds limit. Maximum size is " +:+
                          pretty (maxFileSize / (1024 * 1024)) +:+ "MB") |}
      else
        let extension := getFileExtension (file_name file_) in
        if negb (bool_decide (extension ∈ supportedFormats)) then
          {| isValid := false;
             error := Some ("Unsupported file format. Supported formats: " +:+
                            JS.join ", " supportedFormats) |}
        else {| isValid := true; error := None |}
  end.

(** The private method that [extractTextFromFile] hands the file to. *)
Inductive Extractor := extractTextFromTxt | extractTextFromPdf | extractTextFromDoc.

(** The errors [extractTextFromFile] throws itself. *)
Inductive FileError :=
  | ValidationFailed (message : option string)
  | UnsupportedFormat (fileExtension : string)
  | NoFile.

(** The choice of [extractTextFromFile], up to the call of the extractor. *)
Definition extractTextFromFile (file_ : option File) : FileError + Extractor :=
  let validation := validateFile file_ in
  if negb (isValid validation) then inl (ValidationFailed (error validation))
  else
    match file_ with
    | None => inl NoFile
    | Some file_ =>
        let fileExtension := getFileExtension (file_name file_) in
        if decide (fileExtension = ".txt") then inr extractTextFromTxt
        else if decide (fileExtension = ".pdf") then inr extractTextFromPdf
        else if decide (fileExtension = ".doc" ∨ fileExtension = ".docx")
             then inr extractTextFromDoc
        else inl (UnsupportedFormat fileExtension)
    end.

End FileProcessingService.

Definition lowerChar (c : Ascii.ascii) : Ascii.ascii :=
  let n := Ascii.nat_of_ascii c in
  if decide (65 ≤ n ≤ 90)%nat then Ascii.ascii_of_nat (n + 32) else c.

(** A report in PDF of two kilobytes, named in capitals. *)
Definition capitalReport : FileProcessingService.File :=
  {| FileProcessingService.file_name := "REPORT.PDF";
     FileProcessingService.file_size := 2048 |}.

Module TrendAnalysis.

Record TrendData := {
  trend_date : option Z;
  trend_value : Q;
  trend_change : Q;
  trend_trend : Trend;
}.

Record ComparisonData := {
  comparison_current : Q;
  comparison_previous : Q;
  comparison_change : Q;
  changePercentage : Q;
  comparison_trend : Trend;
}.

(** [dates [i]] is [None] when the array of dates is too short. *)
Definition calculateTrendData (data : list Q) (dates : list Z) : list TrendData :=
  imap (λ i current,
          let previous :=
            if decide (0 < i)%nat then default 0%Q (data !! (i - 1)%nat) else current in
          let change :=
            if decide (¬ previous == 0)%Q
            then ((current - previous) / previous * 100)%Q else 0%Q in
          let trend := stable in
          let trend :=
            if decide (5 < change)%Q then up
            else if decide (change < -5)%Q then down else trend in
          {| trend_date := dates !! i;
             trend_value := current;
             trend_change := change;
             trend_trend := trend |})
       data.

(** The percentage is computed on exact rationals.  For whole numbers of
    at most [wholeLimit] the comparisons with 5 and -5 come out as on
    doubles; next to 5 percent other values can come out differently. *)
Definition calculateComparison (current previous : Q) : ComparisonData :=
  let change := (current - previous)%Q in
  let changePercentage :=
    if decide (¬ previous == 0)%Q then (change / previous * 100)%Q else 0%Q in
  let trend := stable in
  let trend :=
    if decide (5 < changePercentage)%Q then up
    else if decide (changePercentage < -5)%Q then down else trend in
  {| comparison_current := current;
     comparison_previous := previous;
     comparison_change := change;
     changePercentage := changePercentage;
     comparison_trend := trend |}.

End TrendAnalysis.

Module UsagePatterns.

(** [date.getDay ()] on a device that keeps UTC: 0 is Sunday; day 0 of the
    timestamps was a Thursday.  Elsewhere the days begin at local
    midnight; what is stated about the days of the week holds for every
    such division of the rows into days. *)
Definition getDay (t : Z) : Z := (t / msPerDay + 4) mod 7.

Definition dayNames : list string :=
  ["Sunday"; "Monday"; "Tuesday"; "Wednesday"; "Thursday"; "Friday"; "Saturday"].

(** [dayCounts] after the [forEach] of [findMostActiveDay]. *)
Definition dayCounts (dailyUsage : list DailyUsageData) : list Z :=
  foldl (λ counts usage,
           alter (λ count, count + (itemsCreated usage + searchCount usage))
                 (Z.to_nat (getDay (date usage))) counts)
        (replicate 7 0) dailyUsage.

(** [Math.max (...values)] of a non-empty array. *)
Definition Math_max_of (values : list Z) : Z :=
  foldr Z.max (default 0 (head values)) values.

(** [array.indexOf (x)], [None] standing for -1. *)
Definition indexOf (x : Z) (values : list Z) : option nat :=
  fst <$> list_find (λ value, value = x) values.

Definition findMostActiveDay (dailyUsage : list DailyUsageData) : string :=
  let dayCounts := dayCounts dailyUsage in
  let maxIndex := indexOf (Math_max_of dayCounts) dayCounts in
  default "" (maxIndex ≫= λ i, dayNames !! i).

(** The sessions of [calculateAverageSessionDuration], in the order in
    which the [Map] got them, each with its start and its end. *)
Definition recordEvent (sessions : list (UniqueId * (Z * Z))) (event : AnalyticsEvent)
    : list (UniqueId * (Z * Z)) :=
  let sessionId := event_sessionId event in
  if decide (sessionId ∉ map fst sessions) then
    sessions ++ [(sessionId, (event_timestamp event, event_timestamp event))]
  else
    map (λ session,
           if decide (session.1 = sessionId) then
             if decide (session.2.2 < event_timestamp event)
             then (session.1, (session.2.1, event_timestamp event))
             else session
           else session)
        sessions.

Definition calculateAverageSessionDuration (events : list AnalyticsEvent) : Q :=
  let sessions := foldl recordEvent [] events in
  let durations :=
    map (λ session, (inject_Z (session.2.2 - session.2.1) / inject_Z (1000 * 60))%Q)
        sessions in
  if decide (0 < length durations)%nat
  then (JS.sumQ id durations / inject_Z (Z.of_nat (length durations)))%Q
  else 0%Q.

End UsagePatterns.

(** The activity of the rows that fall on a day of the week. *)
Definition activityOn (day : Z) (dailyUsage : list DailyUsageData) : Z :=
  JS.sumZ (λ usage, itemsCreated usage + searchCount usage)
          (filter (λ usage, UsagePatterns.getDay (date usage) = day) dailyUsage).

(** Every daily row of the table is stored under the key of its own day,
    and is not dated after the clock reading. *)
Definition datedRows (w : World) : Prop :=
  ∀ key record usage,
    db_analytics w !! key = Some record →
    record_data record = DailyUsage usage →
    key = daily_usage (formatDateKey (date usage)) ∧ date usage ≤ now w.

(** A step that does not turn the clock back. *)
Definition forward (s : AnalyticsCollectionService.Step) : Prop :=
  match s with
  | AnalyticsCollectionService.Elapse milliseconds => 0 ≤ milliseconds
  | _ => True
  end.

(** Two events of one day, a pause of a day, and two further events. *)
Definition twoDaysOfUse : list AnalyticsCollectionService.Step :=
  [AnalyticsCollectionService.Track
     (AnalyticsCollectionService.SearchStart "notes" AnalyticsCollectionService.text_search);
   AnalyticsCollectionService.TimerFires;
   AnalyticsCollectionService.Elapse 86400000;
   AnalyticsCollectionService.Track
     (AnalyticsCollectionService.SearchStart "plans" AnalyticsCollectionService.text_search);
   AnalyticsCollectionService.TimerFires].

(** A store with the rows of today and of yesterday. *)
Definition twoRowsWorld : World :=
  let row (date_ : Z) (items : Z) :=
    {| record_id := daily_usage (formatDateKey date_);
       record_type := type_daily_usage;
       record_data :=
         DailyUsage
           (set_itemsCreated items (AnalyticsStorageService.createEmptyDailyUsage date_));
       record_timestamp := date_;
       record_version := 1 |} in
  update_db_analytics
    (λ _, <[daily_usage (formatDateKey 1700000000000) := row 1700000000000 2]>
            (<[daily_usage (formatDateKey 1699913600000) := row 1699913600000 1]> ∅))
    (emptyWorld 1700000000000 []).

(** The data of the event [session_ended] of a session that ends in [w]. *)
Definition sessionEnded (w : World) : EventData :=
  list_to_map
    [("duration", JsNumber (inject_Z (now w - sessionStartTime w) / 1000 / 60));
     ("sessionDuration", JsNumber (inject_Z (now w - sessionStartTime w)))].

(** The store holds the events of [w] and then events with the contents
    [contents], in this order. *)
Definition storedAfter (w w' : World) (contents : list (EventType * EventData)) : Prop :=
  ∃ stored, db_events w' = db_events w ++ stored ∧ map eventContent stored = contents.

(** No daily row of the table has time spent or a productivity score. *)
Definition untimedRows (w : World) : Prop :=
  ∀ key record usage,
    db_analytics w !! key = Some record →
    record_data record = DailyUsage usage →
    timeSpent usage = 0%Q ∧ productivityScore usage = 0.

(** A recording of two minutes has been completed. *)
Definition twoMinuteRecording : EventData :=
  list_to_map [("duration", JsNumber 120); ("success", JsBoolean true)].

(** * Proofs *)

(** ** Facts about the JavaScript library functions *)

Section SortFacts.
Context {A : Type} (compareFn : A → A → Z).

Lemma insert_Permutation (x : A) (l : list A) :
  JS.insert compareFn x l ≡ₚ x :: l.
Proof.
  induction l as [|y l IH]; simpl; [done|].
  case_decide; [done|]. rewrite IH. apply Permutation_swap.
Qed.

Lemma sort_Permutation (l : list A) : JS.sort compareFn l ≡ₚ l.
Proof.
  induction l as [|x l IH]; simpl; [done|].
  rewrite insert_Permutation. by rewrite IH.
Qed.

Lemma sort_length (l : list A) : length (JS.sort compareFn l) = length l.
Proof. by rewrite sort_Permutation. Qed.

Lemma elem_of_sort (x : A) (l : list A) : x ∈ JS.sort compareFn l ↔ x ∈ l.
Proof. by rewrite sort_Permutation. Qed.

Hypothesis compare_total : ∀ x y, compareFn x y ≤ 0 ∨ compareFn y x ≤ 0.
Hypothesis compare_trans :
  ∀ x y z, compareFn x y ≤ 0 → compareFn y z ≤ 0 → compareFn x z ≤ 0.

Lemma insert_sorted (x : A) (l : list A) :
  StronglySorted (λ a b, compareFn a b ≤ 0) l →
  StronglySorted (λ a b, compareFn a b ≤ 0) (JS.insert compareFn x l).
Proof.
  induction 1 as [|y l Hl IH Hy]; simpl.
  - repeat constructor.
  - case_decide as Hxy.
    + constructor; [by constructor|].
      constructor; [done|].
      eapply Forall_impl; [exact Hy|]. intros z Hz. by eapply compare_trans.
    + constructor; [done|].
      rewrite insert_Permutation. constructor; [|done].
      destruct (compare_total x y); [done|done].
Qed.

Lemma sort_sorted (l : list A) :
  StronglySorted (λ a b, compareFn a b ≤ 0) (JS.sort compareFn l).
Proof.
  induction l as [|x l IH]; simpl; [constructor|]. by apply insert_sorted.
Qed.

End SortFacts.

Lemma slice_last_length {A : Type} (n : Z) (l : list A) :
  0 < n →
  length (JS.slice (- n) None l) = Nat.min (Z.to_nat n) (length l).
Proof.
  intros Hn. unfold JS.slice, JS.relativeIndex.
  rewrite decide_True by lia.
  rewrite length_take, length_drop. lia.
Qed.

Lemma slice_last_all {A : Type} (n : Z) (l : list A) :
  0 < n → (length l ≤ Z.to_nat n)%nat → JS.slice (- n) None l = l.
Proof.
  intros Hn Hl. unfold JS.slice, JS.relativeIndex.
  rewrite decide_True by lia.
  replace (Z.to_nat (Z.max (Z.of_nat (length l) + - n) 0)) with 0%nat by lia.
  rewrite drop_0. apply take_ge. lia.
Qed.

Section Streak.
Import AnalyticsService.

Lemma utcZone_steady : steadyZone utcZone.
Proof. by intros t t'. Qed.

Lemma localDay_utc t : localDay utcZone t = formatDateKey t.
Proof. unfold localDay, utcZone, formatDateKey. by rewrite Z.add_0_r. Qed.

Lemma setHoursZero_steady zone t :
  steadyZone zone → setHoursZero zone t = localDay zone t * msPerDay - zone t.
Proof.
  intros Hz. unfold setHoursZero, setHours. cbv zeta.
  rewrite (Hz _ t). lia.
Qed.

Lemma daysDiff_localDay zone today usage :
  steadyZone zone →
  daysDiff zone today usage = localDay zone today - localDay zone (date usage).
Proof.
  intros Hz. unfold daysDiff. rewrite !setHoursZero_steady by done.
  rewrite (Hz (date usage) today).
  replace (localDay zone today * msPerDay - zone today -
           (localDay zone (date usage) * msPerDay - zone today))
    with ((localDay zone today - localDay zone (date usage)) * msPerDay) by lia.
  by apply Z.div_mul.
Qed.

Lemma localDay_mono zone t t' : steadyZone zone → t ≤ t' → localDay zone t ≤ localDay zone t'.
Proof.
  intros Hz Hle. unfold localDay. apply Z.div_le_mono; [done|].
  rewrite (Hz t t'). lia.
Qed.

Lemma streakLoop_spec zone today l : ∀ k,
  StronglySorted (λ a b, daysDiff zone today a < daysDiff zone today b) l →
  Forall (λ u, k ≤ daysDiff zone today u) l →
  k ≤ streakLoop zone today k l ∧
  (∀ i, k ≤ i < streakLoop zone today k l →
        ∃ u, u ∈ l ∧ daysDiff zone today u = i ∧ 0 < itemsCreated u) ∧
  (∀ u, u ∈ l → daysDiff zone today u = streakLoop zone today k l → ¬ 0 < itemsCreated u).
Proof.
  induction l as [|u l IH]; intros k Hsorted Hlow; simpl.
  - split; [lia|]. split; [lia|]. intros u Hu. by apply elem_of_nil in Hu.
  - apply StronglySorted_inv in Hsorted as [Hsorted Hu].
    apply Forall_cons in Hlow as [Hk Hlow].
    case_decide as Hstep.
    + destruct Hstep as [Hd Hactive].
      destruct (IH (k + 1)) as (Hle & Hfill & Hstop); [done| |].
      { eapply Forall_impl; [exact Hu|]. simpl. intros; lia. }
      split; [lia|]. split.
      * intros i Hi. destruct (decide (i = k)) as [->|Hne].
        -- exists u. split; [left|done].
        -- destruct (Hfill i) as (v & Hv & ?); [lia|].
           exists v. split; [by right|done].
      * intros v Hv Hdv. apply elem_of_cons in Hv as [->|Hv]; [lia|].
        by apply Hstop.
    + split; [lia|]. split; [lia|].
      intros v Hv Hdv Hactive. apply elem_of_cons in Hv as [->|Hv].
      * apply Hstep. done.
      * rewrite Forall_forall in Hu. specialize (Hu v Hv).
        destruct (decide (daysDiff zone today u = k)); [lia|].
        lia.
Qed.

Lemma sorted_by_date_offsets zone today rows :
  steadyZone zone →
  NoDup (map (λ u, localDay zone (date u)) rows) →
  StronglySorted (λ a b, daysDiff zone today a < daysDiff zone today b)
                 (JS.sort byDateDescending rows).
Proof.
  intros Hz Hnodup.
  assert (Hs : StronglySorted (λ a b, byDateDescending a b ≤ 0)
                              (JS.sort byDateDescending rows)).
  { apply sort_sorted; unfold byDateDescending; intros; lia. }
  assert (Hn : NoDup (map (λ u, localDay zone (date u)) (JS.sort byDateDescending rows))).
  { by rewrite sort_Permutation. }
  induction Hs as [|a l Hl IH Ha]; [constructor|].
  simpl in Hn. apply NoDup_cons in Hn as [Hnotin Hn].
  constructor; [by apply IH|].
  rewrite Forall_forall in Ha |- *. intros b Hb.
  rewrite !daysDiff_localDay by done.
  assert (localDay zone (date b) ≠ localDay zone (date a)).
  { intros Heq. apply Hnotin. rewrite <- Heq.
    apply (list_elem_of_fmap_2 (λ u, localDay zone (date u))). done. }
  assert (localDay zone (date b) ≤ localDay zone (date a)).
  { apply localDay_mono; [done|].
    specialize (Ha b Hb). unfold byDateDescending in Ha. lia. }
  lia.
Qed.

Lemma calculateCurrentStreak_spec zone today rows :
  steadyZone zone →
  NoDup (map (λ u, localDay zone (date u)) rows) →
  Forall (λ u, date u ≤ today) rows →
  0 ≤ calculateCurrentStreak zone today rows ∧
  (∀ i, 0 ≤ i < calculateCurrentStreak zone today rows → activeOn zone today rows i) ∧
  ¬ activeOn zone today rows (calculateCurrentStreak zone today rows).
Proof.
  intros Hz Hnodup Hpast. unfold calculateCurrentStreak.
  case_decide as Hlen.
  - destruct rows; [|done]. split; [done|]. split; [lia|].
    intros (u & Hu & _). by apply elem_of_nil in Hu.
  - destruct (streakLoop_spec zone today (JS.sort byDateDescending rows) 0)
      as (H0 & Hfill & Hstop).
    { by apply sorted_by_date_offsets. }
    { rewrite Forall_forall in Hpast |- *. intros u Hu.
      apply elem_of_sort in Hu. rewrite daysDiff_localDay by done.
      specialize (Hpast u Hu).
      pose proof (localDay_mono zone _ _ Hz Hpast). lia. }
    split; [done|]. split.
    + intros i Hi. destruct (Hfill i Hi) as (u & Hu & Hd & Ha).
      exists u. rewrite <- (elem_of_sort byDateDescending).
      split; [done|]. rewrite daysDiff_localDay in Hd by done. split; [lia|done].
    + intros (u & Hu & Hd & Hactive).
      apply (Hstop u); [by apply elem_of_sort| |done].
      rewrite daysDiff_localDay by done. lia.
Qed.

End Streak.

Section Productivity.
Import AnalyticsCalculationService ProductivitySpec.

Lemma Math_round_comp (x y : Q) : (x == y)%Q → JS.Math_round x = JS.Math_round y.
Proof. intros H. unfold JS.Math_round. apply Qfloor_comp. by rewrite H. Qed.

Lemma slice_last_drop {A : Type} (n : nat) (l : list A) :
  (0 < n)%nat → JS.slice (- Z.of_nat n) None l = drop (length l - n) l.
Proof.
  intros Hn. unfold JS.slice, JS.relativeIndex.
  rewrite decide_True by lia.
  replace (Z.to_nat (Z.max (Z.of_nat (length l) + - Z.of_nat n) 0))
    with (length l - n)%nat by lia.
  apply take_ge. rewrite length_drop. lia.
Qed.

Lemma dayScore_capped (day : DailyUsageData) :
  (JS.Math_min (dayScore day) 100 == dayTotal day)%Q.
Proof.
  unfold JS.Math_min, dayScore, dayTotal, contentScore, searchScore, timeScore,
    consistencyScore, JS.Math_min.
  apply Q.min_compat; [|reflexivity].
  rewrite !inject_Z_mult.
  change (inject_Z 10) with 10%Q. change (inject_Z 2) with 2%Q.
  case_decide; ring.
Qed.

Lemma totalScore_total (days : list DailyUsageData) (start : Q) :
  (foldl (λ totalScore day, totalScore + JS.Math_min (dayScore day) 100) start days
   == start + total (map dayTotal days))%Q.
Proof.
  revert start. induction days as [|day days IH]; intros start; simpl.
  - ring.
  - rewrite IH, dayScore_capped. ring.
Qed.

Lemma calculateProductivityScore_mean days items :
  days ≠ [] →
  calculateProductivityScore days items =
  JS.Math_round (arithmeticMean (map dayTotal (lastDays 7 days))).
Proof.
  intros Hne. unfold calculateProductivityScore.
  rewrite decide_False by (by destruct days).
  change (-7) with (- Z.of_nat 7). rewrite slice_last_drop by lia.
  fold (lastDays 7 days).
  apply Math_round_comp. unfold arithmeticMean.
  rewrite length_map, totalScore_total.
  apply Qdiv_comp; [ring|reflexivity].
Qed.



End Productivity.

Section ProductivityScore.
Import AnalyticsCalculationService ProductivitySpec.




End ProductivityScore.

Section PeakHours.
Import AnalyticsCalculationService.

Lemma slice_0_3_length {A : Type} (l : list A) :
  (3 ≤ length l)%nat → length (JS.slice 0 (Some 3) l) = 3%nat.
Proof.
  intros Hl. unfold JS.slice, JS.relativeIndex.
  rewrite !decide_False by lia.
  rewrite length_take, length_drop. lia.
Qed.

Lemma analyzePeakUsageHours_length events :
  length (analyzePeakUsageHours events) = 3%nat.
Proof.
  unfold analyzePeakUsageHours.
  apply slice_0_3_length. rewrite sort_length, length_seqZ. lia.
Qed.

Lemma generateInsights_peak now userAnalytics dailyUsage events :
  ∃ insight rest,
    generateInsights now userAnalytics dailyUsage events = insight :: rest ∧
    insight_id insight = "peak_usage_pattern" ∧
    insight_title insight = "Peak Usage Hours Identified" ∧
    insight_description insight =
      "You're most productive during " +:+
      JS.join ", " (map (λ h, pretty h +:+ ":00") (analyzePeakUsageHours events)) +:+
      ". Consider scheduling important tasks during these times.".
Proof.
  unfold generateInsights. cbv zeta.
  pose proof (analyzePeakUsageHours_length events).
  repeat case_decide; try lia; cbn [app]; do 2 eexists; (split; [reflexivity|]); done.
Qed.

(** Claim C10: [analyzePeakUsageHours] returns three hours for every list
    of events, the hours 0, 1 and 2 for the empty list, and
    [generateInsights] always has the insight on peak usage hours, also
    without events. *)
Theorem peak_hours_always_three :
  (∀ events, length (analyzePeakUsageHours events) = 3%nat) ∧
  analyzePeakUsageHours [] = [0; 1; 2] ∧
  (∀ now userAnalytics dailyUsage events,
     ∃ insight, insight ∈ generateInsights now userAnalytics dailyUsage events ∧
                insight_id insight = "peak_usage_pattern" ∧
                insight_title insight = "Peak Usage Hours Identified") ∧
  (∀ now userAnalytics dailyUsage,
     ∃ insight, insight ∈ generateInsights now userAnalytics dailyUsage [] ∧
                insight_title insight = "Peak Usage Hours Identified" ∧
                insight_description insight =
                "You're most productive during 0:00, 1:00, 2:00. Consider scheduling important tasks during these times.").
Proof.
  split; [apply analyzePeakUsageHours_length|]. split; [by vm_compute|]. split.
  - intros now userAnalytics dailyUsage events.
    destruct (generateInsights_peak now userAnalytics dailyUsage events)
      as (insight & rest & -> & ? & ? & ?).
    exists insight. split; [left|done].
  - intros now userAnalytics dailyUsage.
    destruct (generateInsights_peak now userAnalytics dailyUsage [])
      as (insight & rest & -> & ? & ? & Hd).
    exists insight. split; [left|]. split; [done|]. rewrite Hd. by vm_compute.
Qed.

End PeakHours.

Lemma milestone_loop (P : Z → Prop) `{∀ t, Decision (P t)} (mk : Z → Milestone)
    (thresholds : list Z) (init : list Milestone) :
  foldl (λ milestones milestone,
           if decide (P milestone) then milestones ++ [mk milestone] else milestones)
        init thresholds
  = init ++ map mk (filter P thresholds).
Proof.
  revert init. induction thresholds as [|t l IH]; intros init; simpl.
  - by rewrite app_nil_r.
  - rewrite IH, filter_cons. case_decide; simpl; [|done].
    by rewrite <- app_assoc.
Qed.

Lemma generated_app type t l1 l2 :
  generated type t (l1 ++ l2) ↔ generated type t l1 ∨ generated type t l2.
Proof.
  unfold generated. split.
  - intros (m & Hm & ?). apply elem_of_app in Hm as [?|?]; eauto.
  - intros [(m & ? & ?)|(m & ? & ?)]; exists m; rewrite elem_of_app; eauto.
Qed.

Lemma generated_map type t (P : Z → Prop) `{∀ t, Decision (P t)}
    (mk : Z → Milestone) (type' : MilestoneType) thresholds :
  (∀ x, milestone_type (mk x) = type') →
  (∀ x, milestone_value (mk x) = x) →
  generated type t (map mk (filter P thresholds)) ↔
  type = type' ∧ t ∈ thresholds ∧ P t.
Proof.
  intros Htype Hvalue. unfold generated. split.
  - intros (m & Hm & Ht & Hv).
    apply list_elem_of_fmap in Hm as (x & -> & Hx).
    apply list_elem_of_filter in Hx as [HP Hx].
    rewrite Htype in Ht. rewrite Hvalue in Hv. by subst.
  - intros (-> & Ht & HP). exists (mk t). split; [|done].
    apply list_elem_of_fmap. exists t. split; [done|].
    by apply list_elem_of_filter.
Qed.

Lemma generated_nil type t : ¬ generated type t [].
Proof. intros (m & Hm & _). by apply elem_of_nil in Hm. Qed.

Section Milestones.
Import GamificationService.

Lemma checkMilestones_generated now userAnalytics type t :
  generated type t (checkMilestones now userAnalytics) ↔
  (type = items_milestone ∧ t ∈ contentMilestones ∧ totalItems userAnalytics = t) ∨
  (type = streak_milestone ∧ t ∈ streakMilestones ∧ streakDays userAnalytics = t) ∨
  (type = search_milestone ∧ t ∈ searchMilestones ∧ searchesPerformed userAnalytics = t).
Proof.
  unfold checkMilestones. cbv zeta.
  rewrite (milestone_loop (λ t, totalItems userAnalytics = t)).
  rewrite (milestone_loop (λ t, streakDays userAnalytics = t)).
  rewrite (milestone_loop (λ t, searchesPerformed userAnalytics = t)).
  rewrite !generated_app.
  rewrite (generated_map _ _ _ _ items_milestone) by done.
  rewrite (generated_map _ _ _ _ streak_milestone) by done.
  rewrite (generated_map _ _ _ _ search_milestone) by done.
  pose proof (generated_nil type t). tauto.
Qed.

Lemma detectMilestones_generated now userAnalytics events type t :
  type ≠ first_recording →
  generated type t (AnalyticsCalculationService.detectMilestones now userAnalytics events) ↔
  (type = items_milestone ∧ t ∈ AnalyticsCalculationService.itemMilestones ∧
   t ≤ totalItems userAnalytics) ∨
  (type = streak_milestone ∧ t ∈ AnalyticsCalculationService.streakMilestones ∧
   t ≤ streakDays userAnalytics).
Proof.
  intros Hnot. unfold AnalyticsCalculationService.detectMilestones. cbv zeta.
  rewrite (milestone_loop (λ t, t ≤ totalItems userAnalytics)).
  rewrite (milestone_loop (λ t, t ≤ streakDays userAnalytics)).
  rewrite !generated_app.
  rewrite (generated_map _ _ _ _ items_milestone) by done.
  rewrite (generated_map _ _ _ _ streak_milestone) by done.
  assert (Hfirst : ¬ generated type t
    match find (λ event, bool_decide (event_type event = voice_recording_completed)) events with
    | Some firstRecording =>
        [] ++ [ {| milestone_id := "first_recording";
             milestone_type := first_recording;
             milestone_title := "First Voice Recording";
             milestone_description := "Congratulations on your first voice recording!";
             achievedDate := event_timestamp firstRecording;
             milestone_value := 1;
             milestone_icon := "🎤" |} ]
    | None => []
    end).
  { destruct (find _ events); [|apply generated_nil].
    intros (m & Hm & Ht & _). cbn [app] in Hm.
    apply list_elem_of_singleton in Hm as ->. by simpl in Ht. }
  tauto.
Qed.

End Milestones.

(** ** Reasoning about asynchronous methods *)

(** Unfolding of the monad and of the accesses to the fields of the world. *)
Ltac mred :=
  cbv beta iota zeta delta
    [bind read write throw try_catch resolved mret mbind M_ret M_bind state outcome uniqueId
     update_now update_faults update_random update_db_analytics update_db_events
     update_db_goals update_db_insights update_currentSessionId update_initialized
     update_sessionStartTime update_lastActivityTime update_activityBuffer
     update_flushInterval update_isActive update_userLevel update_userXP];
  cbn [fst snd
       now faults random db_analytics db_events db_goals db_insights currentSessionId
       initialized sessionStartTime lastActivityTime activityBuffer flushInterval
       isActive userLevel userXP timeZone].

Tactic Notation "mred" "in" hyp(H) :=
  cbv beta iota zeta delta
    [bind read write throw try_catch resolved mret mbind M_ret M_bind state outcome uniqueId
     update_now update_faults update_random update_db_analytics update_db_events
     update_db_goals update_db_insights update_currentSessionId update_initialized
     update_sessionStartTime update_lastActivityTime update_activityBuffer
     update_flushInterval update_isActive update_userLevel update_userXP] in H;
  cbn [fst snd
       now faults random db_analytics db_events db_goals db_insights currentSessionId
       initialized sessionStartTime lastActivityTime activityBuffer flushInterval
       isActive userLevel userXP timeZone] in H.

Section Rules.
Context (R : relation World) `{!Stable R}.

Lemma preserves_ret {A} (a : A) : preserves R (mret a).
Proof. intros w. reflexivity. Qed.

Lemma preserves_resolved : preserves R resolved.
Proof. intros w. reflexivity. Qed.

Lemma preserves_read {A} (f : World → A) : preserves R (read f).
Proof. intros w. reflexivity. Qed.

Lemma preserves_throw {A} e : preserves R (@throw A e).
Proof. intros w. reflexivity. Qed.

Lemma preserves_write f : (∀ w, R w (f w)) → preserves R (write f).
Proof. intros H w. apply H. Qed.

Lemma preserves_bind {A B} (m : M A) (k : A → M B) :
  preserves R m → (∀ a, preserves R (k a)) → preserves R (bind m k).
Proof.
  intros Hm Hk w. specialize (Hm w). unfold state, bind in *.
  destruct (m w) as [[a|e] w1]; simpl in *; [|done].
  etrans; [exact Hm|]. apply Hk.
Qed.

Lemma preserves_try_catch {A} (body : M A) handler :
  preserves R body → (∀ e, preserves R (handler e)) → preserves R (try_catch body handler).
Proof.
  intros Hm Hk w. specialize (Hm w). unfold state, try_catch in *.
  destruct (body w) as [[a|e] w1]; simpl in *; [done|].
  etrans; [exact Hm|]. apply Hk.
Qed.

Lemma preserves_request {A} (operation : M A) :
  preserves R operation → preserves R (request operation).
Proof.
  intros Hm w. unfold state, request.
  destruct (faults w) as [|[] rest] eqn:Hf; [apply Hm| |].
  - by eapply stable_faults.
  - etrans; [by eapply (stable_faults w)|]. apply Hm.
Qed.

Lemma preserves_for_of {A} (l : list A) body :
  (∀ x, preserves R (body x)) → preserves R (for_of l body).
Proof.
  intros Hb. induction l as [|x l IH]; simpl.
  - apply preserves_ret.
  - apply preserves_bind; [apply Hb|done].
Qed.

End Rules.

Lemma returns_ret {A} (a : A) : returns (mret a).
Proof. intros w. by eexists. Qed.

Lemma returns_resolved : returns resolved.
Proof. intros w. by eexists. Qed.

Lemma returns_read {A} (f : World → A) : returns (read f).
Proof. intros w. by eexists. Qed.

Lemma returns_write f : returns (write f).
Proof. intros w. by eexists. Qed.

Lemma returns_bind {A B} (m : M A) (k : A → M B) :
  returns m → (∀ a, returns (k a)) → returns (bind m k).
Proof.
  intros Hm Hk w. destruct (Hm w) as [a Ha]. unfold outcome, bind in *.
  destruct (m w) as [r w1]; simpl in *; subst. apply Hk.
Qed.

Lemma returns_try_catch {A} (body : M A) handler :
  (∀ e, returns (handler e)) → returns (try_catch body handler).
Proof.
  intros Hk w. unfold outcome, try_catch.
  destruct (body w) as [[a|e] w1]; simpl; [by eexists|apply Hk].
Qed.

(** Facts of the form [preserves R m] that are used instead of unfolding [m]. *)
Create HintDb frames.

(** Further relations between worlds, unfolded at the writes. *)
Create HintDb relations.

(** One step of a proof that a method keeps a relation: a rule of the
    monad, a case distinction, or the unfolding of a service method. *)
Ltac preserve_leaf :=
  intros; try autounfold with relations in *; unfold kept, unchanged, available in *;
  cbv [update_now update_faults update_random update_db_analytics update_db_events
       update_db_goals update_db_insights update_currentSessionId update_initialized
       update_sessionStartTime update_lastActivityTime update_activityBuffer
       update_flushInterval update_isActive update_userLevel update_userXP];
  cbn [now faults random db_analytics db_events db_goals db_insights currentSessionId
       initialized sessionStartTime lastActivityTime activityBuffer flushInterval
       isActive userLevel userXP timeZone];
  by eauto.

Ltac head_of t :=
  lazymatch t with
  | ?f _ => head_of f
  | _ => t
  end.

Ltac unfold_method m := let h := head_of m in unfold h.

Ltac preserve_step :=
  lazymatch goal with
  | |- Stable _ => apply _
  | |- preserves _ (bind _ _) => apply preserves_bind; [apply _| |intros ?]
  | |- preserves _ (mbind _ _) => unfold mbind, M_bind
  | |- preserves _ (mret _) => apply preserves_ret; apply _
  | |- preserves _ resolved => apply preserves_resolved; apply _
  | |- preserves _ (read _) => apply preserves_read; apply _
  | |- preserves _ (throw _) => apply preserves_throw; apply _
  | |- preserves _ (write _) => apply preserves_write; preserve_leaf
  | |- preserves _ (try_catch _ _) => apply preserves_try_catch; [apply _| |intros ?]
  | |- preserves _ (request _) => apply preserves_request; [apply _|]
  | |- preserves _ (for_of _ _) => apply preserves_for_of; [apply _|intros ?]
  | |- preserves _ (match ?x with _ => _ end) => destruct x
  | |- preserves _ (let (_, _) := ?x in _) => destruct x
  | |- preserves _ ?m => first [solve [auto with frames] | unfold_method m]
  end.

Ltac preserve := intros; repeat preserve_step.

Ltac returns_step :=
  lazymatch goal with
  | |- returns (bind _ _) => apply returns_bind; [|intros ?]
  | |- returns (mbind _ _) => unfold mbind, M_bind
  | |- returns (mret _) => apply returns_ret
  | |- returns resolved => apply returns_resolved
  | |- returns (read _) => apply returns_read
  | |- returns (write _) => apply returns_write
  | |- returns (try_catch _ _) => apply returns_try_catch; intros ?
  | |- returns (match ?x with _ => _ end) => destruct x
  | |- returns (let (_, _) := ?x in _) => destruct x
  | |- returns ?m => unfold_method m
  end.

Ltac returning := intros; repeat returns_step.

Lemma unchanged_stable {T : Type} (observe : World → T) :
  (∀ w rest, observe (update_faults (λ _, rest) w) = observe w) →
  Stable (unchanged observe).
Proof.
  intros H. split; [split|].
  - by intros w.
  - intros w1 w2 w3. unfold unchanged. congruence.
  - intros w b rest _. apply H.
Qed.

Lemma kept_stable (I : World → Prop) :
  (∀ w b rest, faults w = b :: rest → I w → I (update_faults (λ _, rest) w)) →
  Stable (kept I).
Proof.
  intros H. split; [split|].
  - intros w Hw. exact Hw.
  - intros w1 w2 w3. unfold kept. tauto.
  - intros w b rest Hf. exact (H w b rest Hf).
Qed.

#[global] Instance collectorState_stable : Stable (unchanged collectorState).
Proof. apply unchanged_stable. reflexivity. Qed.

#[global] Instance db_events_stable : Stable (unchanged db_events).
Proof. apply unchanged_stable. reflexivity. Qed.

#[global] Instance now_stable : Stable (unchanged now).
Proof. apply unchanged_stable. reflexivity. Qed.

Lemma storage_trackEvent_collector type data :
  preserves (unchanged collectorState) (AnalyticsStorageService.trackEvent type data).
Proof. preserve. Qed.

Lemma analytics_trackEvent_collector type data :
  preserves (unchanged collectorState) (AnalyticsService.trackEvent type data).
Proof. preserve. Qed.

Lemma storage_trackEvent_returns type data :
  returns (AnalyticsStorageService.trackEvent type data).
Proof. returning. Qed.

Lemma updateProductivityMetrics_events calc activityType duration :
  preserves (unchanged db_events)
    (AnalyticsCollectionService.updateProductivityMetrics calc activityType duration).
Proof. preserve. Qed.

Lemma updateSearchMetrics_events calc q n t :
  preserves (unchanged db_events)
    (AnalyticsCollectionService.updateSearchMetrics calc q n t).
Proof. preserve. Qed.

Lemma run_pair {A} (m : M A) (w : World) : m w = (outcome m w, state m w).
Proof. unfold outcome, state. by destruct (m w). Qed.

Lemma preserves_run {A} (R : relation World) (m : M A) w r w' :
  preserves R m → m w = (r, w') → R w w'.
Proof. intros H E. specialize (H w). unfold state in H. by rewrite E in H. Qed.

Lemma returns_run {A} (m : M A) w r w' :
  returns m → m w = (r, w') → ∃ a, r = Returned a.
Proof. intros H E. specialize (H w). unfold outcome in H. by rewrite E in H. Qed.

Lemma request_available {A : Type} (operation : M A) (w : World) :
  faults w = [] → request operation w = operation w.
Proof. intros H. unfold request. by rewrite H. Qed.

#[global] Instance available_stable : Stable (kept available).
Proof.
  apply kept_stable. unfold available. intros w b rest Hf Hw. congruence.
Qed.

#[global] Instance initialized_stable : Stable (unchanged initialized).
Proof. apply unchanged_stable. reflexivity. Qed.

#[global] Instance activityBuffer_stable : Stable (unchanged activityBuffer).
Proof. apply unchanged_stable. reflexivity. Qed.

#[global] Instance flushInterval_stable : Stable (unchanged flushInterval).
Proof. apply unchanged_stable. reflexivity. Qed.

#[global] Instance db_analytics_stable : Stable (unchanged db_analytics).
Proof. apply unchanged_stable. reflexivity. Qed.

#[global] Instance userXP_stable : Stable (unchanged userXP).
Proof. apply unchanged_stable. reflexivity. Qed.

#[global] Instance db_goals_stable : Stable (unchanged db_goals).
Proof. apply unchanged_stable. reflexivity. Qed.

#[global] Instance db_insights_stable : Stable (unchanged db_insights).
Proof. apply unchanged_stable. reflexivity. Qed.

(** Once the service is initialized it stays so. *)
#[global] Instance initialized_kept_stable : Stable (kept (λ w, initialized w = true)).
Proof. apply kept_stable. done. Qed.

Section Initialization.
Import AnalyticsService.

Lemma ensureInitialized_initialized w :
  initialized w = true → ensureInitialized w = (Returned (), w).
Proof. intros H. unfold ensureInitialized. mred. by rewrite H. Qed.

Lemma storage_getUserAnalytics_returns : returns AnalyticsStorageService.getUserAnalytics.
Proof. returning. Qed.

Lemma ensureInitialized_outcome w :
  (outcome ensureInitialized w = Returned () ∧ initialized (state ensureInitialized w) = true) ∨
  (∃ e, outcome ensureInitialized w = Thrown e ∧
        initialized (state ensureInitialized w) = false ∧ initialized w = false).
Proof.
  destruct (initialized w) eqn:Hi.
  { left. unfold outcome, state. by rewrite ensureInitialized_initialized. }
  unfold outcome, state, ensureInitialized, initialize.
  mred. rewrite Hi. mred. rewrite Hi. mred.
  destruct (AnalyticsStorageService.getUserAnalytics w) as [[existing|e] w1] eqn:E1.
  2:{ eapply returns_run in E1 as [? ?]; [done|apply storage_getUserAnalytics_returns]. }
  assert (initialized w1 = false) as Hi1.
  { rewrite <- Hi. eapply (preserves_run (unchanged initialized)); [|exact E1]. preserve. }
  destruct existing as [existing|].
  - left. done.
  - destruct (createInitialAnalytics w1) as [[[]|e] w2] eqn:E2; cbn.
    + left. done.
    + right. exists e. split; [done|]. split; [|done].
      rewrite <- Hi1. eapply (preserves_run (unchanged initialized)); [|exact E2]. preserve.
Qed.

End Initialization.

Section Delivery.
Import AnalyticsService.

(** The events the store holds grow by at most the event just tracked. *)
Lemma storage_trackEvent_events type data w :
  db_events (state (AnalyticsStorageService.trackEvent type data) w) = db_events w ∨
  db_events (state (AnalyticsStorageService.trackEvent type data) w)
  = db_events w ++ [eventAt w type data].
Proof.
  unfold state, AnalyticsStorageService.trackEvent. mred.
  unfold request. cbn [faults].
  destruct (faults w) as [|[] rest] eqn:Hf; mred.
  - right.
    match goal with
    | |- context [AnalyticsStorageService.updateRealTimeMetrics ?e ?w1] =>
        destruct (AnalyticsStorageService.updateRealTimeMetrics e w1) as [[[]|err] w2] eqn:E
    end; cbn;
      (eapply (preserves_run (unchanged db_events)) in E; [|preserve]);
      unfold unchanged in E; by rewrite E.
  - by left.
  - right.
    match goal with
    | |- context [AnalyticsStorageService.updateRealTimeMetrics ?e ?w1] =>
        destruct (AnalyticsStorageService.updateRealTimeMetrics e w1) as [[[]|err] w2] eqn:E
    end; cbn;
      (eapply (preserves_run (unchanged db_events)) in E; [|preserve]);
      unfold unchanged in E; by rewrite E.
Qed.

Lemma storage_trackEvent_events_length type data w :
  (length (db_events w) ≤ length (db_events (state (AnalyticsStorageService.trackEvent type data) w))
   ≤ length (db_events w) + 1)%nat.
Proof.
  destruct (storage_trackEvent_events type data w) as [-> | ->];
    rewrite ?length_app; simpl; lia.
Qed.

(** [AnalyticsService.trackEvent] throws only when the service cannot be
    initialized, and then nothing has been stored. *)
Lemma trackEvent_outcome type data w :
  let w' := state (trackEvent type data) w in
  (outcome (trackEvent type data) w = Returned () ∧ initialized w' = true ∧
   (length (db_events w) ≤ length (db_events w') ≤ length (db_events w) + 1)%nat) ∨
  (∃ e, outcome (trackEvent type data) w = Thrown e ∧ initialized w = false ∧
        db_events w' = db_events w).
Proof.
  unfold outcome, state, trackEvent. mred.
  pose proof (ensureInitialized_outcome w) as Hinit.
  unfold outcome, state in Hinit.
  destruct (ensureInitialized w) as [r w1] eqn:E1. simpl in Hinit.
  assert (db_events w1 = db_events w) as Hev.
  { eapply (preserves_run (unchanged db_events)); [|exact E1]. preserve. }
  destruct Hinit as [[-> Hi]|(e & -> & Hi & Hi0)].
  - left.
    pose proof (storage_trackEvent_returns type data w1) as [[] Hr].
    pose proof (storage_trackEvent_events_length type data w1) as Hlen.
    assert (initialized (state (AnalyticsStorageService.trackEvent type data) w1) = true) as Hi2.
    { rewrite <- Hi.
      assert (preserves (unchanged initialized)
                (AnalyticsStorageService.trackEvent type data)) as Hp by preserve.
      apply Hp. }
    unfold outcome, state in *.
    destruct (AnalyticsStorageService.trackEvent type data w1) as [r2 w2].
    simpl in *. subst r2. rewrite Hev in Hlen. done.
  - right. exists e. done.
Qed.

End Delivery.

Section Flush.
Import AnalyticsService AnalyticsCollectionService.

Lemma deliver_initialized batch : ∀ w,
  initialized w = true →
  outcome (deliver batch) w = Returned () ∧
  initialized (state (deliver batch) w) = true ∧
  (length (db_events w) ≤ length (db_events (state (deliver batch) w))
   ≤ length (db_events w) + length batch)%nat.
Proof.
  induction batch as [|b batch IH]; intros w Hi.
  - cbn. split; [done|]. split; [done|]. lia.
  - unfold deliver, outcome, state in *. cbn [for_of]. mred.
    destruct (trackEvent_outcome (buffered_type b) (buffered_data b) w)
      as [(Hr & Hi1 & Hlen)|(e & _ & Hi0 & _)]; [|congruence].
    unfold outcome, state in *.
    destruct (trackEvent (buffered_type b) (buffered_data b) w) as [r w1].
    simpl in *. subst r.
    destruct (IH w1 Hi1) as (Hr & Hi2 & Hlen2).
    split; [done|]. split; [done|]. cbn [length]. lia.
Qed.

Lemma deliver_outcome batch w :
  (outcome (deliver batch) w = Returned () ∧
   (length (db_events w) ≤ length (db_events (state (deliver batch) w))
    ≤ length (db_events w) + length batch)%nat) ∨
  (∃ e, outcome (deliver batch) w = Thrown e ∧
        db_events (state (deliver batch) w) = db_events w).
Proof.
  destruct batch as [|b batch].
  - left. cbn. split; [done|lia].
  - unfold deliver, outcome, state. cbn [for_of]. mred.
    destruct (trackEvent_outcome (buffered_type b) (buffered_data b) w)
      as [(Hr & Hi1 & Hlen)|(e & Hr & Hi0 & Hev)];
      unfold outcome, state in *;
      destruct (trackEvent (buffered_type b) (buffered_data b) w) as [r w1];
      simpl in *; subst r.
    + left. destruct (deliver_initialized batch w1 Hi1) as (Hr & _ & Hlen2).
      unfold deliver, outcome, state in *. split; [done|]. cbn [length]. lia.
    + right. by exists e.
Qed.

Lemma deliver_buffer batch :
  preserves (unchanged activityBuffer) (deliver batch).
Proof. unfold deliver. preserve. Qed.

Lemma flush_returns : returns flushActivityBuffer.
Proof. returning. Qed.

Lemma flush_unfold w :
  flushActivityBuffer w =
  if decide (length (activityBuffer w) = 0%nat) then (Returned (), w)
  else
    match deliver (activityBuffer w) (update_activityBuffer (λ _, []) w) with
    | (Returned a, w') => (Returned a, w')
    | (Thrown e, w') =>
        (Returned (), update_activityBuffer (λ buffer, activityBuffer w ++ buffer) w')
    end.
Proof. unfold flushActivityBuffer. mred. by case_decide. Qed.

(** A flush either empties the buffer, or, when the delivery threw, puts
    the whole batch back in its order with nothing stored. *)
Lemma flush_outcome w :
  let w' := state flushActivityBuffer w in
  (activityBuffer w' = [] ∧
   (length (db_events w) ≤ length (db_events w')
    ≤ length (db_events w) + length (activityBuffer w))%nat) ∨
  (activityBuffer w' = activityBuffer w ∧ db_events w' = db_events w).
Proof.
  unfold state. rewrite flush_unfold.
  case_decide as Hlen.
  { left. apply nil_length_inv in Hlen. rewrite Hlen. cbn. split; [done|lia]. }
  set (w0 := update_activityBuffer (λ _, []) w).
  pose proof (deliver_buffer (activityBuffer w) w0) as Hbuf.
  pose proof (deliver_outcome (activityBuffer w) w0) as Hout.
  unfold unchanged, outcome, state in *.
  destruct (deliver (activityBuffer w) w0) as [[[]|e] w1]; simpl in *.
  - left. destruct Hout as [[_ Hl]|(e & ? & _)]; [|done]. done.
  - right. destruct Hout as [[? _]|(e' & _ & Hev)]; [done|].
    rewrite Hbuf. simpl. rewrite app_nil_r. done.
Qed.

End Flush.

Section Available.
Import AnalyticsService AnalyticsCollectionService.

Lemma ensureInitialized_available w :
  available w → outcome ensureInitialized w = Returned ().
Proof.
  intros Hf. unfold outcome, ensureInitialized, initialize,
    AnalyticsStorageService.getUserAnalytics, createInitialAnalytics,
    AnalyticsStorageService.saveUserAnalytics.
  mred. destruct (initialized w) eqn:Hi; [done|].
  mred. rewrite Hi. mred. rewrite request_available by done. mred.
  destruct (db_analytics w !! user_analytics_current) as [[? ? [] ? ?]|]; mred;
    rewrite ?request_available by done; done.
Qed.

Lemma storage_trackEvent_available type data w :
  available w →
  db_events (state (AnalyticsStorageService.trackEvent type data) w)
  = db_events w ++ [eventAt w type data].
Proof.
  intros Hf. unfold state, AnalyticsStorageService.trackEvent. mred.
  rewrite request_available by done. mred.
  match goal with
  | |- context [AnalyticsStorageService.updateRealTimeMetrics ?e ?w1] =>
      destruct (AnalyticsStorageService.updateRealTimeMetrics e w1) as [[[]|err] w2] eqn:E
  end; cbn;
    (eapply (preserves_run (unchanged db_events)) in E; [|preserve]);
    unfold unchanged in E; by rewrite E.
Qed.

#[global] Instance eventAt_stable type data :
  Stable (unchanged (λ w, eventAt w type data)).
Proof. apply unchanged_stable. reflexivity. Qed.

Lemma trackEvent_available type data w :
  available w →
  outcome (trackEvent type data) w = Returned () ∧
  available (state (trackEvent type data) w) ∧
  db_events (state (trackEvent type data) w) = db_events w ++ [eventAt w type data].
Proof.
  intros Hf.
  assert (available (state (trackEvent type data) w)) as Hf'.
  { assert (preserves (kept available) (trackEvent type data)) as Hp by preserve.
    by apply Hp. }
  split; [|split; [done|]].
  - destruct (trackEvent_outcome type data w) as [(? & _)|(e & Hr & _ & _)]; [done|].
    exfalso. revert Hr. unfold outcome, trackEvent. mred.
    pose proof (ensureInitialized_available w Hf) as Hr. unfold outcome in Hr.
    destruct (ensureInitialized w) as [r w1]. simpl in Hr. subst r.
    pose proof (storage_trackEvent_returns type data w1) as [[] Hr].
    unfold outcome in Hr. by rewrite Hr.
  - unfold state, trackEvent. mred.
    pose proof (ensureInitialized_available w Hf) as Hr. unfold outcome in Hr.
    destruct (ensureInitialized w) as [r w1] eqn:E1. simpl in Hr. subst r.
    assert (available w1) as Hf1.
    { eapply (preserves_run (kept available)); [|exact E1|done]. preserve. }
    assert (eventAt w1 type data = eventAt w type data) as Hev.
    { eapply (preserves_run (unchanged (λ w, eventAt w type data))); [|exact E1]. preserve. }
    assert (db_events w1 = db_events w) as Hdb.
    { eapply (preserves_run (unchanged db_events)); [|exact E1]. preserve. }
    pose proof (storage_trackEvent_available type data w1 Hf1) as H.
    unfold state in H. rewrite H, Hev, Hdb. done.
Qed.

Lemma deliver_available batch : ∀ w,
  available w →
  outcome (deliver batch) w = Returned () ∧
  available (state (deliver batch) w) ∧
  ∃ es, db_events (state (deliver batch) w) = db_events w ++ es ∧
        map eventContent es = map bufferedContent batch.
Proof.
  induction batch as [|b batch IH]; intros w Hf.
  - cbn. split; [done|]. split; [done|]. exists []. by rewrite app_nil_r.
  - unfold deliver, outcome, state in *. cbn [for_of]. mred.
    destruct (trackEvent_available (buffered_type b) (buffered_data b) w Hf)
      as (Hr & Hf1 & Hev).
    unfold outcome, state in *.
    destruct (trackEvent (buffered_type b) (buffered_data b) w) as [r w1].
    simpl in *. subst r.
    destruct (IH w1 Hf1) as (Hr & Hf2 & es & Hes & Hmap).
    split; [done|]. split; [done|].
    exists (eventAt w (buffered_type b) (buffered_data b) :: es).
    rewrite Hes, Hev, <- app_assoc. split; [done|].
    cbn [map]. by rewrite Hmap.
Qed.

Lemma flush_available w :
  available w →
  available (state flushActivityBuffer w) ∧
  activityBuffer (state flushActivityBuffer w) = [] ∧
  ∃ es, db_events (state flushActivityBuffer w) = db_events w ++ es ∧
        map eventContent es = map bufferedContent (activityBuffer w).
Proof.
  intros Hf. unfold state. rewrite flush_unfold.
  case_decide as Hlen.
  { apply nil_length_inv in Hlen. rewrite Hlen. cbn.
    split; [done|]. split; [done|]. exists []. by rewrite app_nil_r. }
  set (w0 := update_activityBuffer (λ _, []) w).
  pose proof (deliver_buffer (activityBuffer w) w0) as Hbuf.
  destruct (deliver_available (activityBuffer w) w0 Hf) as (Hr & Hf1 & es & Hes & Hmap).
  unfold unchanged, outcome, state in *.
  destruct (deliver (activityBuffer w) w0) as [r w1]; simpl in *. subst r.
  split; [done|]. split; [done|]. by exists es.
Qed.

Lemma bufferEvent_unfold type data w :
  bufferEvent type data w =
  let w1 :=
    update_activityBuffer
      (λ buffer, buffer ++ [ {| buffered_type := type; buffered_data := data;
                                buffered_timestamp := now w |} ])
      (update_lastActivityTime (λ _, now w) w) in
  if decide (10 ≤ length (activityBuffer w1))%nat then flushActivityBuffer w1
  else (Returned (), w1).
Proof. unfold bufferEvent. mred. by case_decide. Qed.

End Available.

#[global] Instance eventsAndBuffer_stable : Stable (unchanged eventsAndBuffer).
Proof. apply unchanged_stable. reflexivity. Qed.

Section Steps.
Import AnalyticsService AnalyticsCollectionService.
Context (calc : Calculator).

Lemma bufferEvent_returns type data : returns (bufferEvent type data).
Proof. returning. Qed.

Lemma bufferEvent_held type data w :
  (held (state (bufferEvent type data) w) ≤ held w + 1)%nat.
Proof.
  unfold state, held. rewrite bufferEvent_unfold. cbv zeta.
  set (w1 := update_activityBuffer _ _).
  assert (length (activityBuffer w1) = S (length (activityBuffer w))) as Hb.
  { subst w1. cbn. rewrite length_app. simpl. lia. }
  assert (db_events w1 = db_events w) as He by done.
  case_decide.
  - pose proof (flush_outcome w1) as Hout. cbv zeta in Hout. unfold state in Hout.
    destruct (flushActivityBuffer w1) as [r w2]. cbn [fst snd] in *.
    destruct Hout as [[-> Hl]|[-> ->]]; rewrite ?He, ?Hb in *; simpl; lia.
  - cbn [fst snd]. rewrite He, Hb. lia.
Qed.

Lemma bufferEvent_held_available type data w :
  available w →
  available (state (bufferEvent type data) w) ∧
  held (state (bufferEvent type data) w) = S (held w).
Proof.
  intros Hf. unfold state, held. rewrite bufferEvent_unfold. cbv zeta.
  set (w1 := update_activityBuffer _ _).
  assert (length (activityBuffer w1) = S (length (activityBuffer w))) as Hb.
  { subst w1. cbn. rewrite length_app. simpl. lia. }
  assert (db_events w1 = db_events w) as He by done.
  assert (available w1) as Hf1 by done.
  case_decide.
  - destruct (flush_available w1 Hf1) as (Hf2 & Hbuf & es & Hes & Hmap).
    unfold state in *. destruct (flushActivityBuffer w1) as [r w2]. cbn [fst snd] in *.
    split; [done|].
    rewrite Hbuf, Hes, length_app, He. simpl.
    apply (f_equal length) in Hmap. rewrite !length_map in Hmap. lia.
  - cbn [fst snd]. split; [done|]. rewrite He, Hb. lia.
Qed.

Lemma bind_resolved (m : M unit) w : bind m (λ _, resolved) w = m w.
Proof. unfold bind, resolved. by destruct (m w) as [[[]|] ?]. Qed.

(** Every tracking method buffers one event and then only updates the
    snapshot, behind a [try]/[catch]. *)
Lemma track_shape call :
  ∃ (type : EventType) (rest : M unit),
    preserves (unchanged eventsAndBuffer) rest ∧
    preserves (kept available) rest ∧
    returns rest ∧
    ∀ w, ∃ data, track calc call w = bind (bufferEvent type data) (λ _, rest) w.
Proof.
  destruct call; cbn [track].
  all: first
    [ (* a lone [bufferEvent] *)
      eexists _, resolved; split; [preserve|]; split; [preserve|];
      split; [returning|]; intros w; eexists; rewrite bind_resolved;
      cbv beta iota zeta delta
        [trackVoiceRecordingStart trackVoiceRecordingFailed trackFileUploadStart
         trackFileUploadFailed trackSearchStart trackSearchResultClick trackContentView
         trackContentDelete trackFeatureUsage trackError trackGoalCreated
         trackGoalCompleted trackAchievementUnlocked trackPerformanceMetric
         trackLoadTime trackUserInteraction bind read];
      reflexivity
    | (* [bufferEvent] followed by an update of the snapshot *)
      eexists _, _; split; [|split; [|split]]; last first;
      [ intros w; eexists;
        unfold trackVoiceRecordingComplete, trackFileUploadComplete, trackSearchComplete,
          mbind, M_bind; reflexivity
      | returning | preserve | preserve ] ].
Qed.

End Steps.

Section Run.
Import AnalyticsService AnalyticsCollectionService.
Context (calc : Calculator).

Lemma track_returns call : returns (track calc call).
Proof.
  destruct (track_shape calc call) as (type & rest & _ & _ & Hret & Heq).
  intros w. destruct (Heq w) as [data E]. unfold outcome. rewrite E.
  apply (returns_bind _ _ (bufferEvent_returns type data) (λ _, Hret)).
Qed.

Lemma track_held call w : (held (state (track calc call) w) ≤ held w + 1)%nat.
Proof.
  destruct (track_shape calc call) as (type & rest & Hframe & _ & _ & Heq).
  destruct (Heq w) as [data E]. unfold state. rewrite E. unfold bind.
  pose proof (bufferEvent_held type data w) as Hb.
  pose proof (bufferEvent_returns type data w) as [[] Hr].
  unfold state, outcome in *.
  destruct (bufferEvent type data w) as [r w1]. simpl in *. subst r.
  specialize (Hframe w1). unfold unchanged, eventsAndBuffer, state in Hframe.
  unfold held in *. injection Hframe as -> ->. done.
Qed.

Lemma track_held_available call w :
  available w →
  available (state (track calc call) w) ∧ held (state (track calc call) w) = S (held w).
Proof.
  intros Hf.
  destruct (track_shape calc call) as (type & rest & Hframe & Hav & _ & Heq).
  destruct (Heq w) as [data E]. unfold state. rewrite E. unfold bind.
  destruct (bufferEvent_held_available type data w Hf) as [Hf1 Hb].
  pose proof (bufferEvent_returns type data w) as [[] Hr].
  unfold state, outcome in *.
  destruct (bufferEvent type data w) as [r w1]. simpl in *. subst r.
  specialize (Hframe w1). specialize (Hav w1 Hf1).
  unfold unchanged, eventsAndBuffer, state in *.
  unfold held in *. injection Hframe as -> ->. done.
Qed.

Lemma timerTick_held w :
  (held (state timerTick w) ≤ held w)%nat ∧
  (available w → available (state timerTick w) ∧ held (state timerTick w) = held w).
Proof.
  unfold state, timerTick. mred. destruct (flushInterval w).
  - split.
    + pose proof (flush_outcome w) as Hout. cbv zeta in Hout. unfold state, held in *.
      destruct (flushActivityBuffer w) as [r w1]. cbn [fst snd] in *.
      destruct Hout as [[-> Hl]|[-> ->]]; simpl; lia.
    + intros Hf. destruct (flush_available w Hf) as (Hf1 & Hbuf & es & Hes & Hmap).
      unfold state, held in *.
      destruct (flushActivityBuffer w) as [r w1]. cbn [fst snd] in *.
      split; [done|]. rewrite Hbuf, Hes, length_app. simpl.
      apply (f_equal length) in Hmap. rewrite !length_map in Hmap. lia.
  - cbn. split; [lia|done].
Qed.

Lemma step_returns s : returns (step calc s).
Proof.
  destruct s; cbn [step].
  - apply track_returns.
  - unfold timerTick. apply returns_bind; [apply returns_read|].
    intros []; [apply flush_returns|apply returns_resolved].
  - apply returns_write.
Qed.

Lemma step_held s w :
  (held (state (step calc s) w) ≤ held w + (if isTrack s then 1 else 0))%nat ∧
  (available w →
   available (state (step calc s) w) ∧
   held (state (step calc s) w) = (held w + (if isTrack s then 1 else 0))%nat).
Proof.
  destruct s; cbn [step isTrack].
  - split; [apply track_held|].
    intros Hf. destruct (track_held_available call w Hf). split; [done|lia].
  - destruct (timerTick_held w) as [H1 H2]. split; [lia|].
    intros Hf. destruct (H2 Hf). split; [done|lia].
  - unfold state, held. cbn. split; [lia|]. intros Hf. split; [done|lia].
Qed.

Lemma run_held steps : ∀ w,
  outcome (run calc steps) w = Returned () ∧
  (held (state (run calc steps) w) ≤ held w + tracked steps)%nat ∧
  (available w →
   held (state (run calc steps) w) = (held w + tracked steps)%nat).
Proof.
  induction steps as [|s steps IH]; intros w.
  - cbn. split; [done|]. split; [lia|]. intros _. lia.
  - unfold run, outcome, state in *. cbn [for_of]. mred.
    destruct (step_returns s w) as [[] Hr].
    destruct (step_held s w) as [Hle Heq].
    unfold outcome, state in *.
    destruct (step calc s w) as [r w1]. simpl in Hr, Hle, Heq. subst r.
    destruct (IH w1) as (Hr & Hle1 & Heq1).
    assert (tracked (s :: steps) = ((if isTrack s then 1 else 0) + tracked steps)%nat) as Ht.
    { unfold tracked. rewrite filter_cons. destruct s; simpl; done. }
    rewrite Ht. split; [done|]. split; [lia|].
    intros Hf. destruct (Heq Hf) as [Hf1 Heq']. rewrite (Heq1 Hf1). lia.
Qed.

End Run.

Section Buffering.
Import AnalyticsService AnalyticsCollectionService.

Lemma for_of_returns {A} (l : list A) body :
  (∀ x, returns (body x)) → returns (for_of l body).
Proof.
  intros Hb. induction l as [|x l IH]; cbn [for_of].
  - apply returns_ret.
  - unfold mbind, M_bind. apply returns_bind; [apply Hb|done].
Qed.


Lemma bufferEvent_step type data w :
  available w → (length (activityBuffer w) < 10)%nat →
  let w' := state (bufferEvent type data) w in
  available w' ∧
  ∃ es, db_events w' = db_events w ++ es ∧
        map eventContent es ++ map bufferedContent (activityBuffer w')
        = map bufferedContent (activityBuffer w) ++ [(type, data)] ∧
        length (activityBuffer w') = ((length (activityBuffer w) + 1) mod 10)%nat ∧
        (length (activityBuffer w) < 9 →
         activityBuffer w' =
         activityBuffer w ++ [ {| buffered_type := type; buffered_data := data;
                                  buffered_timestamp := now w |} ])%nat.
Proof.
  intros Hf Hlen. cbv zeta. unfold state. rewrite bufferEvent_unfold. cbv zeta.
  set (w1 := update_activityBuffer _ _).
  assert (activityBuffer w1 =
          activityBuffer w ++ [ {| buffered_type := type; buffered_data := data;
                                   buffered_timestamp := now w |} ]) as Hb by done.
  assert (db_events w1 = db_events w) as He by done.
  assert (available w1) as Hf1 by done.
  case_decide as Hten.
  - rewrite Hb, length_app in Hten. simpl in Hten.
    assert (length (activityBuffer w) = 9%nat) as H9 by lia.
    destruct (flush_available w1 Hf1) as (Hf2 & Hbuf & es & Hes & Hmap).
    unfold state in *. destruct (flushActivityBuffer w1) as [r w2]. cbn [fst snd] in *.
    split; [done|]. exists es. split; [by rewrite Hes, He|].
    split; [by rewrite Hbuf, Hmap, Hb, app_nil_r, map_app|].
    split; [by rewrite Hbuf, H9|lia].
  - rewrite Hb, length_app in Hten. simpl in Hten. cbn [fst snd].
    split; [done|]. exists []. split; [by rewrite app_nil_r|].
    split; [by rewrite Hb, map_app|]. split; [|done].
    rewrite Hb, length_app. cbn [length]. rewrite Nat.mod_small; lia.
Qed.

Lemma bufferAll_available calls : ∀ w,
  available w → (length (activityBuffer w) < 10)%nat →
  let w' := state (bufferAll calls) w in
  available w' ∧ (length (activityBuffer w') < 10)%nat ∧
  ∃ es, db_events w' = db_events w ++ es ∧
        map eventContent es ++ map bufferedContent (activityBuffer w')
        = map bufferedContent (activityBuffer w) ++ calls ∧
        length (activityBuffer w') =
        ((length (activityBuffer w) + length calls) mod 10)%nat.
Proof.
  induction calls as [|[type data] calls IH]; intros w Hf Hlen; cbv zeta.
  - unfold bufferAll, state. cbn [for_of mret M_ret snd length].
    split; [done|]. split; [done|]. exists [].
    rewrite !app_nil_r, Nat.add_0_r, Nat.mod_small by lia. done.
  - unfold bufferAll, state in *. cbn [for_of]. mred.
    destruct (bufferEvent_step type data w Hf Hlen) as (Hf1 & es1 & Hes1 & Hc1 & Hl1 & _).
    pose proof (bufferEvent_returns type data w) as [[] Hr].
    unfold outcome, state in *.
    destruct (bufferEvent type data w) as [r w1]. cbn [fst snd] in *. subst r.
    assert (length (activityBuffer w1) < 10)%nat as Hlen1.
    { rewrite Hl1. apply Nat.mod_upper_bound. lia. }
    destruct (IH w1 Hf1 Hlen1) as (Hf2 & Hlen2 & es2 & Hes2 & Hc2 & Hl2).
    split; [done|]. split; [done|]. exists (es1 ++ es2).
    rewrite Hes2, Hes1, <- app_assoc. split; [done|]. split.
    + rewrite map_app, <- app_assoc, Hc2, app_assoc, Hc1, <- app_assoc. done.
    + rewrite Hl2, Hl1. cbn [length].
      rewrite Nat.Div0.add_mod_idemp_l. f_equal. lia.
Qed.

End Buffering.

Section FlushAtTen.
Import AnalyticsCollectionService.


End FlushAtTen.

Section FlushAtTenExample.



End FlushAtTenExample.

Section RealTime.
Import AnalyticsStorageService.

Lemma updateRealTimeMetrics_available event w :
  available w →
  updateRealTimeMetrics event w =
  (Returned (),
   update_db_analytics
     (insert (daily_usage (formatDateKey (now w)))
        {| record_id := daily_usage (formatDateKey (now w));
           record_type := type_daily_usage;
           record_data := DailyUsage (applyEvent event (todayUsage w));
           record_timestamp := now w;
           record_version := 1 |}) w).
Proof.
  intros Hf. unfold updateRealTimeMetrics, getDailyUsage, saveDailyUsage.
  mred. rewrite request_available by done. mred.
  rewrite request_available by done. mred.
  unfold todayUsage.
  destruct (db_analytics w !! daily_usage (formatDateKey (now w))) as [[? ? [] ? ?]|]; done.
Qed.

Lemma storage_trackEvent_todayUsage type data w :
  available w →
  todayUsage (state (trackEvent type data) w) = applyEvent (eventAt w type data) (todayUsage w).
Proof.
  intros Hf. unfold state, trackEvent. mred.
  rewrite request_available by done. mred.
  rewrite updateRealTimeMetrics_available by done. mred.
  unfold todayUsage at 1. cbn [now db_analytics].
  rewrite lookup_insert_eq. done.
Qed.

End RealTime.

Section Snapshot.
Import AnalyticsService.

(** Saving replaces the whole record, or fails and leaves the table alone. *)
Lemma saveUserAnalytics_outcome analytics w :
  let w' := state (AnalyticsStorageService.saveUserAnalytics analytics) w in
  (outcome (AnalyticsStorageService.saveUserAnalytics analytics) w = Returned () ∧
   db_analytics w' = <[user_analytics_current := snapshotRecord (now w) analytics]> (db_analytics w)) ∨
  (outcome (AnalyticsStorageService.saveUserAnalytics analytics) w = Thrown StoreError ∧
   db_analytics w' = db_analytics w).
Proof.
  unfold outcome, state, AnalyticsStorageService.saveUserAnalytics. mred.
  unfold request. cbn [faults]. destruct (faults w) as [|[] rest]; cbn; auto.
Qed.

Lemma ensureInitialized_analytics w :
  let w' := state ensureInitialized w in
  db_analytics w' = db_analytics w ∨
  (initialized w = false ∧
   db_analytics w' = <[user_analytics_current := snapshotRecord (now w) (initialAnalytics (now w))]> (db_analytics w)).
Proof.
  cbv zeta. destruct (initialized w) eqn:Hi.
  { left. unfold state. by rewrite ensureInitialized_initialized. }
  unfold state, ensureInitialized, initialize.
  mred. rewrite Hi. mred. rewrite Hi. mred.
  destruct (AnalyticsStorageService.getUserAnalytics w) as [[existing|e] w1] eqn:E1.
  2:{ eapply returns_run in E1 as [? ?]; [done|apply storage_getUserAnalytics_returns]. }
  assert (db_analytics w1 = db_analytics w) as Hdb.
  { eapply (preserves_run (unchanged db_analytics)); [|exact E1]. preserve. }
  assert (now w1 = now w) as Hnow.
  { eapply (preserves_run (unchanged now)); [|exact E1]. preserve. }
  destruct existing as [existing|]; [by left|].
  unfold createInitialAnalytics. mred.
  pose proof (saveUserAnalytics_outcome (initialAnalytics (now w1)) w1) as Hsave.
  cbv zeta in Hsave. unfold outcome, state in Hsave.
  destruct (AnalyticsStorageService.saveUserAnalytics (initialAnalytics (now w1)) w1)
    as [r w2]. cbn [fst snd] in *.
  destruct Hsave as [[-> Hs]|[-> Hs]]; cbn; rewrite Hs, Hdb, ?Hnow; auto.
Qed.

Context (calc : Calculator).

(** What [updateUserAnalytics] does to the [analytics] table. *)
Lemma updateUserAnalytics_outcome contentItems w :
  let w' := state (updateUserAnalytics calc (ItemsArray contentItems)) w in
  match outcome (updateUserAnalytics calc (ItemsArray contentItems)) w with
  | Returned analytics => snapshot w' = Some analytics ∧
      (initialized w = true →
       db_analytics w' =
       <[user_analytics_current := snapshotRecord (now w) analytics]> (db_analytics w))
  | Thrown e =>
      db_analytics w' = db_analytics w ∨
      (initialized w = false ∧
       db_analytics w' =
       <[user_analytics_current := snapshotRecord (now w) (initialAnalytics (now w))]>
         (db_analytics w))
  end.
Proof.
  cbv zeta. unfold outcome, state, updateUserAnalytics. mred.
  pose proof (ensureInitialized_analytics w) as Hinit. cbv zeta in Hinit.
  pose proof (ensureInitialized_initialized w) as Hinit'.
  unfold state in Hinit.
  destruct (ensureInitialized w) as [[[]|e] w1] eqn:E1; cbn [fst snd] in *; [|done].
  assert (now w1 = now w) as Hnow.
  { eapply (preserves_run (unchanged now)); [|exact E1]. preserve. }
  rewrite Hnow.
  match goal with
  | |- context [AnalyticsStorageService.getEvents ?q w1] =>
      destruct (AnalyticsStorageService.getEvents q w1) as [[events|e] w2] eqn:E2
  end.
  2:{ eapply returns_run in E2 as [? ?]; [done|returning]. }
  assert (db_analytics w2 = db_analytics w1 ∧ now w2 = now w1) as [Hdb2 Hnow2].
  { split.
    - eapply (preserves_run (unchanged db_analytics)); [|exact E2]. preserve.
    - eapply (preserves_run (unchanged now)); [|exact E2]. preserve. }
  match goal with
  | |- context [AnalyticsStorageService.getDailyUsageRange ?a ?b w2] =>
      destruct (AnalyticsStorageService.getDailyUsageRange a b w2) as [[usage|e] w3] eqn:E3
  end.
  2:{ eapply returns_run in E3 as [? ?]; [done|returning]. }
  assert (db_analytics w3 = db_analytics w2 ∧ now w3 = now w2) as [Hdb3 Hnow3].
  { split.
    - eapply (preserves_run (unchanged db_analytics)); [|exact E3]. preserve.
    - eapply (preserves_run (unchanged now)); [|exact E3]. preserve. }
  destruct (getAccountCreatedDate w3) as [[created|e] w4] eqn:E4.
  2:{ eapply returns_run in E4 as [? ?]; [done|returning]. }
  assert (db_analytics w4 = db_analytics w3 ∧ now w4 = now w3) as [Hdb4 Hnow4].
  { split.
    - eapply (preserves_run (unchanged db_analytics)); [|exact E4]. preserve.
    - eapply (preserves_run (unchanged now)); [|exact E4]. preserve. }
  match goal with
  | |- context [AnalyticsStorageService.saveUserAnalytics ?a w4] =>
      pose proof (saveUserAnalytics_outcome a w4) as Hsave;
      cbv zeta in Hsave; unfold outcome, state in Hsave;
      destruct (AnalyticsStorageService.saveUserAnalytics a w4) as [r w5]
  end.
  cbn [fst snd] in *.
  destruct Hsave as [[-> Hs]|[-> Hs]]; cbn [fst snd].
  - split.
    + unfold snapshot. rewrite Hs, lookup_insert_eq. done.
    + intros Hi. specialize (Hinit' Hi). injection Hinit' as <-.
      rewrite Hs, Hdb4, Hdb3, Hdb2, Hnow4, Hnow3, Hnow2. done.
  - rewrite Hs, Hdb4, Hdb3, Hdb2. exact Hinit.
Qed.

End Snapshot.

Lemma succeeds_returns {A} (m : M A) : returns m → succeeds m.
Proof. intros H w _. apply H. Qed.

Lemma succeeds_bind {A B} (m : M A) (k : A → M B) :
  succeeds m → preserves (kept available) m → (∀ a, succeeds (k a)) → succeeds (bind m k).
Proof.
  intros Hm Hp Hk w Hf. destruct (Hm w Hf) as [a Ha]. specialize (Hp w Hf).
  unfold outcome, state, bind in *.
  destruct (m w) as [r w1]; simpl in *; subst. by apply Hk.
Qed.

Lemma succeeds_request {A} (operation : M A) : succeeds operation → succeeds (request operation).
Proof.
  intros H w Hf. unfold outcome. rewrite request_available by done. by apply H.
Qed.

Lemma succeeds_try_catch {A} (body : M A) handler :
  succeeds body → succeeds (try_catch body handler).
Proof.
  intros H w Hf. destruct (H w Hf) as [a Ha]. unfold outcome, try_catch in *.
  destruct (body w) as [r w1]; simpl in *; subst. by eexists.
Qed.

Lemma succeeds_for_of {A} (l : list A) body :
  (∀ x, succeeds (body x)) → (∀ x, preserves (kept available) (body x)) →
  succeeds (for_of l body).
Proof.
  intros Hb Hp. induction l as [|x l IH]; cbn [for_of].
  - apply succeeds_returns, returns_ret.
  - unfold mbind, M_bind. apply succeeds_bind; [apply Hb|apply Hp|done].
Qed.

Ltac succeeds_step :=
  lazymatch goal with
  | |- succeeds (bind _ _) => apply succeeds_bind; [|preserve|intros ?]
  | |- succeeds (mbind _ _) => unfold mbind, M_bind
  | |- succeeds (mret _) => apply succeeds_returns, returns_ret
  | |- succeeds resolved => apply succeeds_returns, returns_resolved
  | |- succeeds (read _) => apply succeeds_returns, returns_read
  | |- succeeds (write _) => apply succeeds_returns, returns_write
  | |- succeeds (try_catch _ _) => apply succeeds_try_catch
  | |- succeeds (request _) => apply succeeds_request
  | |- succeeds (for_of _ _) => apply succeeds_for_of; [intros ?|preserve]
  | |- succeeds (match ?x with _ => _ end) => destruct x
  | |- succeeds (let (_, _) := ?x in _) => destruct x
  | |- succeeds ?m => unfold_method m
  end.

Ltac succeeding := intros; repeat succeeds_step.

(** Steps of a method in a given world. *)
Lemma bind_read {A B} (f : World → A) (k : A → M B) w : bind (read f) k w = k (f w) w.
Proof. reflexivity. Qed.

Lemma bind_write {B} f (k : unit → M B) w : bind (write f) k w = k () (f w).
Proof. reflexivity. Qed.

Lemma bind_ret {A B} (a : A) (k : A → M B) w : bind (mret a) k w = k a w.
Proof. reflexivity. Qed.

Lemma bind_run {A B} (m : M A) (k : A → M B) w a w1 :
  m w = (Returned a, w1) → bind m k w = k a w1.
Proof. intros E. unfold bind. by rewrite E. Qed.

Lemma succeeds_run {A} (m : M A) w :
  succeeds m → preserves (kept available) m → available w →
  ∃ a w1, m w = (Returned a, w1) ∧ available w1.
Proof.
  intros Hs Hp Hf. destruct (Hs w Hf) as [a Ha]. specialize (Hp w Hf).
  unfold outcome, state in *. destruct (m w) as [r w1]; simpl in *; subst. eauto.
Qed.

Section Gamification.
Import GamificationService.

Lemma getGoals_available status_ w :
  available w →
  AnalyticsStorageService.getGoals status_ w =
  (Returned (match status_ with
             | Some s => filter (λ goal, status goal = s) (db_goals w)
             | None => db_goals w
             end), w).
Proof.
  intros Hf. unfold AnalyticsStorageService.getGoals. mred.
  destruct status_; rewrite request_available by done; done.
Qed.

Lemma awardXP_succeeds amount : succeeds (awardXP amount).
Proof. succeeding. Qed.

Lemma awardXP_available amount : preserves (kept available) (awardXP amount).
Proof. preserve. Qed.

(** The points are added before anything can fail. *)
Lemma awardXP_userXP amount w :
  userXP (state (awardXP amount) w) = userXP w + amount.
Proof.
  unfold state, awardXP.
  rewrite !bind_read. unfold mbind, M_bind. rewrite bind_write.
  match goal with
  | |- userXP (?m ?w1).2 = _ =>
      assert (preserves (unchanged userXP) m) as Hp by preserve;
      specialize (Hp w1); unfold state, unchanged in Hp; rewrite Hp
  end.
  done.
Qed.

Lemma awardXP_goals amount : preserves (unchanged db_goals) (awardXP amount).
Proof. preserve. Qed.

Lemma awardXP_insights amount : preserves (unchanged db_insights) (awardXP amount).
Proof. preserve. Qed.

Lemma unlockAchievement_succeeds achievement xpReward :
  succeeds (unlockAchievement achievement xpReward).
Proof. succeeding. Qed.

Lemma unlockAchievement_available achievement xpReward :
  preserves (kept available) (unlockAchievement achievement xpReward).
Proof. preserve. Qed.

Lemma unlockAchievement_goals achievement xpReward :
  preserves (unchanged db_goals) (unlockAchievement achievement xpReward).
Proof. preserve. Qed.

Lemma unlockAchievement_now achievement xpReward :
  preserves (unchanged now) (unlockAchievement achievement xpReward).
Proof. preserve. Qed.

End Gamification.

Section Goals.
Import GamificationService.

Lemma saveInsight_available insight w :
  available w →
  AnalyticsStorageService.saveInsight insight w =
  (Returned (), update_db_insights (put insight_id insight) w).
Proof.
  intros Hf. unfold AnalyticsStorageService.saveInsight. mred.
  by rewrite request_available.
Qed.

Lemma unlockAchievement_run achievement xpReward w :
  available w →
  ∃ w1, unlockAchievement achievement xpReward w = (Returned (), w1) ∧
        available w1 ∧
        userXP w1 = userXP w + xpReward ∧
        db_insights w1 = put insight_id (achievementInsight achievement (now w)) (db_insights w) ∧
        db_goals w1 = db_goals w ∧ now w1 = now w.
Proof.
  intros Hf.
  destruct (succeeds_run _ w (unlockAchievement_succeeds achievement xpReward)
              (unlockAchievement_available achievement xpReward) Hf) as ([] & w1 & E & Hf1).
  exists w1. split; [done|]. split; [done|].
  pose proof (unlockAchievement_goals achievement xpReward w) as Hg.
  pose proof (unlockAchievement_now achievement xpReward w) as Hn.
  unfold unchanged, state in Hg, Hn. rewrite E in Hg, Hn. cbn [snd] in *.
  split; [|split; [|done]].
  - revert E. unfold unlockAchievement. rewrite bind_read. unfold mbind, M_bind.
    rewrite (bind_run _ _ _ _ _ (saveInsight_available _ w Hf)).
    set (w0 := update_db_insights _ w).
    pose proof (awardXP_userXP xpReward w0) as Hxp. unfold state in Hxp.
    unfold bind at 1.
    destruct (awardXP xpReward w0) as [[a|e] w2]; cbn [snd] in Hxp; [|done].
    intros E.
    match type of E with
    | ?m w2 = _ =>
        assert (preserves (unchanged userXP) m) as Hp by preserve;
        specialize (Hp w2); unfold state, unchanged in Hp; rewrite E in Hp
    end.
    cbn [snd] in Hp. rewrite Hp, Hxp. done.
  - revert E. unfold unlockAchievement. rewrite bind_read. unfold mbind, M_bind.
    rewrite (bind_run _ _ _ _ _ (saveInsight_available _ w Hf)).
    set (w0 := update_db_insights _ w).
    intros E.
    match type of E with
    | ?m w0 = _ =>
        assert (preserves (unchanged db_insights) m) as Hp by preserve;
        specialize (Hp w0); unfold state, unchanged in Hp; rewrite E in Hp
    end.
    cbn [snd] in Hp. rewrite Hp. done.
Qed.

Lemma checkGoalAchievements_run completedGoal w :
  available w →
  ∃ w1, checkGoalAchievements completedGoal w = (Returned (), w1) ∧
        available w1 ∧ userXP w1 = userXP w + goalBonus w ∧
        db_goals w1 = db_goals w ∧ now w1 = now w.
Proof.
  intros Hf. unfold checkGoalAchievements, goalBonus.
  rewrite (bind_run _ _ _ _ _ (getGoals_available None w Hf)).
  rewrite bind_read. unfold mbind, M_bind. cbv zeta.
  set (n := length (filter (λ g, status g = completed) (db_goals w))).
  destruct (decide (n = 1%nat)) as [H1|H1].
  - match goal with
    | |- context [unlockAchievement ?a ?x] =>
        destruct (unlockAchievement_run a x w Hf) as (w1 & E & Hf1 & Hxp & _ & Hg & Hn)
    end.
    rewrite (bind_run _ _ _ _ _ E).
    rewrite decide_False by lia. exists w1. unfold resolved, mret, M_ret.
    split; [done|]. split; [done|]. split; [repeat case_decide; lia|done].
  - unfold resolved at 1. rewrite bind_ret.
    destruct (decide (n = 10%nat)) as [H10|H10].
    + match goal with
      | |- context [unlockAchievement ?a ?x] =>
          destruct (unlockAchievement_run a x w Hf) as (w1 & E & Hf1 & Hxp & _ & Hg & Hn)
      end.
      exists w1. split; [done|]. split; [done|]. split; [repeat case_decide; lia|done].
    + exists w. split; [done|]. split; [done|]. split; [repeat case_decide; lia|done].
Qed.

End Goals.

#[global] Instance eventCount_stable type : Stable (unchanged (eventCount type)).
Proof. apply unchanged_stable. reflexivity. Qed.

Lemma eventCount_snoc type w (f : World → World) e :
  db_events (f w) = db_events w ++ [e] →
  eventCount type (f w) =
  (eventCount type w + if decide (event_type e = type) then 1 else 0)%nat.
Proof.
  intros H. unfold eventCount. rewrite H, filter_app, length_app, filter_cons, filter_nil.
  by case_decide.
Qed.

Lemma storage_trackEvent_count type' type data :
  type ≠ type' →
  preserves (unchanged (eventCount type')) (AnalyticsStorageService.trackEvent type data).
Proof.
  intros Hne w. unfold unchanged.
  destruct (storage_trackEvent_events type data w) as [H|H].
  - unfold eventCount. by rewrite H.
  - rewrite (eventCount_snoc _ _ (state _) _ H). cbn [eventAt event_type].
    rewrite decide_False by done. lia.
Qed.

#[global] Hint Extern 1 (preserves (unchanged (eventCount _)) (AnalyticsStorageService.trackEvent _ _)) =>
  apply storage_trackEvent_count; discriminate : frames.

Section GoalProgress.
Import GamificationService.

Lemma storage_trackEvent_run type data w :
  available w →
  ∃ w1, AnalyticsStorageService.trackEvent type data w = (Returned (), w1) ∧
        available w1 ∧ db_events w1 = db_events w ++ [eventAt w type data] ∧
        userXP w1 = userXP w ∧ db_goals w1 = db_goals w ∧ now w1 = now w.
Proof.
  intros Hf.
  pose proof (storage_trackEvent_returns type data w) as [[] Hr].
  pose proof (storage_trackEvent_available type data w Hf) as Hev.
  assert (preserves (kept available) (AnalyticsStorageService.trackEvent type data)) as Hav by preserve.
  assert (preserves (unchanged userXP) (AnalyticsStorageService.trackEvent type data)) as Hxp by preserve.
  assert (preserves (unchanged db_goals) (AnalyticsStorageService.trackEvent type data)) as Hg by preserve.
  assert (preserves (unchanged now) (AnalyticsStorageService.trackEvent type data)) as Hn by preserve.
  specialize (Hav w Hf). specialize (Hxp w). specialize (Hg w). specialize (Hn w).
  unfold outcome, state, unchanged in *.
  destruct (AnalyticsStorageService.trackEvent type data w) as [r w1].
  cbn [fst snd] in *. subst r. by exists w1.
Qed.

Lemma try_catch_rethrow {A} (body : M A) w :
  try_catch body (λ error, throw error) w = body w.
Proof. unfold try_catch, throw. by destruct (body w) as [[] ?]. Qed.

Lemma request_write_available f w :
  available w → request (write f) w = (Returned (), f w).
Proof. intros Hf. by rewrite request_available. Qed.

Lemma request_read_available {A} (f : World → A) w :
  available w → request (read f) w = (Returned (f w), w).
Proof. intros Hf. by rewrite request_available. Qed.

Lemma find_map_goal goalId (f : Goal → Goal) (goals : list Goal) :
  (∀ g, goal_id (f g) = goal_id g) →
  find (λ g, bool_decide (goal_id g = goalId))
       (map (λ goal, if decide (goal_id goal = goalId) then f goal else goal) goals)
  = f <$> find (λ g, bool_decide (goal_id g = goalId)) goals.
Proof.
  intros Hid. induction goals as [|g goals IH]; [done|].
  cbn [map find]. case_decide as Hg.
  - rewrite Hid. rewrite !bool_decide_eq_true_2 by done. done.
  - rewrite !bool_decide_eq_false_2 by done. done.
Qed.

Lemma updateGoal_run goalId updates w :
  available w →
  ∃ w1, AnalyticsStorageService.updateGoal goalId updates w = (Returned (), w1) ∧
        available w1 ∧ userXP w1 = userXP w ∧ now w1 = now w ∧
        findGoal goalId w1 = AnalyticsStorageService.applyUpdates updates <$> findGoal goalId w ∧
        (updates_status updates ≠ Some completed → db_events w1 = db_events w) ∧
        (updates_status updates = Some completed →
         ∃ e, db_events w1 = db_events w ++ [e] ∧ event_type e = goal_completed) ∧
        (∀ type, type ≠ goal_completed → eventCount type w1 = eventCount type w).
Proof.
  intros Hf. unfold AnalyticsStorageService.updateGoal.
  rewrite try_catch_rethrow. unfold mbind, M_bind.
  rewrite (bind_run _ _ _ _ _ (request_write_available _ w Hf)).
  set (w0 := update_db_goals _ w).
  assert (findGoal goalId w0 = AnalyticsStorageService.applyUpdates updates <$> findGoal goalId w) as Hfind.
  { unfold findGoal. subst w0. cbn [db_goals update_db_goals]. by apply find_map_goal. }
  case_decide as Hs.
  - destruct (storage_trackEvent_run goal_completed
                (list_to_map [("goalId", JsString goalId); ("goalType", JsUndefined);
                              ("currentValue", JsNumber (updates_current updates))])
                w0 Hf) as (w1 & E & Hf1 & Hev & Hxp & Hg & Hn).
    rewrite E. exists w1. split; [done|]. split; [done|]. split; [done|].
    split; [done|]. split; [by unfold findGoal in *; rewrite Hg|].
    split; [done|]. split; [by eexists|].
    intros type Hne.
    rewrite (eventCount_snoc type w0 (λ _, w1) _ Hev). cbn [eventAt event_type].
    rewrite decide_False by done. unfold eventCount. cbn. lia.
  - exists w0. split; [done|]. split; [done|]. split; [done|].
    split; [done|]. split; [done|]. split; [done|]. split; [done|]. done.
Qed.

Lemma updateGoalProgress_completes goalId currentValue goal w :
  available w → findGoal goalId w = Some goal →
  status goal ≠ completed → (target goal <= currentValue)%Q →
  ∃ w1, updateGoalProgress goalId currentValue w = (Returned true, w1) ∧
        available w1 ∧
        userXP w1 = userXP w + calculateGoalXP goal + goalBonus w ∧
        findGoal goalId w1 =
          Some (AnalyticsStorageService.applyUpdates
                  {| updates_current := currentValue; updates_status := Some completed |} goal) ∧
        eventCount goal_completed w1 = (eventCount goal_completed w + 2)%nat.
Proof.
  intros Hf Hfind Hstatus Htarget. unfold updateGoalProgress.
  rewrite (bind_run _ _ _ _ _ (getGoals_available None w Hf)).
  unfold findGoal in Hfind. rewrite Hfind. cbv zeta.
  rewrite (bool_decide_eq_true_2 _ Htarget), (bool_decide_eq_false_2 _ Hstatus).
  cbn [andb negb]. unfold mbind, M_bind.
  destruct (succeeds_run _ w (awardXP_succeeds (calculateGoalXP goal))
              (awardXP_available (calculateGoalXP goal)) Hf) as (a & w1 & E1 & Hf1).
  pose proof (awardXP_userXP (calculateGoalXP goal) w) as Hxp1.
  pose proof (awardXP_goals (calculateGoalXP goal) w) as Hg1.
  assert (preserves (unchanged (eventCount goal_completed)) (awardXP (calculateGoalXP goal)))
    as Hc1 by preserve.
  specialize (Hc1 w). unfold state, unchanged in Hxp1, Hg1, Hc1.
  rewrite E1 in Hxp1, Hg1, Hc1. cbn [snd] in *.
  match goal with
  | |- context [AnalyticsStorageService.trackEvent goal_completed ?d] =>
      destruct (storage_trackEvent_run goal_completed d w1 Hf1)
        as (w2 & E2 & Hf2 & Hev2 & Hxp2 & Hg2 & Hn2)
  end.
  destruct (checkGoalAchievements_run goal w2 Hf2) as (w3 & E3 & Hf3 & Hxp3 & Hg3 & Hn3).
  assert (preserves (unchanged (eventCount goal_completed)) (checkGoalAchievements goal))
    as Hc3 by preserve.
  specialize (Hc3 w2). unfold state, unchanged in Hc3. rewrite E3 in Hc3. cbn [snd] in Hc3.
  destruct (updateGoal_run goalId
              {| updates_current := currentValue; updates_status := Some completed |} w3 Hf3)
    as (w4 & E4 & Hf4 & Hxp4 & Hn4 & Hfind4 & _ & Hev4 & _).
  destruct (Hev4 eq_refl) as (e4 & Hev4' & Hty4).
  exists w4. split.
  { unfold bind. rewrite E1. cbv beta iota. rewrite E2. cbv beta iota.
    rewrite E3. cbv beta iota. rewrite E4. done. }
  split; [done|]. split; [|split].
  - rewrite Hxp4, Hxp3, Hxp2, Hxp1. unfold goalBonus. rewrite Hg2, Hg1. done.
  - rewrite Hfind4. unfold findGoal. rewrite Hg3, Hg2, Hg1, Hfind. done.
  - rewrite (eventCount_snoc goal_completed w3 (λ _, w4) e4 Hev4'), Hty4.
    rewrite decide_True by done. rewrite Hc3.
    rewrite (eventCount_snoc goal_completed w1 (λ _, w2) _ Hev2). cbn [eventAt event_type].
    rewrite decide_True by done. rewrite Hc1. lia.
Qed.

Lemma updateGoalProgress_again goalId currentValue goal w :
  available w → findGoal goalId w = Some goal → status goal = completed →
  ∃ w1, updateGoalProgress goalId currentValue w = (Returned false, w1) ∧
        available w1 ∧ userXP w1 = userXP w ∧ db_events w1 = db_events w ∧
        status <$> findGoal goalId w1 = Some completed.
Proof.
  intros Hf Hfind Hstatus. unfold updateGoalProgress.
  rewrite (bind_run _ _ _ _ _ (getGoals_available None w Hf)).
  unfold findGoal in Hfind. rewrite Hfind. cbv zeta.
  rewrite (bool_decide_eq_true_2 _ Hstatus), andb_false_r.
  unfold mbind, M_bind, resolved. rewrite bind_ret.
  destruct (updateGoal_run goalId
              {| updates_current := currentValue; updates_status := None |} w Hf)
    as (w1 & E & Hf1 & Hxp & Hn & Hfind1 & Hev & _ & _).
  rewrite (bind_run _ _ _ _ _ E). exists w1.
  split; [done|]. split; [done|]. split; [done|]. split; [by apply Hev|].
  rewrite Hfind1. unfold findGoal. rewrite Hfind. cbn. by rewrite Hstatus.
Qed.

End GoalProgress.

Section GoalCompletion.

(** Property X23: while the store answers, [updateGoalProgress] of the
    gamification service completes a goal that reaches its target once:
    it marks the goal completed, awards the points of the goal and the
    bonus, and tracks [goal_completed] twice; every later call on the
    goal returns false and changes neither the points nor the events. *)
Lemma gamification_goal_completes_once goalId currentValue goal w :
  available w → findGoal goalId w = Some goal →
  status goal ≠ completed → (target goal <= currentValue)%Q →
  ∃ w1, GamificationService.updateGoalProgress goalId currentValue w = (Returned true, w1) ∧
        status <$> findGoal goalId w1 = Some completed ∧
        userXP w1 = userXP w + GamificationService.calculateGoalXP goal + goalBonus w ∧
        eventCount goal_completed w1 = (eventCount goal_completed w + 2)%nat ∧
        ∀ laterValue,
          ∃ w2, GamificationService.updateGoalProgress goalId laterValue w1 = (Returned false, w2) ∧
                userXP w2 = userXP w1 ∧ db_events w2 = db_events w1 ∧
                status <$> findGoal goalId w2 = Some completed.
Proof.
  intros Hf Hfind Hstatus Htarget.
  destruct (updateGoalProgress_completes goalId currentValue goal w Hf Hfind Hstatus Htarget)
    as (w1 & E1 & Hf1 & Hxp & Hfind1 & Hcount).
  exists w1. split; [done|]. split; [by rewrite Hfind1|]. split; [done|]. split; [done|].
  intros laterValue.
  destruct (updateGoalProgress_again goalId laterValue _ w1 Hf1 Hfind1 eq_refl)
    as (w2 & E2 & _ & Hxp2 & Hev2 & Hst2).
  by exists w2.
Qed.

Lemma gamification_goal_completes_once_witness :
  ∃ w1, GamificationService.updateGoalProgress "goal_1" 3 goalWorld = (Returned true, w1) ∧
        status <$> findGoal "goal_1" w1 = Some completed ∧
        userXP w1 = userXP goalWorld + GamificationService.calculateGoalXP exampleGoal
                    + goalBonus goalWorld.
Proof.
  destruct (gamification_goal_completes_once "goal_1" 3 exampleGoal goalWorld)
    as (w1 & E & Hs & Hxp & _); [reflexivity|reflexivity|discriminate|by vm_compute|].
  by exists w1.
Defined.

End GoalCompletion.

Section SnapshotReplacement.

(** Property X24: whatever requests are rejected, [updateUserAnalytics]
    on an initialized service stores the snapshot it returns or stores
    nothing: when it throws, the table is as it was. *)
Lemma snapshot_replaced_or_untouched (calc : Calculator) contentItems w :
  initialized w = true →
  let m := AnalyticsService.updateUserAnalytics calc (ItemsArray contentItems) in
  match outcome m w with
  | Returned analytics =>
      db_analytics (state m w) =
      <[user_analytics_current := snapshotRecord (now w) analytics]> (db_analytics w)
  | Thrown e => db_analytics (state m w) = db_analytics w
  end.
Proof.
  intros Hi. cbv zeta.
  pose proof (updateUserAnalytics_outcome calc contentItems w) as H. cbv zeta in H.
  destruct (outcome _ w).
  - by apply H.
  - destruct H as [H|[H _]]; [done|congruence].
Qed.

End SnapshotReplacement.

Section Metrics.
Import GamificationService.

Lemma getMetricValue_available requirement userAnalytics events w :
  available w →
  getMetricValue requirement userAnalytics events w
  = (Returned (metricValue w requirement userAnalytics events), w).
Proof.
  intros Hf. unfold metricValue, outcome, getMetricValue. cbv zeta.
  repeat case_decide; try reflexivity.
  unfold checkPerfectWeek.
  rewrite (bind_run _ _ _ _ _ (bind_run _ _ _ _ _ (getGoals_available (Some completed) w Hf))).
  reflexivity.
Qed.

Lemma metricValue_same requirement userAnalytics events w w' :
  available w → available w' → db_goals w' = db_goals w → now w' = now w →
  metricValue w' requirement userAnalytics events
  = metricValue w requirement userAnalytics events.
Proof.
  intros Hf Hf' Hg Hn. unfold metricValue, outcome, getMetricValue. cbv zeta.
  repeat case_decide; try reflexivity.
  unfold checkPerfectWeek.
  rewrite (bind_run _ _ _ _ _ (bind_run _ _ _ _ _ (getGoals_available (Some completed) w Hf))).
  rewrite (bind_run _ _ _ _ _ (bind_run _ _ _ _ _ (getGoals_available (Some completed) w' Hf'))).
  unfold bind, read. cbn. rewrite Hg, Hn. reflexivity.
Qed.

Lemma requirementsLoop_available requirements userAnalytics events w :
  available w →
  ∃ b : bool, requirementsLoop requirements userAnalytics events w = (Returned b, w) ∧
    (b = true ↔
     Forall (λ requirement,
               Qle (requirement_value requirement)
                   (metricValue w requirement userAnalytics events)) requirements).
Proof.
  intros Hf. induction requirements as [|r rs IH]; cbn [requirementsLoop].
  - exists true. split; [done|]. split; [constructor|done].
  - rewrite (bind_run _ _ _ _ _ (getMetricValue_available r userAnalytics events w Hf)).
    case_decide as Hlt.
    + exists false. split; [done|]. split; [done|].
      intros H. apply Forall_cons in H as [H _]. apply Qle_not_lt in H. done.
    + destruct IH as (b & E & Hb). exists b. split; [done|].
      rewrite Hb. split.
      * intros H. constructor; [by apply Qnot_lt_le|done].
      * intros H. by apply Forall_cons in H as [_ H].
Qed.

End Metrics.

Lemma substring_all (s : string) : String.substring 0 (String.length s) s = s.
Proof. induction s as [|c s IH]; [done|]. simpl. by rewrite IH. Qed.

Lemma prefix_append (p s : string) : String.prefix p (p +:+ s) = true.
Proof.
  induction p as [|c p IH]; [by destruct s|].
  cbn [String.append String.prefix]. unfold String.append; fold String.append.
  cbn [String.prefix]. by destruct (Ascii.ascii_dec c c).
Qed.

Lemma substring_append (p s : string) :
  String.substring (String.length p) (String.length (p +:+ s) - String.length p) (p +:+ s) = s.
Proof.
  induction p as [|c p IH].
  - unfold String.append. cbn [String.length]. rewrite Nat.sub_0_r. apply substring_all.
  - unfold String.append; fold String.append. cbn [String.length String.substring Nat.sub].
    apply IH.
Qed.

Lemma replace_unfold (pattern replacement s : string) :
  JS.replace pattern replacement s
  = if String.prefix pattern s
    then replacement +:+ String.substring (String.length pattern)
                           (String.length s - String.length pattern) s
    else match s with
         | EmptyString => EmptyString
         | String c s' => String c (JS.replace pattern replacement s')
         end.
Proof. by destruct s. Qed.

(** Stripping the prefix gives back the id it was put in front of. *)
Lemma replace_prefix (p s : string) : JS.replace p "" (p +:+ s) = s.
Proof. rewrite replace_unfold, prefix_append. apply substring_append. Qed.

Lemma elem_of_unlocked (x : string) (table : list ProductivityInsight) :
  x ∈ map (λ insight, JS.replace "achievement_" "" (insight_id insight))
          (filter (λ insight, insight_category insight = "Achievements") table)
  ↔ ∃ insight, x = JS.replace "achievement_" "" (insight_id insight)
               ∧ insight_category insight = "Achievements" ∧ insight ∈ table.
Proof.
  change (map ?g ?l) with (g <$> l). rewrite list_elem_of_fmap.
  by setoid_rewrite list_elem_of_filter.
Qed.

Lemma unlockedIds_put achievement now_ (w : World) (f : World → World) x :
  db_insights (f w) = put insight_id (achievementInsight achievement now_) (db_insights w) →
  x ∈ unlockedIds (f w) ↔ x ∈ unlockedIds w ∨ x = achievement_id achievement.
Proof.
  intros Hput. unfold unlockedIds. rewrite Hput. clear Hput.
  set (row := achievementInsight achievement now_).
  assert (Hrow : JS.replace "achievement_" "" (insight_id row) = achievement_id achievement).
  { apply replace_prefix. }
  assert (Hcat : insight_category row = "Achievements") by done.
  generalize (db_insights w). intros table.
  rewrite !elem_of_unlocked. unfold put.
  case_decide as Hin.
  - change (map ?g ?l) with (g <$> l) in *. split.
    + intros (i & -> & Hc & Hi). apply list_elem_of_fmap in Hi as (j & -> & Hj).
      case_decide as Hk; [right; by rewrite Hrow|]. left. by exists j.
    + intros [(i & -> & Hc & Hi)| ->].
      * destruct (decide (insight_id i = insight_id row)) as [Heq|Hne].
        -- exists row. split; [by rewrite Heq|]. split; [done|].
           apply list_elem_of_fmap. exists i. by rewrite decide_True.
        -- exists i. split; [done|]. split; [done|].
           apply list_elem_of_fmap. exists i. by rewrite decide_False.
      * apply list_elem_of_fmap in Hin as (j & Hj & Hjin).
        exists row. split; [done|]. split; [done|].
        apply list_elem_of_fmap. exists j. by rewrite decide_True.
  - setoid_rewrite elem_of_app. setoid_rewrite list_elem_of_singleton. split.
    + intros (i & -> & Hc & [Hi| ->]); [left; by exists i|right; done].
    + intros [(i & -> & Hc & Hi)| ->]; [exists i; auto|exists row; auto].
Qed.

Lemma foldl_sum_shift {A} (f : A → Z) (l : list A) (a : Z) :
  foldl (λ sum x, sum + f x) a l = a + JS.sumZ f l.
Proof.
  unfold JS.sumZ. revert a. induction l as [|x l IH]; intros a; cbn [foldl]; [lia|].
  rewrite (IH (a + f x)), (IH (0 + f x)). lia.
Qed.

Lemma sumZ_cons {A} (f : A → Z) (x : A) (l : list A) :
  JS.sumZ f (x :: l) = f x + JS.sumZ f l.
Proof. unfold JS.sumZ at 1. cbn [foldl]. by rewrite foldl_sum_shift. Qed.

Section Achievements.
Import GamificationService.

Lemma unlockable_same w w' existingIds userAnalytics events definition :
  available w → available w' → db_goals w' = db_goals w → now w' = now w →
  unlockable w' existingIds userAnalytics events definition
  ↔ unlockable w existingIds userAnalytics events definition.
Proof.
  intros Hf Hf' Hg Hn. unfold unlockable, requirementsMet.
  assert (Hm : ∀ r, metricValue w' r userAnalytics events = metricValue w r userAnalytics events)
    by (intros r; by apply metricValue_same).
  split; intros [Hid Hall]; (split; [done|]);
    (eapply Forall_impl; [exact Hall|]); intros r; cbn; by rewrite Hm.
Qed.

(** The catalogue loop, in a world where the store answers. *)
Lemma achievementsLoop_run definitions existingIds userAnalytics events newAchievements w :
  available w → Forall (λ definition, requirements definition ≠ []) definitions →
  let chosen := filter (unlockable w existingIds userAnalytics events) definitions in
  ∃ w1, achievementsLoop definitions existingIds userAnalytics events newAchievements w
        = (Returned (newAchievements ++ map (λ d, achievementOf d (now w)) chosen), w1) ∧
        available w1 ∧
        userXP w1 = userXP w + JS.sumZ xpReward chosen ∧
        (∀ x, x ∈ unlockedIds w1 ↔ x ∈ unlockedIds w ∨ x ∈ map definition_id chosen) ∧
        db_goals w1 = db_goals w ∧ now w1 = now w.
Proof.
  intros Hf Hreq. cbv zeta. revert newAchievements w Hf.
  induction Hreq as [|d rest Hd Hrest IH]; intros acc w Hf.
  - exists w. cbn [achievementsLoop filter list_filter map]. rewrite app_nil_r.
    split; [done|]. split; [done|]. split; [unfold JS.sumZ; cbn; lia|].
    split; [|done]. intros x. rewrite elem_of_nil. tauto.
  - cbn [achievementsLoop]. case_decide as Hin.
    { rewrite filter_cons_False by (intros [Hn _]; done). apply IH, Hf. }
    unfold checkAchievementRequirements.
    destruct (requirementsLoop_available (requirements d) userAnalytics events w Hf)
      as (b & E & Hb).
    rewrite (bind_run _ _ _ _ _ E). destruct b.
    + assert (Hu : unlockable w existingIds userAnalytics events d).
      { split; [done|]. by apply Hb. }
      clear E Hb. rewrite filter_cons_True by done.
      assert (Ha : ∃ first rs, requirements d = first :: rs).
      { destruct (requirements d) as [|first rs]; [done|]. eauto. }
      destruct Ha as (first & rs & Hr).
      assert (Hof : achievementOf d (now w) =
                    {| achievement_id := definition_id d;
                       achievement_title := definition_title d;
                       achievement_description := definition_description d;
                       achievement_icon := definition_icon d;
                       achievement_category := definition_category d;
                       progress := requirement_value first;
                       maxProgress := requirement_value first;
                       unlocked := true;
                       unlockedAt := now w;
                       achievement_rarity := definition_rarity d |}).
      { unfold achievementOf. by rewrite Hr. }
      rewrite Hr. rewrite bind_read. cbv zeta. rewrite <- Hof.
      destruct (unlockAchievement_run (achievementOf d (now w)) (xpReward d) w Hf)
        as (w1 & E1 & Hf1 & Hxp1 & Hins1 & Hg1 & Hn1).
      unfold mbind, M_bind. rewrite (bind_run _ _ _ _ _ E1).
      destruct (IH (acc ++ [achievementOf d (now w)]) w1 Hf1)
        as (w2 & E2 & Hf2 & Hxp2 & Hins2 & Hg2 & Hn2).
      assert (Hfilter : filter (unlockable w1 existingIds userAnalytics events) rest
                        = filter (unlockable w existingIds userAnalytics events) rest).
      { apply list_filter_iff. intros x. by apply unlockable_same. }
      rewrite Hfilter, Hn1 in *. clear Hfilter.
      exists w2. split.
      { rewrite E2. cbn [map]. by rewrite <- app_assoc. }
      split; [done|]. split; [rewrite Hxp2, Hxp1, sumZ_cons; lia|].
      split; [|split; congruence].
      intros x. rewrite Hins2.
      rewrite (unlockedIds_put (achievementOf d (now w)) (now w) w (λ _, w1) x Hins1).
      cbn [map]. rewrite elem_of_cons. cbn [achievement_id achievementOf]. tauto.
    + assert (Hu : ¬ unlockable w existingIds userAnalytics events d).
      { intros [_ Hall]. apply Hb in Hall. done. }
      rewrite filter_cons_False by done. apply IH, Hf.
Qed.

Lemma catalogue_requirements :
  Forall (λ definition, requirements definition ≠ []) achievementDefinitions.
Proof. unfold achievementDefinitions. repeat constructor; done. Qed.

Lemma getUnlockedAchievements_available w :
  available w →
  ∃ achievements, getUnlockedAchievements w = (Returned achievements, w) ∧
                  map achievement_id achievements = unlockedIds w.
Proof.
  intros Hf. unfold getUnlockedAchievements, AnalyticsStorageService.getInsights.
  unfold bind, try_catch. rewrite request_available by done. unfold read. cbn [fst snd].
  eexists. split; [reflexivity|]. unfold unlockedIds.
  rewrite map_map. reflexivity.
Qed.

End Achievements.

Section AchievementCheck.
Import GamificationService.

Lemma NoDup_map_filter {A B} (f : A → B) (P : A → Prop) `{∀ x, Decision (P x)} (l : list A) :
  NoDup (map f l) → NoDup (map f (filter P l)).
Proof.
  induction l as [|x l IH]; cbn [map]; [done|].
  intros Hnd. apply NoDup_cons in Hnd as [Hx Hl].
  destruct (decide (P x)).
  - rewrite filter_cons_True by done. cbn [map]. apply NoDup_cons. split; [|by apply IH].
    intros Hin. apply Hx. change (map f ?l) with (f <$> l) in *.
    apply list_elem_of_fmap in Hin as (y & -> & Hy).
    apply list_elem_of_filter in Hy as [_ Hy]. apply list_elem_of_fmap. eauto.
  - rewrite filter_cons_False by done. by apply IH.
Qed.

Lemma filter_none {A} (P : A → Prop) `{∀ x, Decision (P x)} (l : list A) :
  (∀ x, x ∈ l → ¬ P x) → filter P l = [].
Proof.
  induction l as [|x l IH]; intros Hl; [done|].
  rewrite filter_cons_False by (apply Hl; left). apply IH. intros y Hy. apply Hl. by right.
Qed.

Lemma catalogue_ids_distinct : NoDup (map definition_id achievementDefinitions).
Proof. apply (bool_decide_unpack _). by vm_compute. Qed.

(** One call of [checkAchievements] in a world where the store answers. *)
Lemma checkAchievements_run userAnalytics events w :
  available w →
  let chosen := filter (unlockable w (unlockedIds w) userAnalytics events)
                       achievementDefinitions in
  ∃ w1, checkAchievements userAnalytics events w
        = (Returned (map (λ d, achievementOf d (now w)) chosen), w1) ∧
        available w1 ∧
        userXP w1 = userXP w + JS.sumZ xpReward chosen ∧
        (∀ x, x ∈ unlockedIds w1 ↔ x ∈ unlockedIds w ∨ x ∈ map definition_id chosen) ∧
        db_goals w1 = db_goals w ∧ now w1 = now w.
Proof.
  intros Hf. cbv zeta. unfold checkAchievements. cbv zeta.
  destruct (getUnlockedAchievements_available w Hf) as (existing & E & Hids).
  rewrite (bind_run _ _ _ _ _ E), Hids.
  apply (achievementsLoop_run achievementDefinitions (unlockedIds w) userAnalytics events [] w Hf
           catalogue_requirements).
Qed.

(** While the store answers, an achievement is unlocked once. *)
Lemma checkAchievements_once userAnalytics events w :
  available w →
  ∃ chosen w1,
    checkAchievements userAnalytics events w
    = (Returned (map (λ d, achievementOf d (now w)) chosen), w1) ∧
    (∀ d, d ∈ chosen ↔
          d ∈ achievementDefinitions ∧
          (definition_id d ∉ unlockedIds w) ∧
          Forall (λ requirement,
                    Qle (requirement_value requirement)
                        (metricValue w requirement userAnalytics events))
                 (requirements d)) ∧
    NoDup (map definition_id chosen) ∧
    userXP w1 = userXP w + JS.sumZ xpReward chosen ∧
    (∀ x, x ∈ unlockedIds w1 ↔ x ∈ unlockedIds w ∨ x ∈ map definition_id chosen) ∧
    ∃ w2, checkAchievements userAnalytics events w1 = (Returned [], w2) ∧
          userXP w2 = userXP w1 ∧
          (∀ x, x ∈ unlockedIds w2 ↔ x ∈ unlockedIds w1).
Proof.
  intros Hf.
  destruct (checkAchievements_run userAnalytics events w Hf)
    as (w1 & E1 & Hf1 & Hxp1 & Hids1 & Hg1 & Hn1).
  set (chosen := filter (unlockable w (unlockedIds w) userAnalytics events)
                        achievementDefinitions) in *.
  exists chosen, w1. split; [done|].
  assert (Hchosen : ∀ d, d ∈ chosen ↔
            d ∈ achievementDefinitions ∧
            (definition_id d ∉ unlockedIds w) ∧
            Forall (λ requirement,
                      Qle (requirement_value requirement)
                          (metricValue w requirement userAnalytics events))
                   (requirements d)).
  { intros d. unfold chosen. rewrite list_elem_of_filter. unfold unlockable, requirementsMet.
    tauto. }
  split; [done|]. split; [apply NoDup_map_filter, catalogue_ids_distinct|].
  split; [done|]. split; [done|].
  destruct (checkAchievements_run userAnalytics events w1 Hf1)
    as (w2 & E2 & Hf2 & Hxp2 & Hids2 & _ & _).
  assert (Hnone : filter (unlockable w1 (unlockedIds w1) userAnalytics events)
                         achievementDefinitions = []).
  { apply filter_none. intros d Hd [Hnew Hmet].
    apply Hnew, Hids1.
    destruct (decide (definition_id d ∈ unlockedIds w)) as [Hold|Hold]; [by left|right].
    change (map ?g ?l) with (g <$> l). apply list_elem_of_fmap. exists d. split; [done|].
    apply Hchosen. split; [done|]. split; [done|].
    pose proof (unlockable_same w w1 [] userAnalytics events d Hf Hf1 Hg1 Hn1) as Hsame.
    apply Hsame. split; [apply not_elem_of_nil|done]. }
  rewrite Hnone in *. exists w2. split; [done|].
  split; [rewrite Hxp2; unfold JS.sumZ; cbn; lia|].
  intros x. rewrite Hids2. cbn [map]. rewrite elem_of_nil. tauto.
Qed.

(** After a rejected read of the stored insights the catalogue loop runs
    with no id taken for unlocked. *)
Lemma checkAchievements_after_rejected_read userAnalytics events w :
  faults w = [true] →
  let w0 := update_faults (λ _, []) w in
  let chosen := filter (unlockable w0 [] userAnalytics events) achievementDefinitions in
  ∃ w1, checkAchievements userAnalytics events w
        = (Returned (map (λ d, achievementOf d (now w)) chosen), w1) ∧
        userXP w1 = userXP w + JS.sumZ xpReward chosen ∧
        (∀ x, x ∈ unlockedIds w1 ↔ x ∈ unlockedIds w ∨ x ∈ map definition_id chosen).
Proof.
  intros Hfaults. cbv zeta. unfold checkAchievements. cbv zeta.
  assert (getUnlockedAchievements w = (Returned [], update_faults (λ _, []) w)) as E.
  { unfold getUnlockedAchievements, AnalyticsStorageService.getInsights.
    unfold bind, try_catch, request. by rewrite Hfaults. }
  rewrite (bind_run _ _ _ _ _ E). cbn [map].
  destruct (achievementsLoop_run achievementDefinitions [] userAnalytics events []
              (update_faults (λ _, []) w) eq_refl catalogue_requirements)
    as (w1 & E1 & _ & Hxp & Hids & _).
  exists w1. split; [exact E1|]. split; [exact Hxp|exact Hids].
Qed.

End AchievementCheck.

(** Claim C4: while the store answers its requests, a call of
    [checkAchievements] unlocks exactly the catalogue entries whose id is
    not yet among the stored unlocked ids and whose listed requirements all
    hold, each once; the points awarded are the sum of their rewards, so an
    id unlocked before is neither unlocked nor rewarded again, and it stays
    unlocked; a second call with the same data unlocks and awards nothing.
    Against the claim, when the read of the stored insights is rejected,
    the list of unlocked achievements is taken to be empty: every
    catalogue entry whose requirements hold is unlocked and rewarded,
    also one that is unlocked already. *)
Theorem achievements_rewarded_again_after_rejected_read userAnalytics events :
  (∀ w, available w →
     ∃ chosen w1,
       GamificationService.checkAchievements userAnalytics events w
       = (Returned (map (λ d, achievementOf d (now w)) chosen), w1) ∧
       (∀ d, d ∈ chosen ↔
             d ∈ GamificationService.achievementDefinitions ∧
             (definition_id d ∉ unlockedIds w) ∧
             Forall (λ requirement,
                       Qle (requirement_value requirement)
                           (metricValue w requirement userAnalytics events))
                    (requirements d)) ∧
       NoDup (map definition_id chosen) ∧
       userXP w1 = userXP w + JS.sumZ xpReward chosen ∧
       (∀ x, x ∈ unlockedIds w1 ↔ x ∈ unlockedIds w ∨ x ∈ map definition_id chosen) ∧
       ∃ w2, GamificationService.checkAchievements userAnalytics events w1 = (Returned [], w2) ∧
             userXP w2 = userXP w1 ∧
             (∀ x, x ∈ unlockedIds w2 ↔ x ∈ unlockedIds w1)) ∧
  (∀ w, faults w = [true] →
     ∃ chosen w1,
       GamificationService.checkAchievements userAnalytics events w
       = (Returned (map (λ d, achievementOf d (now w)) chosen), w1) ∧
       (∀ d, d ∈ chosen ↔
             d ∈ GamificationService.achievementDefinitions ∧
             Forall (λ requirement,
                       Qle (requirement_value requirement)
                           (metricValue (update_faults (λ _, []) w) requirement
                                        userAnalytics events))
                    (requirements d)) ∧
       userXP w1 = userXP w + JS.sumZ xpReward chosen ∧
       (∀ x, x ∈ unlockedIds w1 ↔ x ∈ unlockedIds w ∨ x ∈ map definition_id chosen)).
Proof.
  split.
  - intros w Hf. by apply checkAchievements_once.
  - intros w Hfaults.
    destruct (checkAchievements_after_rejected_read userAnalytics events w Hfaults)
      as (w1 & E & Hxp & Hids).
    eexists _, w1. split; [exact E|]. split; [|split; [exact Hxp|exact Hids]].
    intros d. rewrite list_elem_of_filter. unfold unlockable, requirementsMet.
    pose proof (not_elem_of_nil (definition_id d)). tauto.
Qed.

Lemma unlockedThenFailing_again :
  userXP (GamificationService.checkAchievements firstSearch [] unlockedThenFailing).2 = 100.
Proof. by vm_compute. Qed.

Lemma unlockedThenFailing_next :
  (GamificationService.checkAchievements firstSearch []
     (update_faults (λ _, []) unlockedThenFailing)).1 = Returned [].
Proof. by vm_compute. Qed.

Lemma achievements_rewarded_again_after_rejected_read_witness :
  unlockedIds unlockedThenFailing = ["first_search"] ∧
  userXP unlockedThenFailing = 50 ∧
  ∃ chosen w1,
    GamificationService.checkAchievements firstSearch [] unlockedThenFailing
    = (Returned (map (λ d, achievementOf d (now unlockedThenFailing)) chosen), w1) ∧
    userXP w1 = userXP unlockedThenFailing + JS.sumZ xpReward chosen ∧
    userXP w1 = 100 ∧
    (∃ w2, GamificationService.checkAchievements firstSearch []
             (update_faults (λ _, []) unlockedThenFailing) = (Returned [], w2)).
Proof.
  split; [by vm_compute|]. split; [by vm_compute|].
  destruct (achievements_rewarded_again_after_rejected_read firstSearch []) as [Honce Hagain].
  destruct (Hagain unlockedThenFailing eq_refl) as (chosen & w1 & E & _ & Hxp & _).
  exists chosen, w1. split; [exact E|]. split; [exact Hxp|]. split.
  - exact (eq_trans (f_equal (λ p, userXP p.2) (eq_sym E)) unlockedThenFailing_again).
  - destruct (Honce (update_faults (λ _, []) unlockedThenFailing) eq_refl)
      as (chosen' & w1' & E' & _).
    pose proof (eq_trans (f_equal fst (eq_sym E')) unlockedThenFailing_next) as H.
    cbn [fst] in H. injection H as H.
    destruct chosen' as [|d chosen']; [|discriminate H].
    exists w1'. exact E'.
Defined.

Section StreakCount.
Import AnalyticsService.

(** Every day the loop has counted is a day with a row and an item. *)
Lemma streakLoop_counted zone today l : ∀ k,
  k ≤ streakLoop zone today k l ∧
  ∀ i, k ≤ i < streakLoop zone today k l →
       ∃ u, u ∈ l ∧ daysDiff zone today u = i ∧ 0 < itemsCreated u.
Proof.
  induction l as [|u l IH]; intros k; cbn [streakLoop].
  - split; [lia|]. lia.
  - case_decide as Hstep; [|split; lia].
    destruct Hstep as [Hd Hactive]. destruct (IH (k + 1)) as [Hle Hfill].
    split; [lia|]. intros i Hi. destruct (decide (i = k)) as [->|Hne].
    + exists u. split; [left|done].
    + destruct (Hfill i) as (v & Hv & ?); [lia|]. exists v. split; [by right|done].
Qed.

Lemma calculateCurrentStreak_counted zone today rows :
  steadyZone zone →
  0 ≤ calculateCurrentStreak zone today rows ∧
  ∀ i, 0 ≤ i < calculateCurrentStreak zone today rows → activeOn zone today rows i.
Proof.
  intros Hz. unfold calculateCurrentStreak. case_decide as Hlen; [split; lia|].
  destruct (streakLoop_counted zone today (JS.sort byDateDescending rows) 0) as [H0 Hfill].
  split; [done|]. intros i Hi. destruct (Hfill i Hi) as (u & Hu & Hd & Ha).
  exists u. rewrite <- (elem_of_sort byDateDescending). split; [done|].
  rewrite daysDiff_localDay in Hd by done. split; [lia|done].
Qed.

(** Two rows whose midnights are less than 24 hours before the midnight
    of today both have the offset 0, and the loop stops at the second. *)
Lemma streak_of_two_rows zone today a b :
  daysDiff zone today a = 0 → daysDiff zone today b = 0 →
  0 < itemsCreated a → 0 < itemsCreated b →
  calculateCurrentStreak zone today [a; b] = 1.
Proof.
  intros Da Db Ha Hb. unfold calculateCurrentStreak.
  case_decide as Hlen; [done|]. unfold JS.sort. cbn [foldr JS.insert].
  case_decide; cbn [streakLoop].
  - rewrite decide_True by done. by rewrite decide_False by lia.
  - rewrite decide_True by done. by rewrite decide_False by lia.
Qed.

Lemma streak_of_one_row zone today b :
  daysDiff zone today b = 0 → 0 < itemsCreated b →
  calculateCurrentStreak zone today [b] = 1.
Proof.
  intros Db Hb. unfold calculateCurrentStreak.
  case_decide as Hlen; [done|]. unfold JS.sort. cbn [foldr JS.insert streakLoop].
  by rewrite decide_True by done.
Qed.

End StreakCount.

(** Claim C7: where the clock is never changed, the streak counts local
    days from today backwards without a gap: every offset below the streak
    has a row with an item, and a user without such a row for today has
    streak 0; when the rows have one row per local day and none is dated
    after today, the offset equal to the streak has no such row, so that a
    user active today and yesterday but not two days ago has streak 2.
    Where yesterday had 23 hours because the clock was put forward, the
    midnight of yesterday is less than 24 hours before the midnight of
    today and a row of yesterday gets the offset 0 of today: a user active
    today and yesterday has streak 1, not 2, and a user active yesterday
    only has streak 1, not 0. *)
Theorem streak_contiguous_unless_clock_changes zone today :
  (steadyZone zone → ∀ rows,
     let streak := AnalyticsService.calculateCurrentStreak zone today rows in
     0 ≤ streak ∧
     (∀ i, 0 ≤ i < streak → activeOn zone today rows i) ∧
     (¬ activeOn zone today rows 0 → streak = 0) ∧
     (NoDup (map (λ u, localDay zone (date u)) rows) →
      Forall (λ u, date u ≤ today) rows →
      ¬ activeOn zone today rows streak ∧
      (activeOn zone today rows 0 → activeOn zone today rows 1 →
       ¬ activeOn zone today rows 2 → streak = 2))) ∧
  (∀ a b,
     localDay zone (date a) = localDay zone today →
     setHoursZero zone (date a) = setHoursZero zone today →
     localDay zone (date b) = localDay zone today - 1 →
     setHoursZero zone today - setHoursZero zone (date b) = 23 * msPerHour →
     0 < itemsCreated b →
     (0 < itemsCreated a →
      ∀ rows, rows ≡ₚ [a; b] →
        activeOn zone today rows 0 ∧ activeOn zone today rows 1 ∧
        AnalyticsService.calculateCurrentStreak zone today rows = 1) ∧
     (¬ activeOn zone today [b] 0 ∧
      AnalyticsService.calculateCurrentStreak zone today [b] = 1)).
Proof.
  split.
  - intros Hz rows. cbv zeta.
    destruct (calculateCurrentStreak_counted zone today rows Hz) as [H0 Hfill].
    split; [done|]. split; [done|]. split.
    + intros Hnot.
      destruct (decide (AnalyticsService.calculateCurrentStreak zone today rows = 0)); [done|].
      exfalso. apply Hnot, Hfill. lia.
    + intros Hnodup Hpast.
      destruct (calculateCurrentStreak_spec zone today rows Hz Hnodup Hpast) as (_ & _ & Hstop).
      split; [done|]. intros A0 A1 N2.
      set (s := AnalyticsService.calculateCurrentStreak zone today rows) in *.
      destruct (decide (s = 0)) as [E|?]; [by rewrite E in Hstop|].
      destruct (decide (s = 1)) as [E|?]; [by rewrite E in Hstop|].
      destruct (decide (s = 2)) as [E|?]; [done|].
      exfalso. apply N2, Hfill. lia.
  - intros a b La Ma Lb Mb Hb.
    assert (AnalyticsService.daysDiff zone today a = 0) as Da.
    { unfold AnalyticsService.daysDiff. rewrite Ma, Z.sub_diag. done. }
    assert (AnalyticsService.daysDiff zone today b = 0) as Db.
    { unfold AnalyticsService.daysDiff. rewrite Mb. done. }
    split.
    + intros Ha rows Hp.
      split; [|split].
      * exists a. rewrite Hp. split; [left|]. split; [lia|done].
      * exists b. rewrite Hp. split; [right; left|]. split; [lia|done].
      * apply Permutation_sym, Permutation_length_2_inv in Hp as [->| ->].
        -- by apply streak_of_two_rows.
        -- by apply streak_of_two_rows.
    + split; [|by apply streak_of_one_row].
      intros (u & Hu & Hd & _). apply list_elem_of_singleton in Hu as ->. lia.
Qed.

Lemma streak_contiguous_unless_clock_changes_witness :
  (steadyZone utcZone ∧
   NoDup (map (λ u, localDay utcZone (date u)) fourDays) ∧
   Forall (λ u, date u ≤ 1700000000000) fourDays ∧
   AnalyticsService.calculateCurrentStreak utcZone 1700000000000 fourDays = 2) ∧
  (localDay springForward (date sundayRow) = localDay springForward mondayNoon - 1 ∧
   setHoursZero springForward mondayNoon - setHoursZero springForward (date sundayRow)
   = 23 * msPerHour ∧
   AnalyticsService.calculateCurrentStreak springForward mondayNoon [mondayRow; sundayRow] = 1 ∧
   AnalyticsService.calculateCurrentStreak springForward mondayNoon [sundayRow] = 1).
Proof.
  split.
  - assert (Hnodup : NoDup (map (λ u, localDay utcZone (date u)) fourDays)).
    { apply (bool_decide_unpack _). by vm_compute. }
    assert (Hpast : Forall (λ u, date u ≤ 1700000000000) fourDays).
    { apply (bool_decide_unpack _). by vm_compute. }
    split; [exact utcZone_steady|]. split; [done|]. split; [done|].
    destruct (streak_contiguous_unless_clock_changes utcZone 1700000000000) as [H _].
    destruct (H utcZone_steady fourDays) as (_ & _ & _ & H').
    destruct (H' Hnodup Hpast) as [_ H2]. apply H2.
    + exists (usageRow 1700000000000 2 0 0). split; [right; left|]. by vm_compute.
    + exists (usageRow 1699833600000 1 0 0). split; [do 3 right; left|]. by vm_compute.
    + intros (u & Hu & Hd & Ha). unfold fourDays in Hu.
      apply elem_of_cons in Hu as [->|Hu]; [by vm_compute in Hd|].
      apply elem_of_cons in Hu as [->|Hu]; [by vm_compute in Hd|].
      apply elem_of_cons in Hu as [->|Hu]; [by vm_compute in Ha|].
      apply elem_of_cons in Hu as [->|Hu]; [by vm_compute in Hd|].
      by apply elem_of_nil in Hu.
  - assert (localDay springForward (date sundayRow) = localDay springForward mondayNoon - 1)
      as Lb by (by vm_compute).
    assert (setHoursZero springForward mondayNoon - setHoursZero springForward (date sundayRow)
            = 23 * msPerHour) as Mb by (by vm_compute).
    split; [done|]. split; [done|].
    destruct (streak_contiguous_unless_clock_changes springForward mondayNoon) as [_ H].
    destruct (H mondayRow sundayRow) as [H2 [_ H1]];
      [by vm_compute|by vm_compute|done|done|by vm_compute|].
    split; [|done].
    by apply H2; [by vm_compute|].
Defined.

(** Claim C9: [checkMilestones] generates a milestone of a type and
    threshold exactly when the threshold is in the list of that type and
    the metric equals it, so a metric past the threshold does not generate
    it again; [detectMilestones] generates an item or a streak milestone
    for every threshold of its own lists that the metric has reached. *)
Theorem milestones_fire_at_threshold now userAnalytics events type t :
  (generated type t (GamificationService.checkMilestones now userAnalytics) ↔
   (type = items_milestone ∧ t ∈ GamificationService.contentMilestones ∧
    totalItems userAnalytics = t) ∨
   (type = streak_milestone ∧ t ∈ GamificationService.streakMilestones ∧
    streakDays userAnalytics = t) ∨
   (type = search_milestone ∧ t ∈ GamificationService.searchMilestones ∧
    searchesPerformed userAnalytics = t)) ∧
  (type ≠ first_recording →
   generated type t (AnalyticsCalculationService.detectMilestones now userAnalytics events) ↔
   (type = items_milestone ∧ t ∈ AnalyticsCalculationService.itemMilestones ∧
    t ≤ totalItems userAnalytics) ∨
   (type = streak_milestone ∧ t ∈ AnalyticsCalculationService.streakMilestones ∧
    t ≤ streakDays userAnalytics)).
Proof.
  split; [apply checkMilestones_generated|apply detectMilestones_generated].
Qed.

Lemma milestones_fire_at_threshold_witness :
  items_milestone ≠ first_recording ∧
  generated items_milestone 50
    (AnalyticsCalculationService.detectMilestones 1700000000000 sixtyItems []) ∧
  ¬ generated items_milestone 50
      (GamificationService.checkMilestones 1700000000000 sixtyItems).
Proof.
  destruct (milestones_fire_at_threshold 1700000000000 sixtyItems [] items_milestone 50)
    as [Hcheck Hdetect].
  split; [done|]. split.
  - apply Hdetect; [done|]. left. split; [done|]. split; [do 2 right; left|]. by vm_compute.
  - intros Hg. apply Hcheck in Hg as [(_ & _ & H)|[(H & _)|(H & _)]]; done.
Defined.

(** [detectMilestones] generates the milestone of ten items again for a
    user who has sixty. *)
Lemma detectMilestones_generates_passed_threshold :
  totalItems sixtyItems = 60 ∧
  generated items_milestone 10
    (AnalyticsCalculationService.detectMilestones 1700000000000 sixtyItems []).
Proof.
  split; [done|].
  apply detectMilestones_generated; [done|]. left. split; [done|]. split; [left|].
  by vm_compute.
Qed.

Section AnalyticsGoals.
Import AnalyticsService.

Lemma ensureInitialized_run w :
  available w →
  ∃ w0, ensureInitialized w = (Returned (), w0) ∧ available w0 ∧
        db_goals w0 = db_goals w ∧ db_events w0 = db_events w ∧ userXP w0 = userXP w.
Proof.
  intros Hf.
  pose proof (ensureInitialized_available w Hf) as Hr.
  assert (preserves (kept available) ensureInitialized) as Hav by preserve.
  assert (preserves (unchanged db_goals) ensureInitialized) as Hg by preserve.
  assert (preserves (unchanged db_events) ensureInitialized) as He by preserve.
  assert (preserves (unchanged userXP) ensureInitialized) as Hxp by preserve.
  specialize (Hav w Hf). specialize (Hg w). specialize (He w). specialize (Hxp w).
  unfold outcome, state, unchanged in *.
  destruct (ensureInitialized w) as [r w0]. cbn [fst snd] in *. subst r. by exists w0.
Qed.

(** [AnalyticsService.updateGoalProgress] on a goal whose target is
    reached, whatever the status of the goal. *)
Lemma analytics_updateGoalProgress_run goalId currentValue goal w :
  available w → findGoal goalId w = Some goal → (target goal <= currentValue)%Q →
  ∃ w1, updateGoalProgress goalId currentValue w = (Returned (), w1) ∧
        available w1 ∧
        findGoal goalId w1 =
          Some (AnalyticsStorageService.applyUpdates
                  {| updates_current := currentValue; updates_status := Some completed |} goal) ∧
        eventCount goal_completed w1 = (eventCount goal_completed w + 1)%nat ∧
        userXP w1 = userXP w.
Proof.
  intros Hf Hfind Htarget. unfold updateGoalProgress. unfold mbind, M_bind.
  destruct (ensureInitialized_run w Hf) as (w0 & E0 & Hf0 & Hg0 & He0 & Hxp0).
  rewrite (bind_run _ _ _ _ _ E0).
  rewrite (bind_run _ _ _ _ _ (getGoals_available None w0 Hf0)).
  unfold findGoal in Hfind. rewrite Hg0, Hfind. cbv zeta.
  rewrite decide_True by done.
  destruct (updateGoal_run goalId
              {| updates_current := currentValue; updates_status := Some completed |} w0 Hf0)
    as (w1 & E1 & Hf1 & Hxp1 & _ & Hfind1 & _ & Hev1 & _).
  destruct (Hev1 eq_refl) as (e & Hev & Hty).
  exists w1. split; [done|]. split; [done|]. split; [|split].
  - rewrite Hfind1. unfold findGoal. by rewrite Hg0, Hfind.
  - rewrite (eventCount_snoc goal_completed w0 (λ _, w1) e Hev), Hty.
    rewrite decide_True by done. unfold eventCount. by rewrite He0.
  - congruence.
Qed.

End AnalyticsGoals.

(** Claim C3: [AnalyticsService.updateGoalProgress] has no guard on the
    status of the goal: every call with a value that reaches the target
    sets the status to completed and fires [goal_completed] once more,
    also for a goal that is completed already, and it awards no points;
    so a second call with the same or a higher value fires the event a
    second time. *)
Theorem analytics_updateGoalProgress_refires goalId currentValue goal w :
  available w → findGoal goalId w = Some goal → (target goal <= currentValue)%Q →
  ∃ w1, AnalyticsService.updateGoalProgress goalId currentValue w = (Returned (), w1) ∧
        status <$> findGoal goalId w1 = Some completed ∧
        eventCount goal_completed w1 = (eventCount goal_completed w + 1)%nat ∧
        userXP w1 = userXP w ∧
        ∀ laterValue, (currentValue <= laterValue)%Q →
          ∃ w2, AnalyticsService.updateGoalProgress goalId laterValue w1 = (Returned (), w2) ∧
                status <$> findGoal goalId w2 = Some completed ∧
                eventCount goal_completed w2 = (eventCount goal_completed w + 2)%nat ∧
                userXP w2 = userXP w.
Proof.
  intros Hf Hfind Htarget.
  destruct (analytics_updateGoalProgress_run goalId currentValue goal w Hf Hfind Htarget)
    as (w1 & E1 & Hf1 & Hfind1 & Hc1 & Hxp1).
  exists w1. split; [done|]. split; [by rewrite Hfind1|]. split; [done|]. split; [done|].
  intros laterValue Hlater.
  destruct (analytics_updateGoalProgress_run goalId laterValue _ w1 Hf1 Hfind1)
    as (w2 & E2 & Hf2 & Hfind2 & Hc2 & Hxp2).
  { cbn. by apply Qle_trans with currentValue. }
  exists w2. split; [done|]. split; [by rewrite Hfind2|]. split; [lia|congruence].
Qed.

Lemma analytics_updateGoalProgress_refires_witness :
  ∃ w1 w2,
    AnalyticsService.updateGoalProgress "goal_1" 3 goalWorld = (Returned (), w1) ∧
    AnalyticsService.updateGoalProgress "goal_1" 3 w1 = (Returned (), w2) ∧
    status <$> findGoal "goal_1" w1 = Some completed ∧
    eventCount goal_completed w2 = (eventCount goal_completed goalWorld + 2)%nat.
Proof.
  destruct (analytics_updateGoalProgress_refires "goal_1" 3 exampleGoal goalWorld)
    as (w1 & E1 & Hs1 & _ & _ & Hagain); [reflexivity|reflexivity|by vm_compute|].
  destruct (Hagain 3%Q) as (w2 & E2 & _ & Hc2 & _); [by vm_compute|].
  by exists w1, w2.
Defined.

Section FailedRead.
Import AnalyticsService.

(** A new service whose read of the snapshot is rejected stores the
    initial snapshot, whatever the table holds. *)
Lemma ensureInitialized_failed_read w rest :
  initialized w = false → faults w = true :: false :: rest →
  ∃ w1, ensureInitialized w = (Returned (), w1) ∧
        initialized w1 = true ∧ now w1 = now w ∧ faults w1 = rest ∧
        db_analytics w1 =
        <[user_analytics_current := snapshotRecord (now w) (initialAnalytics (now w))]>
          (db_analytics w).
Proof.
  intros Hi Hfaults. eexists. split.
  - unfold ensureInitialized, initialize, AnalyticsStorageService.getUserAnalytics,
      createInitialAnalytics, AnalyticsStorageService.saveUserAnalytics.
    mred. rewrite Hi. mred. rewrite Hi. mred.
    unfold request at 1. cbn [faults]. rewrite Hfaults. mred.
    unfold request at 1. mred. reflexivity.
  - cbn [initialized now faults db_analytics]. done.
Qed.

Lemma updateUserAnalytics_after_initialization calc contentItems w w1 :
  ensureInitialized w = (Returned (), w1) → initialized w1 = true →
  updateUserAnalytics calc contentItems w = updateUserAnalytics calc contentItems w1.
Proof.
  intros E Hi. unfold updateUserAnalytics, mbind, M_bind.
  rewrite (bind_run _ _ _ _ _ E).
  by rewrite (bind_run _ _ _ _ _ (ensureInitialized_initialized w1 Hi)).
Qed.

End FailedRead.

(** Claim C8: on a new service object whose first request, the read of
    the stored snapshot in [initialize], is rejected, the initial snapshot
    is stored over whatever snapshot the table holds; when the
    recomputation of [updateUserAnalytics] then fails, the error reaches
    the caller and the table holds the initial snapshot, not the one
    stored before. *)
Theorem snapshot_overwritten_when_initial_read_fails calc contentItems w rest e :
  initialized w = false → faults w = true :: false :: rest →
  outcome (AnalyticsService.updateUserAnalytics calc (ItemsArray contentItems)) w = Thrown e →
  snapshot (state (AnalyticsService.updateUserAnalytics calc (ItemsArray contentItems)) w)
  = Some (AnalyticsService.initialAnalytics (now w)).
Proof.
  intros Hi Hfaults Hthrown.
  destruct (ensureInitialized_failed_read w rest Hi Hfaults)
    as (w1 & E1 & Hi1 & Hn1 & _ & Hdb1).
  pose proof (updateUserAnalytics_after_initialization calc (ItemsArray contentItems) w w1 E1 Hi1)
    as Hsame.
  pose proof (updateUserAnalytics_outcome calc contentItems w1) as Hout. cbv zeta in Hout.
  unfold outcome, state in *. rewrite Hsame in *. rewrite Hthrown in Hout.
  destruct Hout as [Hdb|[Hfalse _]]; [|congruence].
  unfold snapshot. rewrite Hdb, Hdb1, lookup_insert_eq. done.
Qed.

Lemma snapshot_overwritten_when_initial_read_fails_witness :
  totalItems <$> snapshot reloadedWorld = Some 3 ∧
  outcome (AnalyticsService.updateUserAnalytics idleCalculator (ItemsArray threeItems))
          reloadedWorld = Thrown StoreError ∧
  snapshot (state (AnalyticsService.updateUserAnalytics idleCalculator (ItemsArray threeItems))
                  reloadedWorld)
  = Some (AnalyticsService.initialAnalytics (now reloadedWorld)).
Proof.
  split; [by vm_compute|]. split; [by vm_compute|].
  apply (snapshot_overwritten_when_initial_read_fails idleCalculator threeItems reloadedWorld
           [false; false; false; true] StoreError); by vm_compute.
Defined.

(** ** A flush that fails, and a write that is rejected *)

Section FailedFlush.
Import AnalyticsService AnalyticsCollectionService.

Lemma ensureInitialized_fails w first rest :
  initialized w = false → faults w = first :: true :: rest →
  first = true ∨ snapshot w = None →
  ∃ w1, ensureInitialized w = (Thrown StoreError, w1) ∧
        faults w1 = rest ∧ db_events w1 = db_events w ∧
        activityBuffer w1 = activityBuffer w.
Proof.
  intros Hi Hfaults Hnone.
  unfold ensureInitialized, initialize, AnalyticsStorageService.getUserAnalytics,
    createInitialAnalytics, AnalyticsStorageService.saveUserAnalytics.
  mred. rewrite Hi. mred. rewrite Hi. mred.
  unfold request at 1. cbn [faults]. rewrite Hfaults.
  destruct first.
  - mred. unfold request at 1. mred. eexists. split; [reflexivity|done].
  - destruct Hnone as [?|Hnone]; [done|]. mred.
    unfold snapshot in Hnone.
    destruct (db_analytics w !! user_analytics_current) as [[? ? [] ? ?]|]; try done;
      mred; unfold request at 1; mred; (eexists; split; [reflexivity|done]).
Qed.

Lemma trackEvent_thrown type data w e :
  outcome (trackEvent type data) w = Thrown e →
  initialized w = false ∧ initialized (state (trackEvent type data) w) = false ∧
  db_events (state (trackEvent type data) w) = db_events w.
Proof.
  unfold outcome, state, trackEvent. mred.
  pose proof (ensureInitialized_outcome w) as Hinit.
  unfold outcome, state in Hinit.
  destruct (ensureInitialized w) as [r w1] eqn:E1. simpl in Hinit.
  assert (db_events w1 = db_events w) as Hev.
  { eapply (preserves_run (unchanged db_events)); [|exact E1]. preserve. }
  destruct Hinit as [[-> Hi]|(e' & -> & Hi & Hi0)]; cbn [fst snd].
  - pose proof (storage_trackEvent_returns type data w1) as [[] Hr].
    unfold outcome in Hr. intros Hthrown. congruence.
  - done.
Qed.

Lemma deliver_thrown batch w e :
  outcome (deliver batch) w = Thrown e →
  initialized w = false ∧ initialized (state (deliver batch) w) = false ∧
  db_events (state (deliver batch) w) = db_events w.
Proof.
  destruct batch as [|b batch]; [done|].
  unfold deliver, outcome, state. cbn [for_of]. mred.
  pose proof (trackEvent_outcome (buffered_type b) (buffered_data b) w) as Hout.
  pose proof (trackEvent_thrown (buffered_type b) (buffered_data b) w) as Hthrown.
  cbv zeta in Hout. unfold outcome, state in Hout, Hthrown.
  destruct (trackEvent (buffered_type b) (buffered_data b) w) as [[[]|e'] w1]; cbn [fst snd] in *.
  - destruct Hout as [(_ & Hi1 & _)|(? & ? & _)]; [|done].
    destruct (deliver_initialized batch w1 Hi1) as (Hr & _).
    unfold deliver, outcome in Hr. intros H. congruence.
  - intros _. by apply (Hthrown e').
Qed.

(** A flush puts the batch back only when the service could not be
    initialized. *)
Lemma flush_puts_back w :
  let w' := state flushActivityBuffer w in
  activityBuffer w' = [] ∨
  (activityBuffer w' = activityBuffer w ∧ db_events w' = db_events w ∧
   initialized w = false ∧ initialized w' = false).
Proof.
  cbv zeta. unfold state. rewrite flush_unfold.
  case_decide as Hlen.
  { left. by apply nil_length_inv in Hlen. }
  set (w0 := update_activityBuffer (λ _, []) w).
  pose proof (deliver_buffer (activityBuffer w) w0) as Hbuf.
  pose proof (deliver_thrown (activityBuffer w) w0) as Hthrown.
  unfold unchanged, outcome, state in *.
  destruct (deliver (activityBuffer w) w0) as [[[]|e] w1]; cbn [fst snd] in *.
  - left. done.
  - right. destruct (Hthrown e eq_refl) as (Hi & Hi1 & Hev).
    mred. rewrite Hbuf. cbn. by rewrite app_nil_r.
Qed.

Lemma flush_after_failed_start w first rest :
  initialized w = false → activityBuffer w ≠ [] →
  faults w = first :: true :: rest → first = true ∨ snapshot w = None →
  let w' := state flushActivityBuffer w in
  activityBuffer w' = activityBuffer w ∧ db_events w' = db_events w ∧ faults w' = rest.
Proof.
  intros Hi Hne Hfaults Hnone. cbv zeta. unfold state. rewrite flush_unfold.
  rewrite decide_False by (by destruct (activityBuffer w)).
  destruct (activityBuffer w) as [|b batch] eqn:Hb; [done|].
  set (w0 := update_activityBuffer (λ _, []) w).
  unfold deliver. cbn [for_of]. unfold trackEvent. unfold mbind, M_bind.
  destruct (ensureInitialized_fails w0 first rest Hi Hfaults Hnone)
    as (w1 & E & Hf1 & Hev1 & Hb1).
  unfold bind. rewrite E. cbn [fst snd]. mred. rewrite Hb1. cbn.
  by rewrite app_nil_r.
Qed.

Lemma storage_trackEvent_rejected type data w rest :
  faults w = true :: rest →
  ∃ w1, AnalyticsStorageService.trackEvent type data w = (Returned (), w1) ∧
        db_events w1 = db_events w ∧ faults w1 = rest ∧
        initialized w1 = initialized w ∧ activityBuffer w1 = activityBuffer w.
Proof.
  intros Hfaults. eexists. split.
  - unfold AnalyticsStorageService.trackEvent. mred.
    unfold request at 1. cbn [faults]. rewrite Hfaults. mred. reflexivity.
  - done.
Qed.

Lemma flush_after_rejected_add w rest :
  initialized w = true → activityBuffer w ≠ [] → faults w = true :: rest →
  let w' := state flushActivityBuffer w in
  activityBuffer w' = [] ∧
  (length (db_events w') < length (db_events w) + length (activityBuffer w))%nat ∧
  (rest = [] →
   ∃ stored, db_events w' = db_events w ++ stored ∧
             map eventContent stored = map bufferedContent (tail (activityBuffer w))).
Proof.
  intros Hi Hne Hfaults. cbv zeta. unfold state. rewrite flush_unfold.
  rewrite decide_False by (by destruct (activityBuffer w)).
  destruct (activityBuffer w) as [|b batch] eqn:Hb; [done|].
  set (w0 := update_activityBuffer (λ _, []) w).
  destruct (storage_trackEvent_rejected (buffered_type b) (buffered_data b) w0 rest Hfaults)
    as (w1 & E1 & Hev1 & Hf1 & Hi1 & Hb1).
  assert (trackEvent (buffered_type b) (buffered_data b) w0 = (Returned (), w1)) as E.
  { unfold trackEvent. unfold mbind, M_bind.
    by rewrite (bind_run _ _ _ _ _ (ensureInitialized_initialized w0 Hi)). }
  unfold deliver. cbn [for_of]. unfold mbind, M_bind.
  rewrite (bind_run _ _ _ _ _ E). fold (deliver batch).
  assert (initialized w1 = true) as Hi1' by (by rewrite Hi1).
  destruct (deliver_initialized batch w1 Hi1') as (Hr & _ & Hlen).
  pose proof (deliver_buffer batch w1) as Hbuf.
  pose proof (deliver_available batch w1) as Hav.
  unfold unchanged, outcome, state in *.
  destruct (deliver batch w1) as [[[]|e] w2]; cbn [fst snd] in *; [|done].
  split; [by rewrite Hbuf, Hb1|]. split.
  - rewrite Hev1 in Hlen. cbn [length]. change (db_events w0) with (db_events w) in Hlen. lia.
  - intros ->. destruct (Hav Hf1) as (_ & _ & stored & Hst & Hmap).
    exists stored. rewrite Hst, Hev1. done.
Qed.

End FailedFlush.

(** Claim C1: a run of tracking calls, timer ticks and pauses on the
    Collector never raises an error to the caller and never holds more
    events than were tracked, and while the store answers its requests
    every tracked event is stored or still buffered.
    A flush that fails puts its batch back in front of the buffer with
    nothing stored, and this happens only when the analytics service
    cannot be initialized.  Against the claim, a write of an event that the
    store rejects is not a failure of the flush: the storage service
    catches it, the flush goes on and empties the buffer, and the event is
    neither stored nor buffered. *)
Theorem collector_loses_rejected_event (calc : Calculator) :
  (∀ steps w,
     outcome (AnalyticsCollectionService.run calc steps) w = Returned () ∧
     (held (state (AnalyticsCollectionService.run calc steps) w)
      ≤ held w + AnalyticsCollectionService.tracked steps)%nat) ∧
  (∀ steps w, available w →
     held (state (AnalyticsCollectionService.run calc steps) w)
     = (held w + AnalyticsCollectionService.tracked steps)%nat) ∧
  (∀ w, let w' := state AnalyticsCollectionService.flushActivityBuffer w in
     outcome AnalyticsCollectionService.flushActivityBuffer w = Returned () ∧
     (activityBuffer w' = [] ∨
      (activityBuffer w' = activityBuffer w ∧ db_events w' = db_events w ∧
       initialized w = false ∧ initialized w' = false))) ∧
  (∀ w first rest,
     initialized w = false → activityBuffer w ≠ [] →
     faults w = first :: true :: rest → first = true ∨ snapshot w = None →
     let w' := state AnalyticsCollectionService.flushActivityBuffer w in
     activityBuffer w' = activityBuffer w ∧ db_events w' = db_events w ∧ faults w' = rest) ∧
  (∀ w rest,
     initialized w = true → activityBuffer w ≠ [] → faults w = true :: rest →
     let w' := state AnalyticsCollectionService.flushActivityBuffer w in
     activityBuffer w' = [] ∧
     (length (db_events w') < length (db_events w) + length (activityBuffer w))%nat ∧
     (rest = [] →
      ∃ stored, db_events w' = db_events w ++ stored ∧
                map eventContent stored = map bufferedContent (tail (activityBuffer w)))).
Proof.
  split; [|split; [|split; [|split]]].
  - intros steps w. by destruct (run_held calc steps w) as (Hr & Hle & _).
  - intros steps w Hf. destruct (run_held calc steps w) as (_ & _ & Heq). by apply Heq.
  - intros w. cbv zeta. split; [|apply flush_puts_back].
    by destruct (flush_returns w) as [[] ?].
  - apply flush_after_failed_start.
  - apply flush_after_rejected_add.
Qed.

Lemma collector_loses_rejected_event_witness :
  (length (activityBuffer searchBeforeFailedStart) = 1%nat ∧
   activityBuffer (state AnalyticsCollectionService.flushActivityBuffer searchBeforeFailedStart)
   = activityBuffer searchBeforeFailedStart ∧
   db_events (state AnalyticsCollectionService.flushActivityBuffer searchBeforeFailedStart)
   = db_events searchBeforeFailedStart) ∧
  (length (activityBuffer searchBeforeRejectedAdd) = 1%nat ∧
   activityBuffer (state AnalyticsCollectionService.flushActivityBuffer searchBeforeRejectedAdd)
   = [] ∧
   db_events (state AnalyticsCollectionService.flushActivityBuffer searchBeforeRejectedAdd)
   = db_events searchBeforeRejectedAdd).
Proof.
  destruct (collector_loses_rejected_event idleCalculator) as (_ & _ & _ & Hback & Hloss).
  split.
  - split; [by vm_compute|].
    destruct (Hback searchBeforeFailedStart false [])
      as (Hb & He & _); [by vm_compute|by vm_compute|by vm_compute|by right; vm_compute|].
    by split.
  - split; [by vm_compute|].
    destruct (Hloss searchBeforeRejectedAdd [])
      as (Hb & _ & Hst); [by vm_compute|by vm_compute|by vm_compute|].
    split; [exact Hb|].
    destruct (Hst eq_refl) as (stored & Hev & Hmap).
    assert (stored = []) as ->.
    { apply (f_equal length) in Hmap. rewrite !length_map in Hmap.
      apply nil_length_inv. rewrite Hmap. by vm_compute. }
    by rewrite app_nil_r in Hev.
Defined.

(** ** Levels and points *)

#[global] Instance userLevel_stable : Stable (unchanged userLevel).
Proof. apply unchanged_stable. reflexivity. Qed.

Section Levels.
Import GamificationService.

Lemma calculateLevel_bounds xp :
  0 ≤ xp →
  (calculateLevel xp - 1) ^ 2 * 100 ≤ xp < calculateLevel xp ^ 2 * 100.
Proof.
  intros Hxp. unfold calculateLevel, JS.floor_sqrt.
  assert (0 ≤ xp / 100) as Hq by (apply Z.div_pos; lia).
  pose proof (Z.sqrt_spec (xp / 100) Hq) as [Hlo Hhi].
  pose proof (Z.mul_div_le xp 100 ltac:(lia)) as Hdiv.
  pose proof (Z.mod_pos_bound xp 100 ltac:(lia)) as Hmod.
  pose proof (Z.div_mod xp 100 ltac:(lia)) as Hdm.
  set (s := Z.sqrt (xp / 100)) in *.
  replace (s + 1 - 1) with s by lia. rewrite !Z.pow_2_r.
  unfold Z.succ in Hhi. nia.
Qed.

End Levels.

(** Property X1: for points from 0 to a trillion, the level of
    [calculateLevel] is the one whose square times 100 is the first to
    exceed the points: level 2 starts at 100 points and level 3 at 400;
    [getXPForNextLevel] is positive, and awarding exactly that many points
    raises the level by one. *)
Theorem level_thresholds xp :
  0 ≤ xp ≤ wholeLimit →
  1 ≤ GamificationService.calculateLevel xp ∧
  (GamificationService.calculateLevel xp - 1) ^ 2 * 100 ≤ xp
    < GamificationService.calculateLevel xp ^ 2 * 100 ∧
  0 < GamificationService.getXPForNextLevel xp ∧
  GamificationService.calculateLevel (xp + GamificationService.getXPForNextLevel xp)
  = GamificationService.calculateLevel xp + 1.
Proof.
  intros [Hxp _]. pose proof (calculateLevel_bounds xp Hxp) as Hb.
  assert (1 ≤ GamificationService.calculateLevel xp) as H1.
  { unfold GamificationService.calculateLevel, JS.floor_sqrt.
    pose proof (Z.sqrt_nonneg (xp / 100)). lia. }
  split; [done|]. split; [done|].
  unfold GamificationService.getXPForNextLevel. cbv zeta. split; [lia|].
  set (L := GamificationService.calculateLevel xp) in *.
  replace (xp + (L ^ 2 * 100 - xp)) with (L ^ 2 * 100) by lia.
  unfold GamificationService.calculateLevel, JS.floor_sqrt.
  rewrite Z.div_mul by lia. rewrite Z.pow_2_r, Z.sqrt_square by lia. done.
Qed.

Lemma level_thresholds_witness :
  GamificationService.calculateLevel 100 = 2 ∧
  GamificationService.getXPForNextLevel 100 = 300 ∧
  GamificationService.calculateLevel 400 = 3.
Proof.
  destruct (level_thresholds 100) as (_ & _ & _ & H); [by vm_compute|].
  split; [reflexivity|]. split; [reflexivity|]. exact H.
Defined.

Lemma bind_then_ret {A B} (m : M A) (r x : B) w :
  (bind m (λ _, mret r) w).1 = Returned x → x = r.
Proof. unfold bind. destruct (m w) as [[a|e] w1]; cbn; congruence. Qed.

(** Property X2: while the points stay between 0 and a trillion, [awardXP]
    adds the points to the points in memory and raises the level in
    memory to the level of the new points when that is higher, whether or
    not the store accepts what it is asked to save; the level never goes
    down. *)
Theorem awardXP_in_memory amount w :
  0 ≤ userXP w ≤ wholeLimit →
  0 ≤ userXP w + amount ≤ wholeLimit →
  let w' := state (GamificationService.awardXP amount) w in
  userXP w' = userXP w + amount ∧
  userLevel w' = Z.max (userLevel w) (GamificationService.calculateLevel (userXP w + amount)) ∧
  (∀ result, outcome (GamificationService.awardXP amount) w = Returned result →
     result = (GamificationService.calculateLevel (userXP w + amount),
               bool_decide (userLevel w < GamificationService.calculateLevel (userXP w + amount)))).
Proof.
  intros _ _. cbv zeta. split; [apply awardXP_userXP|].
  unfold state, outcome, GamificationService.awardXP.
  rewrite !bind_read. unfold mbind, M_bind. rewrite bind_write, bind_read.
  cbv zeta. cbn [userXP userLevel update_userXP].
  set (w0 := update_userXP _ w).
  set (newLevel := GamificationService.calculateLevel (userXP w + amount)).
  match goal with
  | |- context [bind ?m ?k w0] =>
      assert (userLevel (state m w0) = Z.max (userLevel w) newLevel) as Hm
  end.
  { case_bool_decide as Hlt.
    - unfold state. rewrite bind_write.
      match goal with
      | |- userLevel (?m ?w1).2 = _ =>
          assert (preserves (unchanged userLevel) m) as Hq by preserve;
          specialize (Hq w1); unfold state, unchanged in Hq; rewrite Hq
      end.
      cbn. lia.
    - unfold state, resolved. cbn. lia. }
  split.
  - unfold bind at 1. unfold state in Hm.
    match goal with
    | |- context [match ?m w0 with _ => _ end] => destruct (m w0) as [[[]|e] w1] eqn:E
    end; cbn [snd] in *; [|done].
    match goal with
    | |- userLevel (?m w1).2 = _ =>
        assert (preserves (unchanged userLevel) m) as Hq by preserve;
        specialize (Hq w1); unfold state, unchanged in Hq; rewrite Hq
    end.
    done.
  - intros result. unfold bind at 1.
    match goal with
    | |- context [match ?m w0 with _ => _ end] => destruct (m w0) as [[[]|e] w1] eqn:E
    end; cbn [fst]; [|done].
    unfold bind at 1.
    match goal with
    | |- context [match ?m w1 with _ => _ end] => destruct (m w1) as [[[]|e] w2]
    end; cbn [fst]; [| |done]; intros Hr; by apply bind_then_ret in Hr.
Qed.

Lemma awardXP_in_memory_witness :
  let w := startedWorld 1700000000000 [true; true; true] in
  userXP (state (GamificationService.awardXP 450) w) = 450 ∧
  userLevel (state (GamificationService.awardXP 450) w) = 3.
Proof.
  cbv zeta.
  destruct (awardXP_in_memory 450 (startedWorld 1700000000000 [true; true; true]))
    as (Hxp & Hlevel & _); [by vm_compute|by vm_compute|].
  split; [exact Hxp|]. rewrite Hlevel. reflexivity.
Defined.

(** ** Bounds of the scores *)

Lemma Math_round_le (x : Q) (n : Z) : (x <= inject_Z n)%Q → JS.Math_round x ≤ n.
Proof.
  intros H. unfold JS.Math_round.
  pose proof (Qfloor_le (x + (1 # 2))) as Hf.
  assert (inject_Z (Qfloor (x + (1 # 2))) < inject_Z (n + 1))%Q as Hlt.
  { rewrite inject_Z_plus. change (inject_Z 1) with 1%Q. lra. }
  rewrite <- Zlt_Qlt in Hlt. lia.
Qed.

Lemma Math_round_ge (x : Q) (n : Z) : (inject_Z n <= x)%Q → n ≤ JS.Math_round x.
Proof.
  intros H. unfold JS.Math_round.
  pose proof (Qlt_floor (x + (1 # 2))) as Hf.
  assert (inject_Z n < inject_Z (Qfloor (x + (1 # 2)) + 1))%Q as Hlt by lra.
  rewrite <- Zlt_Qlt in Hlt. lia.
Qed.

Lemma Math_round_integer (x : Q) (n : Z) : (x == inject_Z n)%Q → JS.Math_round x = n.
Proof.
  intros H. apply Z.le_antisymm; [apply Math_round_le|apply Math_round_ge]; lra.
Qed.

Section Scores.
Import AnalyticsCalculationService ProductivitySpec.

Lemma dayTotal_le (day : DailyUsageData) : (dayTotal day <= 100)%Q.
Proof. unfold dayTotal. apply Q.le_min_r. Qed.

Lemma dayTotal_nonneg (day : DailyUsageData) :
  0 ≤ itemsCreated day → 0 ≤ searchCount day → (0 <= timeSpent day)%Q →
  (0 <= dayTotal day)%Q.
Proof.
  intros Hi Hs Ht. unfold dayTotal, contentScore, searchScore, timeScore, consistencyScore.
  assert (0 <= inject_Z (itemsCreated day))%Q by (by rewrite <- (Zle_Qle 0)).
  assert (0 <= inject_Z (searchCount day))%Q by (by rewrite <- (Zle_Qle 0)).
  assert (0 <= timeSpent day / 60 * 10)%Q.
  { apply Qmult_le_0_compat; [|done]. apply Qle_shift_div_l; [done|]. lra. }
  apply Q.min_glb; [|done].
  assert (0 <= Qmin (inject_Z (itemsCreated day) * 10) 40)%Q by (apply Q.min_glb; lra).
  assert (0 <= Qmin (inject_Z (searchCount day) * 2) 20)%Q by (apply Q.min_glb; lra).
  assert (0 <= Qmin (timeSpent day / 60 * 10) 20)%Q by (apply Q.min_glb; lra).
  case_decide; lra.
Qed.

Lemma total_le (scores : list Q) (hi : Q) :
  Forall (λ s, s <= hi)%Q scores →
  (total scores <= inject_Z (Z.of_nat (length scores)) * hi)%Q.
Proof.
  induction 1 as [|s scores Hhi _ IH]; cbn [total foldr length].
  - change (inject_Z (Z.of_nat 0)) with 0%Q. lra.
  - rewrite Nat2Z.inj_succ. unfold Z.succ. rewrite inject_Z_plus.
    change (inject_Z 1) with 1%Q. fold (total scores). lra.
Qed.

Lemma total_ge (scores : list Q) (lo : Q) :
  Forall (λ s, lo <= s)%Q scores →
  (inject_Z (Z.of_nat (length scores)) * lo <= total scores)%Q.
Proof.
  induction 1 as [|s scores Hlo _ IH]; cbn [total foldr length].
  - change (inject_Z (Z.of_nat 0)) with 0%Q. lra.
  - rewrite Nat2Z.inj_succ. unfold Z.succ. rewrite inject_Z_plus.
    change (inject_Z 1) with 1%Q. fold (total scores). lra.
Qed.

Lemma length_positive {A} (l : list A) : l ≠ [] → (0 < inject_Z (Z.of_nat (length l)))%Q.
Proof. intros Hne. rewrite <- (Zlt_Qlt 0). destruct l; [done|]. cbn [length]. lia. Qed.

Lemma arithmeticMean_le (scores : list Q) (hi : Q) :
  scores ≠ [] → Forall (λ s, s <= hi)%Q scores → (arithmeticMean scores <= hi)%Q.
Proof.
  intros Hne Hall. pose proof (total_le scores hi Hall).
  unfold arithmeticMean. apply Qle_shift_div_r; [by apply length_positive|]. lra.
Qed.

Lemma arithmeticMean_ge (scores : list Q) (lo : Q) :
  scores ≠ [] → Forall (λ s, lo <= s)%Q scores → (lo <= arithmeticMean scores)%Q.
Proof.
  intros Hne Hall. pose proof (total_ge scores lo Hall).
  unfold arithmeticMean. apply Qle_shift_div_l; [by apply length_positive|]. lra.
Qed.

Lemma lastDays_nonempty days : days ≠ [] → lastDays 7 days ≠ [].
Proof.
  intros Hne Hnil. unfold lastDays in Hnil.
  apply (f_equal length) in Hnil. rewrite length_drop in Hnil. cbn in Hnil.
  destruct days; [done|]. cbn [length] in Hnil. lia.
Qed.

Lemma lastDays_app older week : length week = 7%nat → lastDays 7 (older ++ week) = week.
Proof.
  intros Hlen. unfold lastDays. rewrite length_app, Hlen.
  replace (length older + 7 - 7)%nat with (length older) by lia.
  by rewrite drop_app_length.
Qed.

End Scores.

(** Property X3: the productivity score never exceeds 100, does not
    depend on the content items it is given, and looks at the last seven
    rows only; it is not negative when the counters of the rows are not. *)
Theorem productivity_score_window :
  (∀ days items, AnalyticsCalculationService.calculateProductivityScore days items ≤ 100) ∧
  (∀ days items items',
     AnalyticsCalculationService.calculateProductivityScore days items
     = AnalyticsCalculationService.calculateProductivityScore days items') ∧
  (∀ older week items, length week = 7%nat →
     AnalyticsCalculationService.calculateProductivityScore (older ++ week) items
     = AnalyticsCalculationService.calculateProductivityScore week items) ∧
  (∀ days items,
     Forall (λ day, 0 ≤ itemsCreated day ∧ 0 ≤ searchCount day ∧ (0 <= timeSpent day)%Q) days →
     0 ≤ AnalyticsCalculationService.calculateProductivityScore days items).
Proof.
  split; [|split; [|split]].
  - intros days items. destruct days as [|d days]; [done|].
    rewrite calculateProductivityScore_mean by done. apply Math_round_le.
    change (inject_Z 100) with 100%Q. apply arithmeticMean_le.
    + intros Hnil. apply fmap_nil_inv in Hnil. by apply (lastDays_nonempty (d :: days)).
    + apply Forall_fmap, Forall_forall. intros day _. apply dayTotal_le.
  - intros days items items'. destruct days as [|d days]; [done|].
    by rewrite !calculateProductivityScore_mean.
  - intros older week items Hlen.
    assert (week ≠ []) by (by destruct week).
    rewrite !calculateProductivityScore_mean by (by destruct older, week).
    rewrite lastDays_app by done.
    unfold ProductivitySpec.lastDays. rewrite Hlen. done.
  - intros days items Hall. destruct days as [|d days]; [done|].
    rewrite calculateProductivityScore_mean by done. apply Math_round_ge.
    change (inject_Z 0) with 0%Q. apply arithmeticMean_ge.
    + intros Hnil. apply fmap_nil_inv in Hnil. by apply (lastDays_nonempty (d :: days)).
    + apply Forall_fmap. unfold ProductivitySpec.lastDays.
      apply Forall_drop. eapply Forall_impl; [exact Hall|].
      intros day (? & ? & ?). by apply dayTotal_nonneg.
Qed.

Lemma productivity_score_window_witness :
  AnalyticsCalculationService.calculateProductivityScore
    ([usageRow 0 9 9 9] ++ replicate 7 (usageRow 0 1 0 0)) []
  = AnalyticsCalculationService.calculateProductivityScore (replicate 7 (usageRow 0 1 0 0)) [] ∧
  0 ≤ AnalyticsCalculationService.calculateProductivityScore (replicate 7 (usageRow 0 1 0 0)) [].
Proof.
  destruct productivity_score_window as (_ & _ & Hweek & Hpos). split.
  - apply Hweek. reflexivity.
  - apply Hpos. repeat constructor; done.
Defined.

Section QuickScore.
Import AnalyticsCalculationService AnalyticsCollectionService.

Lemma quick_score_sum (day : DailyUsageData) :
  calculateQuickProductivityScore day = Z.min (JS.Math_round (dayScore day)) 100.
Proof. reflexivity. Qed.

Lemma Math_round_min (x : Q) (n : Z) :
  JS.Math_round (Qmin x (inject_Z n)) = Z.min (JS.Math_round x) n.
Proof.
  destruct (Q.min_spec_le x (inject_Z n)) as [[Hle Hmin]|[Hle Hmin]].
  - rewrite (Math_round_comp _ _ Hmin).
    pose proof (Math_round_le x n Hle). lia.
  - rewrite (Math_round_comp _ _ Hmin), (Math_round_integer _ n) by reflexivity.
    pose proof (Math_round_ge x n Hle). lia.
Qed.

End QuickScore.

(** Property X4: the quick score of the Collector for a row is the
    productivity score of the calculation service for that row alone: a
    whole number between the two never differs, and it is at most 100. *)
Theorem quick_score_is_the_score_of_one_day (day : DailyUsageData) items :
  AnalyticsCollectionService.calculateQuickProductivityScore day
  = AnalyticsCalculationService.calculateProductivityScore [day] items ∧
  AnalyticsCollectionService.calculateQuickProductivityScore day ≤ 100.
Proof.
  split.
  - rewrite quick_score_sum. unfold AnalyticsCalculationService.calculateProductivityScore.
    rewrite decide_False by done. cbv zeta.
    change (JS.slice (-7) None [day]) with [day]. cbn [foldl length].
    change (inject_Z 100) with 100%Q.
    rewrite <- (Math_round_min (AnalyticsCalculationService.dayScore day) 100).
    apply Math_round_comp. unfold JS.Math_min.
    change (inject_Z (Z.of_nat 1)) with 1%Q. change (inject_Z 100) with 100%Q.
    field.
  - rewrite quick_score_sum. lia.
Qed.

Section GoalPoints.
Import GamificationService.

Lemma calculateGoalXP_sum (goal : Goal) :
  calculateGoalXP goal =
  JS.Math_round (100 * Qmax 1 (target goal / 10) *
                 match priority goal with high => 15 # 10 | medium => 12 # 10 | low => 1 end).
Proof. reflexivity. Qed.

End GoalPoints.

(** Property X5: a completed goal is worth at least 100 points; with a
    target of at most 10 it is worth 100, 120 or 150 points for low,
    medium and high priority, and with a larger target that is a whole
    number it is worth 10, 12 or 15 points for each unit of the target. *)
Theorem goal_points (goal : Goal) :
  100 ≤ GamificationService.calculateGoalXP goal ∧
  ((target goal <= 10)%Q →
   GamificationService.calculateGoalXP goal =
   match priority goal with high => 150 | medium => 120 | low => 100 end) ∧
  (∀ units : Z,
     10 ≤ units ≤ wholeLimit → (target goal == inject_Z units)%Q →
     GamificationService.calculateGoalXP goal =
     units * match priority goal with high => 15 | medium => 12 | low => 10 end).
Proof.
  rewrite calculateGoalXP_sum.
  pose proof (Q.le_max_l 1 (target goal / 10)) as Hmax. split; [|split].
  - apply Math_round_ge. change (inject_Z 100) with 100%Q.
    destruct (priority goal); lra.
  - intros Hsmall.
    assert (Qmax 1 (target goal / 10) == 1)%Q as Hone.
    { apply Q.max_l. apply Qle_shift_div_r; [done|]. lra. }
    destruct (priority goal); apply Math_round_integer; rewrite Hone; reflexivity.
  - intros units [Hlarge _] Hunits.
    assert (10 <= target goal)%Q as Hle.
    { rewrite Hunits. change 10%Q with (inject_Z 10). by rewrite <- Zle_Qle. }
    assert (Qmax 1 (target goal / 10) == target goal / 10)%Q as Hten.
    { apply Q.max_r. apply Qle_shift_div_l; [done|]. lra. }
    destruct (priority goal); apply Math_round_integer;
      rewrite Hten, Hunits, inject_Z_mult; field.
Qed.

Lemma goal_points_witness :
  GamificationService.calculateGoalXP exampleGoal = 120.
Proof.
  destruct (goal_points exampleGoal) as (_ & Hsmall & _). apply Hsmall. by vm_compute.
Defined.

(** ** The streak and the order of the rows *)

(** Two sorted arrangements of the same elements are equal when no two
    different elements are related both ways. *)
Lemma sorted_arrangement_unique {A : Type} (R : relation A) (l1 : list A) : ∀ l2,
  (∀ x1 x2, x1 ∈ l1 → x2 ∈ l2 → R x1 x2 → R x2 x1 → x1 = x2) →
  StronglySorted R l1 → StronglySorted R l2 → l1 ≡ₚ l2 → l1 = l2.
Proof.
  induction l1 as [|x l1 IH]; intros l2 Hanti Hs1 Hs2 Hp.
  { by apply Permutation_nil_l in Hp. }
  destruct l2 as [|y l2]; [by apply Permutation_nil_r in Hp|].
  apply StronglySorted_inv in Hs1 as [Hs1 Hx].
  apply StronglySorted_inv in Hs2 as [Hs2 Hy].
  rewrite Forall_forall in Hx, Hy.
  assert (x = y) as ->.
  { assert (x ∈ y :: l2) as Hin by (rewrite <- Hp; left).
    assert (y ∈ x :: l1) as Hin' by (rewrite Hp; left).
    apply elem_of_cons in Hin as [->|Hin]; [done|].
    apply elem_of_cons in Hin' as [->|Hin']; [done|].
    apply Hanti; [left|left|by apply Hx|by apply Hy]. }
  f_equal. apply IH; [|done|done|by apply Permutation_cons_inv in Hp].
  intros x1 x2 H1 H2. apply Hanti; by right.
Qed.

(** Rows with distinct dates are sorted into the same order from every
    arrangement. *)
Lemma sort_byDate_Permutation rows rows' :
  rows ≡ₚ rows' →
  NoDup (map date rows) →
  JS.sort AnalyticsService.byDateDescending rows
  = JS.sort AnalyticsService.byDateDescending rows'.
Proof.
  intros Hp Hnodup.
  apply (sorted_arrangement_unique (λ a b, AnalyticsService.byDateDescending a b ≤ 0)).
  - intros a b Ha Hb Hab Hba. apply elem_of_sort in Ha.
    apply elem_of_sort in Hb. rewrite <- Hp in Hb.
    unfold AnalyticsService.byDateDescending in *.
    assert (date a = date b) as Hd by lia.
    change (map date rows) with (date <$> rows) in Hnodup.
    apply list_elem_of_lookup in Ha as [i Hi]. apply list_elem_of_lookup in Hb as [j Hj].
    assert (i = j) as ->.
    { apply (NoDup_lookup _ _ _ (date a) Hnodup); rewrite list_lookup_fmap.
      - by rewrite Hi.
      - rewrite Hj. cbn. by rewrite Hd. }
    congruence.
  - apply sort_sorted; unfold AnalyticsService.byDateDescending; intros; lia.
  - apply sort_sorted; unfold AnalyticsService.byDateDescending; intros; lia.
  - by rewrite !sort_Permutation.
Qed.

Lemma dates_distinct (rows : list DailyUsageData) :
  NoDup (map (λ u, formatDateKey (date u)) rows) → NoDup (map date rows).
Proof.
  intros Hnodup. change (map ?f ?l) with (f <$> l) in *.
  rewrite (list_fmap_compose date formatDateKey) in Hnodup.
  by apply NoDup_fmap_1 in Hnodup.
Qed.

(** Property X6: the streak does not depend on the order in which the
    rows are stored, when there is one row per day and none is dated
    after today. *)
Theorem streak_order_independent zone today rows rows' :
  rows ≡ₚ rows' →
  NoDup (map (λ u, formatDateKey (date u)) rows) →
  Forall (λ u, date u ≤ today) rows →
  AnalyticsService.calculateCurrentStreak zone today rows
  = AnalyticsService.calculateCurrentStreak zone today rows'.
Proof.
  intros Hp Hnodup Hpast. unfold AnalyticsService.calculateCurrentStreak.
  rewrite (sort_byDate_Permutation rows rows' Hp (dates_distinct rows Hnodup)).
  assert (length rows = length rows') as Hlen by (by rewrite Hp).
  rewrite Hlen. done.
Qed.

Lemma streak_order_independent_witness :
  AnalyticsService.calculateCurrentStreak utcZone 1700000000000 fourDays
  = AnalyticsService.calculateCurrentStreak utcZone 1700000000000 (reverse fourDays).
Proof.
  apply streak_order_independent.
  - by rewrite reverse_Permutation.
  - apply (bool_decide_unpack _). by vm_compute.
  - apply (bool_decide_unpack _). by vm_compute.
Defined.

(** ** Milestones *)

Lemma filter_eq_length (x : Z) (l : list Z) :
  NoDup l → (length (filter (λ t, x = t) l) ≤ 1)%nat.
Proof.
  induction 1 as [|t l Hnotin Hnodup IH]; [cbn; lia|].
  rewrite filter_cons. case_decide as Hx; [|done]. subst t.
  rewrite (filter_none _ l); [cbn; lia|]. intros y Hy ->. done.
Qed.

Lemma generated_type_length (type : MilestoneType) (mk : Z → Milestone) (l : list Z) :
  (length (filter (λ m, milestone_type m = type) (map mk l)) ≤ length l)%nat.
Proof.
  change (map mk l) with (mk <$> l).
  pose proof (length_filter (λ m, milestone_type m = type) (mk <$> l)) as H.
  rewrite length_fmap in H. lia.
Qed.

Lemma filter_other_type (type type' : MilestoneType) (mk : Z → Milestone) (l : list Z) :
  (∀ x, milestone_type (mk x) = type') → type ≠ type' →
  filter (λ m, milestone_type m = type) (map mk l) = [].
Proof.
  intros Hmk Hne. apply filter_none. intros m Hm Ht.
  change (map mk l) with (mk <$> l) in Hm.
  apply list_elem_of_fmap in Hm as (x & -> & _). rewrite Hmk in Ht. congruence.
Qed.

(** Property X7: one evaluation of [checkMilestones] gives at most one
    milestone of each type, so at most three milestones; each of them
    carries the clock reading, and its value is the value of the counter
    that reached the threshold. *)
Theorem checkMilestones_one_per_type now userAnalytics :
  (∀ type, (length (filter (λ m, milestone_type m = type)
                      (GamificationService.checkMilestones now userAnalytics)) ≤ 1)%nat) ∧
  (length (GamificationService.checkMilestones now userAnalytics) ≤ 3)%nat ∧
  Forall (λ m, achievedDate m = now ∧
               match milestone_type m with
               | items_milestone => milestone_value m = totalItems userAnalytics
               | streak_milestone => milestone_value m = streakDays userAnalytics
               | search_milestone => milestone_value m = searchesPerformed userAnalytics
               | _ => False
               end)
         (GamificationService.checkMilestones now userAnalytics).
Proof.
  assert (Hshape : ∃ mk1 mk2 mk3,
    GamificationService.checkMilestones now userAnalytics
    = ([] ++ map mk1 (filter (λ t, totalItems userAnalytics = t)
                        GamificationService.contentMilestones))
      ++ map mk2 (filter (λ t, streakDays userAnalytics = t)
                    GamificationService.streakMilestones)
      ++ map mk3 (filter (λ t, searchesPerformed userAnalytics = t)
                    GamificationService.searchMilestones) ∧
    (∀ x, milestone_type (mk1 x) = items_milestone ∧ achievedDate (mk1 x) = now ∧
          milestone_value (mk1 x) = x) ∧
    (∀ x, milestone_type (mk2 x) = streak_milestone ∧ achievedDate (mk2 x) = now ∧
          milestone_value (mk2 x) = x) ∧
    (∀ x, milestone_type (mk3 x) = search_milestone ∧ achievedDate (mk3 x) = now ∧
          milestone_value (mk3 x) = x)).
  { unfold GamificationService.checkMilestones. cbv zeta.
    rewrite (milestone_loop (λ t, totalItems userAnalytics = t)).
    rewrite (milestone_loop (λ t, streakDays userAnalytics = t)).
    rewrite (milestone_loop (λ t, searchesPerformed userAnalytics = t)).
    do 3 eexists. split; [by rewrite <- app_assoc|]. by repeat split. }
  destruct Hshape as (mk1 & mk2 & mk3 & Heq & H1 & H2 & H3).
  assert (L1 : (length (filter (λ t, totalItems userAnalytics = t)
                          GamificationService.contentMilestones) ≤ 1)%nat).
  { apply filter_eq_length. apply (bool_decide_unpack _). by vm_compute. }
  assert (L2 : (length (filter (λ t, streakDays userAnalytics = t)
                          GamificationService.streakMilestones) ≤ 1)%nat).
  { apply filter_eq_length. apply (bool_decide_unpack _). by vm_compute. }
  assert (L3 : (length (filter (λ t, searchesPerformed userAnalytics = t)
                          GamificationService.searchMilestones) ≤ 1)%nat).
  { apply filter_eq_length. apply (bool_decide_unpack _). by vm_compute. }
  split; [|split].
  - intros type. rewrite Heq. cbn [app]. rewrite !filter_app, !length_app.
    pose proof (generated_type_length type mk1 (filter (λ t, totalItems userAnalytics = t)
                  GamificationService.contentMilestones)) as G1.
    pose proof (generated_type_length type mk2 (filter (λ t, streakDays userAnalytics = t)
                  GamificationService.streakMilestones)) as G2.
    pose proof (generated_type_length type mk3 (filter (λ t, searchesPerformed userAnalytics = t)
                  GamificationService.searchMilestones)) as G3.
    destruct (decide (type = items_milestone)) as [->|N1].
    { rewrite (filter_other_type _ streak_milestone mk2),
        (filter_other_type _ search_milestone mk3) by (done || apply H2 || apply H3).
      cbn [length]. lia. }
    rewrite (filter_other_type _ items_milestone mk1) by (done || apply H1).
    destruct (decide (type = streak_milestone)) as [->|N2].
    { rewrite (filter_other_type _ search_milestone mk3) by (done || apply H3).
      cbn [length]. lia. }
    rewrite (filter_other_type _ streak_milestone mk2) by (done || apply H2).
    cbn [length]. lia.
  - rewrite Heq. cbn [app]. rewrite !length_app, !length_map. lia.
  - apply Forall_forall. intros m Hm.
    rewrite Heq in Hm. cbn [app] in Hm. change (map ?f ?l) with (f <$> l) in Hm.
    rewrite !elem_of_app, !list_elem_of_fmap in Hm.
    destruct Hm as [(x & -> & Hx)|[(x & -> & Hx)|(x & -> & Hx)]];
      apply list_elem_of_filter in Hx as [Hx _].
    + destruct (H1 x) as (-> & -> & ->). done.
    + destruct (H2 x) as (-> & -> & ->). done.
    + destruct (H3 x) as (-> & -> & ->). done.
Qed.

Lemma find_first {A} (p : A → bool) (l : list A) (x : A) :
  find p l = Some x →
  ∃ before after, l = before ++ x :: after ∧ p x = true ∧ Forall (λ y, p y = false) before.
Proof.
  induction l as [|y l IH]; [done|]. cbn [find]. destruct (p y) eqn:Hy.
  - intros [= ->]. exists [], l. by repeat split.
  - intros H. destruct (IH H) as (before & after & -> & Hx & Hb).
    exists (y :: before), after. split; [done|]. split; [done|]. by constructor.
Qed.

Lemma find_absent {A} (p : A → bool) (l : list A) :
  find p l = None → Forall (λ y, p y = false) l.
Proof.
  induction l as [|y l IH]; [constructor|]. cbn [find]. destruct (p y) eqn:Hy; [done|].
  intros H. constructor; [done|by apply IH].
Qed.

(** Property X8: [detectMilestones] has the milestone of the first
    recording, with value 1, exactly when a recording has been completed,
    and dates it at the first completed recording of the list. *)
Theorem first_recording_milestone now userAnalytics events :
  (∀ t, generated first_recording t
          (AnalyticsCalculationService.detectMilestones now userAnalytics events)
        ↔ t = 1 ∧ ∃ e, e ∈ events ∧ event_type e = voice_recording_completed) ∧
  (∀ m, m ∈ AnalyticsCalculationService.detectMilestones now userAnalytics events →
        milestone_type m = first_recording →
        ∃ before e after,
          events = before ++ e :: after ∧
          event_type e = voice_recording_completed ∧
          Forall (λ x, event_type x ≠ voice_recording_completed) before ∧
          achievedDate m = event_timestamp e).
Proof.
  assert (Hshape : ∃ (mk1 mk2 : Z → Milestone) (l1 l2 : list Z),
    AnalyticsCalculationService.detectMilestones now userAnalytics events
    = (match find (λ event, bool_decide (event_type event = voice_recording_completed)) events with
       | Some firstRecording =>
           [ {| milestone_id := "first_recording";
                milestone_type := first_recording;
                milestone_title := "First Voice Recording";
                milestone_description := "Congratulations on your first voice recording!";
                achievedDate := event_timestamp firstRecording;
                milestone_value := 1;
                milestone_icon := "🎤" |} ]
       | None => []
       end ++ map mk1 l1) ++ map mk2 l2 ∧
    (∀ x, milestone_type (mk1 x) = items_milestone) ∧
    (∀ x, milestone_type (mk2 x) = streak_milestone)).
  { unfold AnalyticsCalculationService.detectMilestones. cbv zeta.
    rewrite (milestone_loop (λ t, t ≤ totalItems userAnalytics)).
    rewrite (milestone_loop (λ t, t ≤ streakDays userAnalytics)).
    do 4 eexists. split; [reflexivity|by split]. }
  destruct Hshape as (mk1 & mk2 & l1 & l2 & Heq & H1 & H2).
  assert (Hin : ∀ m, m ∈ AnalyticsCalculationService.detectMilestones now userAnalytics events →
                milestone_type m = first_recording →
                ∃ e, find (λ event, bool_decide (event_type event = voice_recording_completed))
                          events = Some e ∧
                     achievedDate m = event_timestamp e ∧ milestone_value m = 1).
  { intros m Hm Ht. rewrite Heq in Hm. change (map ?f ?l) with (f <$> l) in Hm.
    rewrite !elem_of_app, !list_elem_of_fmap in Hm.
    destruct Hm as [[Hm|(x & -> & _)]|(x & -> & _)].
    - destruct (find _ events) as [e|]; [|by apply elem_of_nil in Hm].
      apply list_elem_of_singleton in Hm as ->. by exists e.
    - rewrite H1 in Ht. done.
    - rewrite H2 in Ht. done. }
  split.
  - intros t. split.
    + intros (m & Hm & Ht & Hv). destruct (Hin m Hm Ht) as (e & Hfind & _ & Hv1).
      split; [congruence|].
      apply find_first in Hfind as (before & after & -> & He & _).
      exists e. split; [|by apply bool_decide_eq_true in He].
      apply elem_of_app. right. left.
    + intros (-> & e & He & Hty).
      destruct (find (λ event, bool_decide (event_type event = voice_recording_completed)) events)
        as [e'|] eqn:Hfind.
      * eexists. split.
        { rewrite Heq. apply elem_of_app. left. apply elem_of_app. left. left. }
        split; reflexivity.
      * apply find_absent in Hfind. rewrite Forall_forall in Hfind.
        specialize (Hfind e He). by rewrite bool_decide_eq_true_2 in Hfind.
  - intros m Hm Ht. destruct (Hin m Hm Ht) as (e & Hfind & Hd & _).
    apply find_first in Hfind as (before & after & -> & He & Hb).
    exists before, e, after. split; [done|].
    split; [by apply bool_decide_eq_true in He|]. split; [|done].
    eapply Forall_impl; [exact Hb|]. intros x Hx. by apply bool_decide_eq_false in Hx.
Qed.

(** ** Rejected requests to the store *)

Lemma request_rejected {A} (operation : M A) w rest :
  faults w = true :: rest →
  request operation w = (Thrown StoreError, update_faults (λ _, rest) w).
Proof. intros H. unfold request. by rewrite H. Qed.

Lemma request_accepted {A} (operation : M A) w rest :
  faults w = false :: rest →
  request operation w = operation (update_faults (λ _, rest) w).
Proof. intros H. unfold request. by rewrite H. Qed.

(** Property X9: every read of the storage service answers a rejected
    request with its empty answer, and never throws. *)
Theorem storage_reads_fall_back w rest :
  faults w = true :: rest →
  let w' := update_faults (λ _, rest) w in
  AnalyticsStorageService.getUserAnalytics w = (Returned None, w') ∧
  (∀ date, AnalyticsStorageService.getDailyUsage date w = (Returned None, w')) ∧
  (∀ startDate endDate,
     AnalyticsStorageService.getDailyUsageRange startDate endDate w = (Returned [], w')) ∧
  (∀ query, AnalyticsStorageService.getEvents query w = (Returned [], w')) ∧
  (∀ status_, AnalyticsStorageService.getGoals status_ w = (Returned [], w')) ∧
  (∀ category, AnalyticsStorageService.getInsights category w = (Returned [], w')).
Proof.
  intros Hf. cbv zeta. repeat split; intros;
    unfold AnalyticsStorageService.getUserAnalytics, AnalyticsStorageService.getDailyUsage,
      AnalyticsStorageService.getDailyUsageRange, AnalyticsStorageService.getEvents,
      AnalyticsStorageService.getGoals, AnalyticsStorageService.getInsights;
    unfold try_catch, bind; cbv zeta;
    repeat match goal with |- context [match ?x with Some _ => _ | None => _ end] => destruct x end;
    by rewrite (request_rejected _ w rest Hf).
Qed.

Lemma storage_reads_fall_back_witness :
  AnalyticsStorageService.getGoals None (update_faults (λ _, [true]) goalWorld)
  = (Returned [], goalWorld).
Proof.
  apply (storage_reads_fall_back (update_faults (λ _, [true]) goalWorld) []). reflexivity.
Defined.

(** Property X10: a write of the storage service whose request is
    rejected throws the error of the store to its caller and leaves the
    tables as they were; no event is tracked for a goal that could not be
    saved or updated. *)
Theorem storage_writes_propagate w rest :
  faults w = true :: rest →
  let w' := update_faults (λ _, rest) w in
  (∀ analytics, AnalyticsStorageService.saveUserAnalytics analytics w = (Thrown StoreError, w')) ∧
  (∀ date usage, AnalyticsStorageService.saveDailyUsage date usage w = (Thrown StoreError, w')) ∧
  (∀ goal, AnalyticsStorageService.saveGoal goal w = (Thrown StoreError, w')) ∧
  (∀ goalId updates, AnalyticsStorageService.updateGoal goalId updates w = (Thrown StoreError, w')) ∧
  (∀ insight, AnalyticsStorageService.saveInsight insight w = (Thrown StoreError, w')).
Proof.
  intros Hf. cbv zeta. repeat split; intros;
    unfold AnalyticsStorageService.saveUserAnalytics, AnalyticsStorageService.saveDailyUsage,
      AnalyticsStorageService.saveGoal, AnalyticsStorageService.updateGoal,
      AnalyticsStorageService.saveInsight;
    unfold try_catch, bind, mbind, M_bind, bind, read, throw; cbv zeta;
    by rewrite (request_rejected _ w rest Hf).
Qed.

Lemma storage_writes_propagate_witness :
  AnalyticsStorageService.saveGoal exampleGoal (update_faults (λ _, [true]) goalWorld)
  = (Thrown StoreError, goalWorld).
Proof.
  apply (storage_writes_propagate (update_faults (λ _, [true]) goalWorld) []). reflexivity.
Defined.

(** ** Initialization of the analytics service *)

(** Property X11: [ensureInitialized] does nothing on an initialized
    service; otherwise it either returns with the service initialized, or
    throws and leaves it uninitialized, so that the next call tries
    again.  While the store answers, it keeps a stored snapshot and
    stores the initial snapshot when there is none. *)
Theorem initialization_outcome w :
  (initialized w = true → AnalyticsService.ensureInitialized w = (Returned (), w)) ∧
  ((outcome AnalyticsService.ensureInitialized w = Returned () ∧
    initialized (state AnalyticsService.ensureInitialized w) = true) ∨
   (∃ e, outcome AnalyticsService.ensureInitialized w = Thrown e ∧
         initialized (state AnalyticsService.ensureInitialized w) = false ∧
         initialized w = false)) ∧
  (available w → initialized w = false →
   snapshot (state AnalyticsService.ensureInitialized w)
   = Some (default (AnalyticsService.initialAnalytics (now w)) (snapshot w))).
Proof.
  split; [apply ensureInitialized_initialized|]. split; [apply ensureInitialized_outcome|].
  intros Hf Hi.
  unfold state, AnalyticsService.ensureInitialized, AnalyticsService.initialize,
    AnalyticsStorageService.getUserAnalytics, AnalyticsService.createInitialAnalytics,
    AnalyticsStorageService.saveUserAnalytics.
  mred. rewrite Hi. mred. rewrite Hi. mred. rewrite request_available by done. mred.
  unfold snapshot.
  destruct (db_analytics w !! user_analytics_current) as [[? ? [] ? ?]|] eqn:Hrec; mred;
    rewrite ?request_available by done; mred; rewrite ?Hrec, ?lookup_insert_eq; done.
Qed.

Lemma initialization_outcome_witness :
  snapshot initializedWorld = Some (AnalyticsService.initialAnalytics 1700000000000).
Proof.
  destruct (initialization_outcome (startedWorld 1700000000000 [])) as (_ & _ & H).
  apply H; reflexivity.
Defined.

(** ** Achievements that are stored and read back *)

Lemma elem_of_put {A K} `{EqDecision K} (key : A → K) (row : A) (table : list A) :
  row ∈ put key row table.
Proof.
  unfold put. case_decide as Hin.
  - change (map ?f ?l) with (f <$> l) in Hin.
    apply list_elem_of_fmap in Hin as (r & Hk & Hr).
    apply list_elem_of_fmap. exists r. split; [|done]. by rewrite decide_True.
  - apply elem_of_app. right. left.
Qed.

Section Listing.
Import GamificationService.

Lemma getUnlockedAchievements_run w :
  available w →
  getUnlockedAchievements w =
  (Returned (map (λ insight,
               {| achievement_id := JS.replace "achievement_" "" (insight_id insight);
                  achievement_title :=
                    JS.replace "Achievement Unlocked: " "" (insight_title insight);
                  achievement_description := insight_description insight;
                  achievement_icon := "🏆";
                  achievement_category := "Achievement";
                  progress := 100;
                  maxProgress := 100;
                  unlocked := true;
                  unlockedAt := generatedDate insight;
                  achievement_rarity := common |})
            (filter (λ insight, insight_category insight = "Achievements") (db_insights w))), w).
Proof.
  intros Hf. unfold getUnlockedAchievements, AnalyticsStorageService.getInsights.
  unfold bind, try_catch. rewrite request_available by done. reflexivity.
Qed.

End Listing.

(** Property X12: an achievement that [unlockAchievement] has stored is
    listed by [getUnlockedAchievements] under its id and title and with
    the time of the unlocking; the points are added; of every listed
    achievement the icon, the category, the rarity and the progress are
    the fixed values of the listing, not the ones of the achievement. *)
Theorem unlocked_achievement_is_listed achievement xpReward w :
  available w →
  ∃ w1 listed,
    GamificationService.unlockAchievement achievement xpReward w = (Returned (), w1) ∧
    GamificationService.getUnlockedAchievements w1 = (Returned listed, w1) ∧
    userXP w1 = userXP w + xpReward ∧
    (∃ entry, entry ∈ listed ∧
              achievement_id entry = achievement_id achievement ∧
              achievement_title entry = achievement_title achievement ∧
              achievement_description entry = achievement_description achievement ∧
              unlockedAt entry = now w) ∧
    Forall (λ entry, achievement_icon entry = "🏆" ∧
                     achievement_category entry = "Achievement" ∧
                     achievement_rarity entry = common ∧
                     progress entry = 100%Q ∧ unlocked entry = true) listed.
Proof.
  intros Hf.
  destruct (unlockAchievement_run achievement xpReward w Hf)
    as (w1 & E1 & Hf1 & Hxp & Hins & _ & _).
  eexists w1, _. split; [done|]. split; [by apply getUnlockedAchievements_run|].
  split; [done|]. split.
  - eexists. split.
    + change (map ?f ?l) with (f <$> l). apply list_elem_of_fmap.
      exists (achievementInsight achievement (now w)). split; [reflexivity|].
      apply list_elem_of_filter. split; [done|]. rewrite Hins. apply elem_of_put.
    + cbn [achievement_id achievement_title achievement_description unlockedAt
           achievementInsight insight_id insight_title insight_description generatedDate].
      by rewrite !replace_prefix.
  - apply Forall_forall. intros entry Hentry.
    change (map ?f ?l) with (f <$> l) in Hentry.
    by apply list_elem_of_fmap in Hentry as (insight & -> & _).
Qed.

Lemma unlocked_achievement_is_listed_witness :
  ∃ w1 listed,
    GamificationService.unlockAchievement exampleAchievement 50 goalWorld = (Returned (), w1) ∧
    GamificationService.getUnlockedAchievements w1 = (Returned listed, w1) ∧
    userXP w1 = userXP goalWorld + 50.
Proof.
  destruct (unlocked_achievement_is_listed exampleAchievement 50 goalWorld)
    as (w1 & listed & E1 & E2 & Hxp & _); [reflexivity|].
  by exists w1, listed.
Defined.

(** ** Daily challenges (GamificationService, continued) *)

Section GoalCreation.
Import GamificationService.

Lemma find_put_goal (goal : Goal) (table : list Goal) :
  find (λ g, bool_decide (goal_id g = goal_id goal)) (put goal_id goal table) = Some goal.
Proof.
  unfold put. case_decide as Hin.
  - induction table as [|g table IH]; [by apply elem_of_nil in Hin|].
    cbn [map find]. case_decide as Hg.
    + by rewrite bool_decide_eq_true_2.
    + rewrite bool_decide_eq_false_2 by done. apply IH.
      cbn [map] in Hin. apply elem_of_cons in Hin as [Heq|Hin]; [congruence|done].
  - induction table as [|g table IH]; cbn [app find].
    + by rewrite bool_decide_eq_true_2.
    + cbn [map] in Hin. apply not_elem_of_cons in Hin as [Hne Hin].
      rewrite bool_decide_eq_false_2 by congruence. by apply IH.
Qed.

Lemma length_put {A K} `{EqDecision K} (key : A → K) (row : A) (table : list A) :
  (length table ≤ length (put key row table) ≤ length table + 1)%nat.
Proof. unfold put. case_decide; rewrite ?length_map, ?length_app; cbn; lia. Qed.

Lemma uniqueId_run w : uniqueId w = (Returned (now w, random w), update_random S w).
Proof. reflexivity. Qed.

Lemma saveGoal_run goal w :
  available w →
  ∃ w1, AnalyticsStorageService.saveGoal goal w = (Returned (), w1) ∧
        available w1 ∧
        db_goals w1 = put goal_id goal (db_goals w) ∧
        eventCount goal_created w1 = (eventCount goal_created w + 1)%nat ∧
        now w1 = now w ∧ userXP w1 = userXP w.
Proof.
  intros Hf. unfold AnalyticsStorageService.saveGoal.
  rewrite try_catch_rethrow. unfold mbind, M_bind.
  rewrite (bind_run _ _ _ _ _ (request_write_available _ w Hf)).
  set (w0 := update_db_goals _ w).
  match goal with
  | |- context [AnalyticsStorageService.trackEvent goal_created ?d] =>
      destruct (storage_trackEvent_run goal_created d w0 Hf)
        as (w1 & E & Hf1 & Hev & Hxp & Hg & Hn)
  end.
  exists w1. split; [done|]. split; [done|]. split; [by rewrite Hg|].
  split; [|done].
  rewrite (eventCount_snoc goal_created w0 (λ _, w1) _ Hev). cbn [eventAt event_type].
  by rewrite decide_True.
Qed.

Lemma createGoal_run goalData w :
  available w →
  ∃ goal w1, createGoal goalData w = (Returned goal, w1) ∧
        available w1 ∧ now w1 = now w ∧
        goal_type goal = goal_type goalData ∧ target goal = target goalData ∧
        current goal = current goalData ∧ deadline goal = deadline goalData ∧
        priority goal = priority goalData ∧ goal_category goal = goal_category goalData ∧
        status goal = active ∧ createdDate goal = now w ∧
        db_goals w1 = put goal_id goal (db_goals w) ∧
        eventCount goal_created w1 = (eventCount goal_created w + 2)%nat.
Proof.
  intros Hf. unfold createGoal.
  rewrite (bind_run _ _ _ _ _ (uniqueId_run w)). unfold mbind, M_bind. cbv zeta.
  set (w0 := update_random S w).
  match goal with
  | |- context [AnalyticsStorageService.saveGoal ?g] => set (goal := g)
  end.
  destruct (saveGoal_run goal w0 Hf) as (w1 & E1 & Hf1 & Hg1 & Hc1 & Hn1 & _).
  rewrite (bind_run _ _ _ _ _ E1).
  match goal with
  | |- context [AnalyticsStorageService.trackEvent goal_created ?d] =>
      destruct (storage_trackEvent_run goal_created d w1 Hf1)
        as (w2 & E2 & Hf2 & Hev2 & _ & Hg2 & Hn2)
  end.
  rewrite (bind_run _ _ _ _ _ E2).
  exists goal, w2. split; [done|]. split; [done|]. split; [by rewrite Hn2, Hn1|].
  do 8 (split; [done|]). split; [by rewrite Hg2, Hg1|].
  rewrite (eventCount_snoc goal_created w1 (λ _, w2) _ Hev2). cbn [eventAt event_type].
  rewrite decide_True by done. rewrite Hc1. unfold eventCount. subst w0.
  cbn [db_events update_random]. lia.
Qed.

End GoalCreation.

(** Property X13: while the store answers, [createGoal] stores the goal
    as an active goal created at the clock reading, findable under its
    id, and two [goal_created] events are tracked for it: one by
    [saveGoal] of the storage service and one by [createGoal] itself. *)
Theorem created_goal_is_tracked_twice goalData w :
  available w →
  ∃ goal w1,
    GamificationService.createGoal goalData w = (Returned goal, w1) ∧
    status goal = active ∧ createdDate goal = now w ∧
    goal_type goal = goal_type goalData ∧ target goal = target goalData ∧
    findGoal (goal_id goal) w1 = Some goal ∧
    (length (db_goals w) ≤ length (db_goals w1) ≤ length (db_goals w) + 1)%nat ∧
    eventCount goal_created w1 = (eventCount goal_created w + 2)%nat.
Proof.
  intros Hf.
  destruct (createGoal_run goalData w Hf)
    as (goal & w1 & E & _ & _ & Ht & Htarget & _ & _ & _ & _ & Hs & Hc & Hg & Hev).
  exists goal, w1. split; [done|]. do 4 (split; [done|]).
  split; [unfold findGoal; rewrite Hg; apply find_put_goal|].
  split; [rewrite Hg; apply length_put|done].
Qed.

Lemma created_goal_is_tracked_twice_witness :
  ∃ goal w1,
    GamificationService.createGoal exampleGoal goalWorld = (Returned goal, w1) ∧
    eventCount goal_created w1 = (eventCount goal_created goalWorld + 2)%nat.
Proof.
  destruct (created_goal_is_tracked_twice exampleGoal goalWorld)
    as (goal & w1 & E & _ & _ & _ & _ & _ & _ & Hev); [reflexivity|].
  by exists goal, w1.
Defined.

Section Challenges.
Import GamificationService DailyChallenges.

Lemma challengesLoop_run challenges : ∀ createdChallenges w,
  available w →
  ∃ goals w1, challengesLoop challenges createdChallenges w
              = (Returned (createdChallenges ++ goals), w1) ∧
        available w1 ∧ now w1 = now w ∧
        Forall2 (createdFrom (now w)) challenges goals ∧
        eventCount goal_created w1
        = (eventCount goal_created w + 2 * length challenges)%nat.
Proof.
  induction challenges as [|c challenges IH]; intros acc w Hf; cbn [challengesLoop].
  - exists [], w. rewrite app_nil_r. split; [done|]. split; [done|]. split; [done|].
    split; [constructor|]. cbn. lia.
  - destruct (createGoal_run c w Hf)
      as (goal & w1 & E & Hf1 & Hn1 & H1 & H2 & H3 & H4 & H5 & H6 & H7 & H8 & _ & Hev1).
    rewrite (bind_run _ _ _ _ _ E).
    destruct (IH (acc ++ [goal]) w1 Hf1) as (goals & w2 & E2 & Hf2 & Hn2 & Hall & Hev2).
    exists (goal :: goals), w2. split; [by rewrite E2, <- app_assoc|].
    split; [done|]. split; [congruence|]. split.
    + constructor; [by repeat split|]. by rewrite <- Hn1.
    + rewrite Hev2, Hev1. cbn [length]. lia.
Qed.

Lemma getEndOfDay_run w :
  getEndOfDay w
  = (Returned (setHours (timeZone w) 23 59 59 999 (now w)), w).
Proof. reflexivity. Qed.

Lemma setHours_steady zone hours minutes seconds ms t :
  steadyZone zone →
  setHours zone hours minutes seconds ms t
  = localDay zone t * msPerDay
    + hours * msPerHour + minutes * msPerMinute + seconds * 1000 + ms - zone t.
Proof. intros Hz. unfold setHours. cbv zeta. by rewrite (Hz _ t). Qed.

End Challenges.

(** Property X14: while the store answers, [generateDailyChallenges]
    creates three goals, for 3 recordings, 5 searches and 30 minutes, all
    active, created at the clock reading and due at the same instant; six
    [goal_created] events are tracked for them.  Where the clock is never
    changed, that instant is the last millisecond of the local day of the
    clock reading. *)
Theorem daily_challenges w :
  available w →
  ∃ goals w1 deadline_,
    DailyChallenges.generateDailyChallenges w = (Returned goals, w1) ∧
    map goal_type goals = [daily_recordings; daily_searches; time_spent] ∧
    map target goals = [3%Q; 5%Q; 30%Q] ∧
    map priority goals = [medium; low; high] ∧
    Forall (λ goal, status goal = active ∧ current goal = 0%Q ∧
                    createdDate goal = now w ∧ deadline goal = deadline_ ∧
                    goal_category goal = "Daily Challenge") goals ∧
    (steadyZone (timeZone w) →
     now w ≤ deadline_ ∧
     localDay (timeZone w) deadline_ = localDay (timeZone w) (now w) ∧
     localDay (timeZone w) (deadline_ + 1) = localDay (timeZone w) (now w) + 1) ∧
    eventCount goal_created w1 = (eventCount goal_created w + 6)%nat.
Proof.
  intros Hf. unfold DailyChallenges.generateDailyChallenges.
  rewrite !(bind_run _ _ _ _ _ (getEndOfDay_run w)). cbv zeta.
  set (deadline_ := setHours (timeZone w) 23 59 59 999 (now w)).
  match goal with
  | |- context [DailyChallenges.challengesLoop ?cs []] =>
      destruct (challengesLoop_run cs [] w Hf) as (goals & w1 & E & _ & _ & Hall & Hev)
  end.
  exists goals, w1, deadline_. split; [done|].
  apply Forall2_cons_inv_l in Hall as (g1 & goals1 & C1 & Hall & ->).
  apply Forall2_cons_inv_l in Hall as (g2 & goals2 & C2 & Hall & ->).
  apply Forall2_cons_inv_l in Hall as (g3 & goals3 & C3 & Hall & ->).
  apply Forall2_nil_inv_l in Hall as ->.
  destruct C1 as (T1 & G1 & U1 & D1 & P1 & K1 & S1 & N1).
  destruct C2 as (T2 & G2 & U2 & D2 & P2 & K2 & S2 & N2).
  destruct C3 as (T3 & G3 & U3 & D3 & P3 & K3 & S3 & N3).
  cbn [map]. rewrite T1, T2, T3, G1, G2, G3, P1, P2, P3.
  split; [done|]. split; [done|]. split; [done|].
  split; [by repeat constructor|].
  split; [|done].
  intros Hz. unfold deadline_. rewrite setHours_steady by done.
  unfold localDay.
  rewrite (Hz (_ - timeZone w (now w)) (now w)), (Hz (_ + 1) (now w)).
  set (local := now w + timeZone w (now w)).
  pose proof (Z.div_mod local msPerDay ltac:(done)) as Hdm.
  pose proof (Z.mod_pos_bound local msPerDay ltac:(done)) as Hmod.
  unfold msPerDay, msPerHour, msPerMinute in *.
  split; [lia|]. split.
  - replace (local / 86400000 * 86400000 + 23 * 3600000 + 59 * 60000 + 59 * 1000 + 999
             - timeZone w (now w) + timeZone w (now w))
      with (86399999 + local / 86400000 * 86400000) by lia.
    rewrite Z.div_add by lia. by rewrite Z.div_small by lia.
  - replace (local / 86400000 * 86400000 + 23 * 3600000 + 59 * 60000 + 59 * 1000 + 999
             - timeZone w (now w) + 1 + timeZone w (now w))
      with ((local / 86400000 + 1) * 86400000) by lia.
    by rewrite Z.div_mul by lia.
Qed.

Lemma daily_challenges_witness :
  ∃ goals w1,
    DailyChallenges.generateDailyChallenges goalWorld = (Returned goals, w1) ∧
    map target goals = [3%Q; 5%Q; 30%Q] ∧
    eventCount goal_created w1 = (eventCount goal_created goalWorld + 6)%nat.
Proof.
  destruct (daily_challenges goalWorld)
    as (goals & w1 & d & E & _ & Ht & _ & _ & _ & Hev); [reflexivity|].
  exists goals, w1. split; [exact E|]. split; [exact Ht|exact Hev].
Defined.

(** ** The metrics of the Collector *)

#[global] Hint Unfold settled : relations.

#[global] Instance settled_stable : Stable settled.
Proof.
  split; [split|].
  - intros w Hi. done.
  - intros w1 w2 w3 H12 H23 Hi. destruct (H12 Hi) as [Hi2 Hdb2].
    destruct (H23 Hi2) as [Hi3 Hdb3]. split; [done|congruence].
  - intros w b rest _ Hi. done.
Qed.

Lemma ensureInitialized_settled : preserves settled AnalyticsService.ensureInitialized.
Proof.
  intros w Hi. unfold state. by rewrite ensureInitialized_initialized.
Qed.

#[global] Hint Resolve ensureInitialized_settled : frames.

Section CollectorMetrics.
Import AnalyticsService AnalyticsCollectionService.
Context (calc : Calculator).

Lemma updateUserAnalytics_partial dailyUsage_ totalItems_ score :
  preserves settled (updateUserAnalytics calc (PartialAnalytics dailyUsage_ totalItems_ score)).
Proof. unfold updateUserAnalytics. cbv beta iota. preserve. Qed.

Lemma updateUserAnalytics_whole analytics :
  preserves settled (updateUserAnalytics calc (WholeAnalytics analytics)).
Proof. unfold updateUserAnalytics. cbv beta iota. preserve. Qed.

Lemma updateProductivityMetrics_settled activityType duration :
  preserves settled (updateProductivityMetrics calc activityType duration).
Proof.
  pose proof updateUserAnalytics_partial. preserve.
Qed.

Lemma updateSearchMetrics_settled query resultsCount searchType :
  preserves settled (updateSearchMetrics calc query resultsCount searchType).
Proof.
  pose proof updateUserAnalytics_whole. preserve.
Qed.

Lemma updateProductivityMetrics_returns activityType duration :
  returns (updateProductivityMetrics calc activityType duration).
Proof. returning. Qed.

Lemma updateSearchMetrics_returns query resultsCount searchType :
  returns (updateSearchMetrics calc query resultsCount searchType).
Proof. returning. Qed.

End CollectorMetrics.

(** Property X15: on an initialized service, the updates of the
    productivity and the search metrics by the Collector never throw and
    store nothing: the object they pass to [updateUserAnalytics] is not
    the array of items it works on, the call fails, and the failure is
    caught. *)
Theorem collector_metrics_store_nothing (calc : Calculator) w :
  initialized w = true →
  (∀ activityType duration,
     let m := AnalyticsCollectionService.updateProductivityMetrics calc activityType duration in
     outcome m w = Returned () ∧ db_analytics (state m w) = db_analytics w ∧
     db_events (state m w) = db_events w) ∧
  (∀ query resultsCount searchType,
     let m := AnalyticsCollectionService.updateSearchMetrics calc query resultsCount searchType in
     outcome m w = Returned () ∧ db_analytics (state m w) = db_analytics w ∧
     db_events (state m w) = db_events w).
Proof.
  intros Hi. split; intros; cbv zeta.
  - destruct (updateProductivityMetrics_returns calc activityType duration w) as [[] Hr].
    split; [done|]. split.
    + by apply (updateProductivityMetrics_settled calc activityType duration w).
    + apply (updateProductivityMetrics_events calc activityType duration w).
  - destruct (updateSearchMetrics_returns calc query resultsCount searchType w) as [[] Hr].
    split; [done|]. split.
    + by apply (updateSearchMetrics_settled calc query resultsCount searchType w).
    + apply (updateSearchMetrics_events calc query resultsCount searchType w).
Qed.

Lemma collector_metrics_store_nothing_witness :
  snapshot (state (AnalyticsCollectionService.updateProductivityMetrics
                     idleCalculator AnalyticsCollectionService.voice_recording 120)
                  initializedWorld)
  = snapshot initializedWorld.
Proof.
  destruct (collector_metrics_store_nothing idleCalculator initializedWorld) as [H _];
    [reflexivity|].
  destruct (H AnalyticsCollectionService.voice_recording 120%Q) as (_ & Hdb & _).
  unfold snapshot. by rewrite Hdb.
Defined.

(** ** Buffering in order *)

Section Stamps.
Import AnalyticsService AnalyticsCollectionService.

Lemma deliver_stamped batch : ∀ w,
  available w →
  ∃ es, db_events (state (deliver batch) w) = db_events w ++ es ∧
        map eventContent es = map bufferedContent batch ∧
        Forall (λ e, event_timestamp e = now w) es.
Proof.
  induction batch as [|b batch IH]; intros w Hf.
  - exists []. cbn. by rewrite app_nil_r.
  - unfold deliver, state in *. cbn [for_of]. mred.
    destruct (trackEvent_available (buffered_type b) (buffered_data b) w Hf)
      as (Hr & Hf1 & Hev).
    assert (preserves (unchanged now) (trackEvent (buffered_type b) (buffered_data b)))
      as Hn by preserve.
    specialize (Hn w). unfold unchanged, outcome, state in *.
    destruct (trackEvent (buffered_type b) (buffered_data b) w) as [r w1].
    cbn [fst snd] in *. subst r.
    destruct (IH w1 Hf1) as (es & Hes & Hmap & Hst).
    exists (eventAt w (buffered_type b) (buffered_data b) :: es).
    rewrite Hes, Hev, <- app_assoc. split; [done|]. split.
    + cbn [map]. by rewrite Hmap.
    + constructor; [done|]. by rewrite <- Hn.
Qed.

End Stamps.

(** Property X16: while the store answers, a flush empties the buffer
    and stores its events in their order; every stored event carries the
    clock reading of the flush, not the time at which it was buffered. *)
Theorem flushed_events_carry_flush_time w :
  available w →
  let w' := state AnalyticsCollectionService.flushActivityBuffer w in
  activityBuffer w' = [] ∧
  ∃ stored,
    db_events w' = db_events w ++ stored ∧
    map eventContent stored = map bufferedContent (activityBuffer w) ∧
    Forall (λ e, event_timestamp e = now w) stored.
Proof.
  intros Hf. cbv zeta. split; [by apply flush_available|].
  unfold state. rewrite flush_unfold. case_decide as Hlen.
  { apply nil_length_inv in Hlen. rewrite Hlen. exists []. cbn. by rewrite app_nil_r. }
  set (w0 := update_activityBuffer (λ _, []) w).
  destruct (deliver_stamped (activityBuffer w) w0 Hf) as (es & Hes & Hmap & Hst).
  destruct (deliver_available (activityBuffer w) w0 Hf) as (Hr & _).
  unfold outcome, state in *.
  destruct (deliver (activityBuffer w) w0) as [r w1]; cbn [fst snd] in *. subst r.
  by exists es.
Qed.

Lemma flushed_events_carry_flush_time_witness :
  let w := state (AnalyticsCollectionService.run idleCalculator searchWaitFlush)
                 (startedWorld 1700000000000 []) in
  map buffered_timestamp (activityBuffer w) = [1700000000000] ∧
  ∃ stored,
    db_events (state AnalyticsCollectionService.flushActivityBuffer w) = db_events w ++ stored ∧
    map eventContent stored = map bufferedContent (activityBuffer w) ∧
    Forall (λ e, event_timestamp e = 1700000005000) stored.
Proof.
  cbv zeta. split; [by vm_compute|].
  apply (flushed_events_carry_flush_time
           (state (AnalyticsCollectionService.run idleCalculator searchWaitFlush)
                  (startedWorld 1700000000000 []))).
  reflexivity.
Defined.

(** Property X17: while the store answers, tracking calls in quick
    succession are stored in the order of the calls: the events stored by
    the flushes, followed by the events left in the buffer, are the ones
    that were buffered before, followed by the calls; fewer than ten stay
    in the buffer, their number being the number of events modulo 10. *)
Theorem buffering_keeps_order calls w :
  available w → (length (activityBuffer w) < 10)%nat →
  let w' := state (bufferAll calls) w in
  (length (activityBuffer w') < 10)%nat ∧
  ∃ stored,
    db_events w' = db_events w ++ stored ∧
    map eventContent stored ++ map bufferedContent (activityBuffer w')
    = map bufferedContent (activityBuffer w) ++ calls ∧
    length (activityBuffer w') = ((length (activityBuffer w) + length calls) mod 10)%nat.
Proof.
  intros Hf Hlen. cbv zeta.
  destruct (bufferAll_available calls w Hf Hlen) as (_ & Hlt & stored & Hev & Hc & Hl).
  split; [done|]. by exists stored.
Qed.

Lemma buffering_keeps_order_witness :
  let w' := state (bufferAll elevenSearches) (startedWorld 1700000000000 []) in
  length (activityBuffer w') = 1%nat.
Proof.
  cbv zeta.
  destruct (buffering_keeps_order elevenSearches (startedWorld 1700000000000 []))
    as (_ & stored & _ & _ & Hl); [reflexivity|apply (bool_decide_unpack _); by vm_compute|].
  exact Hl.
Defined.

Lemma snapshot_replaced_or_untouched_witness :
  let w := update_faults (λ _, [false; false; false; true]) initializedWorld in
  outcome (AnalyticsService.updateUserAnalytics idleCalculator (ItemsArray threeItems)) w
  = Thrown StoreError ∧
  db_analytics (state (AnalyticsService.updateUserAnalytics idleCalculator (ItemsArray threeItems)) w)
  = db_analytics w.
Proof.
  cbv zeta.
  pose proof (snapshot_replaced_or_untouched idleCalculator threeItems
                (update_faults (λ _, [false; false; false; true]) initializedWorld) eq_refl) as H.
  cbv zeta in H.
  assert (outcome (AnalyticsService.updateUserAnalytics idleCalculator (ItemsArray threeItems))
                  (update_faults (λ _, [false; false; false; true]) initializedWorld)
          = Thrown StoreError) as E by (by vm_compute).
  rewrite E in H. split; [exact E|exact H].
Defined.

(** ** FileProcessingService: validation of an uploaded file *)

Section Extensions.
Import JSString FileProcessingService.

Lemma toLowerCase_cons c s : JS.toLowerCase (String c s) = String (lowerChar c) (JS.toLowerCase s).
Proof. reflexivity. Qed.

Lemma lowerChar_dot c : lowerChar c = "."%char ↔ c = "."%char.
Proof.
  unfold lowerChar. cbv zeta. case_decide as Hn; [|done]. split.
  - intros H. apply (f_equal Ascii.nat_of_ascii) in H.
    rewrite Ascii.nat_ascii_embedding in H by lia.
    change (Ascii.nat_of_ascii ".") with 46%nat in H. lia.
  - intros ->. change (Ascii.nat_of_ascii ".") with 46%nat in Hn. lia.
Qed.

Lemma lastIndex_toLowerCase s :
  lastIndex "."%char (JS.toLowerCase s) = lastIndex "."%char s.
Proof.
  induction s as [|c s IH]; [done|].
  rewrite toLowerCase_cons. cbn [lastIndex]. rewrite IH.
  destruct (lastIndex "." s); [done|].
  pose proof (lowerChar_dot c). repeat case_decide; tauto || done.
Qed.

Lemma lastIndex_suffix base rest :
  lastIndex "."%char rest = None →
  lastIndex "."%char (base +:+ String "."%char rest) = Some (String.length base).
Proof.
  intros Hrest. induction base as [|c base IH].
  - unfold String.append. cbn [lastIndex String.length]. rewrite Hrest.
    by rewrite decide_True.
  - unfold String.append; fold String.append. cbn [lastIndex String.length].
    by rewrite IH.
Qed.

Lemma drop_suffix base ext : JSString.drop (String.length base) (base +:+ ext) = ext.
Proof.
  induction base as [|c base IH]; [by destruct ext|].
  unfold String.append; fold String.append. cbn [String.length JSString.drop]. done.
Qed.

Lemma drop_is_suffix n s : ∃ base, s = base +:+ JSString.drop n s.
Proof.
  revert s. induction n as [|n IH]; intros s.
  - exists EmptyString. by destruct s.
  - destruct s as [|c s]; [by exists EmptyString|].
    destruct (IH s) as [base Hb]. exists (String c base).
    cbn [JSString.drop]. unfold String.append; fold String.append. by rewrite <- Hb.
Qed.

Lemma supported_shape ext :
  ext ∈ supportedFormats →
  ∃ rest, ext = String "."%char rest ∧ lastIndex "."%char rest = None.
Proof.
  unfold supportedFormats. rewrite !elem_of_cons, elem_of_nil.
  intros [->|[->|[->|[->|[]]]]]; eexists; (split; [reflexivity|reflexivity]).
Qed.

(** The extension is in the list exactly when the lower-cased name ends
    in an extension of the list. *)
Lemma getFileExtension_supported filename :
  getFileExtension filename ∈ supportedFormats ↔
  ∃ base ext, JS.toLowerCase filename = base +:+ ext ∧ ext ∈ supportedFormats.
Proof.
  unfold getFileExtension, JSString.substring, lastIndexOf. split.
  - intros Hin. destruct (drop_is_suffix
      (Z.to_nat match lastIndex "." filename with Some i => Z.of_nat i | None => -1 end)
      (JS.toLowerCase filename)) as [base Hb].
    eauto.
  - intros (base & ext & Hname & Hext).
    destruct (supported_shape ext Hext) as (rest & -> & Hrest).
    rewrite <- lastIndex_toLowerCase, Hname, (lastIndex_suffix base rest Hrest).
    rewrite Nat2Z.id, drop_suffix. done.
Qed.

End Extensions.

(** Property X18: of the files with a name of ASCII characters,
    [validateFile] accepts exactly those of at most 10 MB whose name, in
    lower case, ends in .txt, .pdf, .doc or .docx; a missing file is
    rejected; and for an accepted file [extractTextFromFile] always finds
    an extractor, so that its own error for an unsupported format is
    never thrown. *)
Theorem validateFile_accepts :
  FileProcessingService.isValid (FileProcessingService.validateFile None) = false ∧
  (∀ file_,
     JS.isAscii (FileProcessingService.file_name file_) = true →
     (FileProcessingService.isValid (FileProcessingService.validateFile (Some file_)) = true ↔
      FileProcessingService.file_size file_ ≤ 10485760 ∧
      ∃ base ext,
        JS.toLowerCase (FileProcessingService.file_name file_) = base +:+ ext ∧
        ext ∈ [".txt"; ".pdf"; ".doc"; ".docx"])) ∧
  (∀ file_,
     (FileProcessingService.isValid (FileProcessingService.validateFile file_) = true →
      ∃ extractor, FileProcessingService.extractTextFromFile file_ = inr extractor) ∧
     (FileProcessingService.isValid (FileProcessingService.validateFile file_) = false →
      FileProcessingService.extractTextFromFile file_
      = inl (FileProcessingService.ValidationFailed
               (FileProcessingService.error (FileProcessingService.validateFile file_))))).
Proof.
  split; [done|]. split.
  - intros f _. rewrite <- (getFileExtension_supported (FileProcessingService.file_name f)).
    unfold FileProcessingService.validateFile. cbv zeta.
    change FileProcessingService.maxFileSize with 10485760.
    case_decide as Hsize; cbn [FileProcessingService.isValid]; [split; [done|lia]|].
    case_bool_decide as Hext; cbn [negb FileProcessingService.isValid]; split; try done;
      intros; try tauto. split; [lia|done].
  - intros f. unfold FileProcessingService.extractTextFromFile. cbv zeta. split.
    + intros Hvalid. rewrite Hvalid. cbn [negb].
      destruct f as [f|]; [|done].
      revert Hvalid. unfold FileProcessingService.validateFile. cbv zeta.
      case_decide as Hsize; cbn [FileProcessingService.isValid]; [done|].
      case_bool_decide as Hext; cbn [negb FileProcessingService.isValid]; [|done].
      intros _. unfold FileProcessingService.supportedFormats in Hext.
      rewrite !elem_of_cons, elem_of_nil in Hext.
      repeat case_decide; eauto. tauto.
    + intros Hinvalid. by rewrite Hinvalid.
Qed.

Lemma validateFile_accepts_witness :
  FileProcessingService.extractTextFromFile (Some capitalReport)
  = inr FileProcessingService.extractTextFromPdf.
Proof.
  destruct validateFile_accepts as (_ & Hiff & Hdispatch).
  destruct (Hdispatch (Some capitalReport)) as [Hvalid _].
  destruct Hvalid as [extractor Hx].
  - apply Hiff; [reflexivity|]. split; [by vm_compute|].
    exists "report", ".pdf". split; [reflexivity|]. right. left.
  - rewrite Hx. f_equal. vm_compute in Hx. by injection Hx as <-.
Defined.

(** ** AnalyticsCalculationService: trend analysis *)

Section Trends.
Import TrendAnalysis.

Lemma Qlt_div_iff (a b c : Q) : (0 < c)%Q → (a < b / c ↔ a * c < b)%Q.
Proof.
  intros Hc. split; intros H.
  - apply (Qmult_lt_r _ _ c Hc) in H.
    assert (b / c * c == b)%Q as E by (field; lra). lra.
  - apply (Qmult_lt_r _ _ c Hc).
    assert (b / c * c == b)%Q as E by (field; lra). lra.
Qed.

Lemma Qdiv_lt_iff (a b c : Q) : (0 < c)%Q → (b / c < a ↔ b < a * c)%Q.
Proof.
  intros Hc. split; intros H.
  - apply (Qmult_lt_r _ _ c Hc) in H.
    assert (b / c * c == b)%Q as E by (field; lra). lra.
  - apply (Qmult_lt_r _ _ c Hc).
    assert (b / c * c == b)%Q as E by (field; lra). lra.
Qed.

Lemma percentage_positive (x p : Q) :
  (0 < p)%Q →
  ((5 < x / p * 100 ↔ 5 * p < x * 100) ∧ (x / p * 100 < -5 ↔ x * 100 < -5 * p))%Q.
Proof.
  intros Hp. assert (x / p * 100 == (x * 100) / p)%Q as E by (field; lra).
  rewrite E. split; [apply Qlt_div_iff|apply Qdiv_lt_iff]; done.
Qed.

Lemma percentage_negative (x p : Q) :
  (p < 0)%Q →
  ((5 < x / p * 100 ↔ x * 100 < 5 * p) ∧ (x / p * 100 < -5 ↔ -5 * p < x * 100))%Q.
Proof.
  intros Hp. assert (0 < - p)%Q as Hn by lra.
  assert (x / p * 100 == (- x * 100) / (- p))%Q as E by (field; lra).
  rewrite E. pose proof (Qlt_div_iff 5 (- x * 100) (- p) Hn) as H1.
  pose proof (Qdiv_lt_iff (-5) (- x * 100) (- p) Hn) as H2.
  split; [rewrite H1|rewrite H2]; split; intros; lra.
Qed.

Lemma comparison_on_rationals (current previous : Q) :
  let c := calculateComparison current previous in
  ((previous == 0)%Q →
   comparison_trend c = stable ∧ changePercentage c = 0%Q) ∧
  ((0 < previous)%Q →
   (comparison_trend c = up ↔ (105 * previous < 100 * current)%Q) ∧
   (comparison_trend c = down ↔ (100 * current < 95 * previous)%Q)) ∧
  ((previous < 0)%Q →
   (comparison_trend c = up ↔ (100 * current < 105 * previous)%Q) ∧
   (comparison_trend c = down ↔ (95 * previous < 100 * current)%Q)).
Proof.
  cbv zeta. unfold calculateComparison. cbv zeta.
  cbn [comparison_change comparison_trend changePercentage].
  split; [|split].
  - intros Hzero. destruct (decide (¬ previous == 0)%Q) as [Hn|_]; [by destruct Hn|].
    rewrite !decide_False by lra. done.
  - intros Hpos. destruct (decide (¬ previous == 0)%Q) as [_|Hn]; [|destruct Hn; lra].
    destruct (percentage_positive (current - previous) previous Hpos) as [Hup Hdown].
    repeat case_decide; split; split; intros; try done; try lra.
  - intros Hneg. destruct (decide (¬ previous == 0)%Q) as [_|Hn]; [|destruct Hn; lra].
    destruct (percentage_negative (current - previous) previous Hneg) as [Hup Hdown].
    repeat case_decide; split; split; intros; try done; try lra.
Qed.

Lemma whole_lt (k l : Z) (x y : Z) :
  (inject_Z k * inject_Z x < inject_Z l * inject_Z y)%Q ↔ k * x < l * y.
Proof. by rewrite <- !inject_Z_mult, <- Zlt_Qlt. Qed.

End Trends.

(** Property X19: [calculateComparison] reports a change from a previous
    value of 0 as stable with 0 percent, whatever the current value; for
    whole numbers of at most a trillion and a positive previous value the
    trend is up exactly when the current value exceeds it by more than 5
    percent and down exactly when it falls short by more than 5 percent;
    for a negative previous value the directions are exchanged. *)
Theorem comparison_trend :
  (∀ current previous : Q,
     (previous == 0)%Q →
     let c := TrendAnalysis.calculateComparison current previous in
     TrendAnalysis.comparison_trend c = stable ∧ TrendAnalysis.changePercentage c = 0%Q) ∧
  (∀ current previous : Z,
     Z.abs current ≤ wholeLimit → Z.abs previous ≤ wholeLimit →
     let c := TrendAnalysis.calculateComparison (inject_Z current) (inject_Z previous) in
     TrendAnalysis.comparison_change c = (inject_Z current - inject_Z previous)%Q ∧
     (0 < previous →
      (TrendAnalysis.comparison_trend c = up ↔ 105 * previous < 100 * current) ∧
      (TrendAnalysis.comparison_trend c = down ↔ 100 * current < 95 * previous)) ∧
     (previous < 0 →
      (TrendAnalysis.comparison_trend c = up ↔ 100 * current < 105 * previous) ∧
      (TrendAnalysis.comparison_trend c = down ↔ 95 * previous < 100 * current))).
Proof.
  split.
  - intros current previous Hzero.
    by apply (comparison_on_rationals current previous).
  - intros current previous _ _. cbv zeta.
    destruct (comparison_on_rationals (inject_Z current) (inject_Z previous))
      as (_ & Hpos & Hneg).
    split; [done|]. split.
    + intros Hp. destruct Hpos as [Hup Hdown].
      { change 0%Q with (inject_Z 0). by rewrite <- Zlt_Qlt. }
      rewrite Hup, Hdown.
      split; [apply (whole_lt 105 100)|apply (whole_lt 100 95)].
    + intros Hp. destruct Hneg as [Hup Hdown].
      { change 0%Q with (inject_Z 0). by rewrite <- Zlt_Qlt. }
      rewrite Hup, Hdown.
      split; [apply (whole_lt 100 105)|apply (whole_lt 95 100)].
Qed.

Lemma comparison_trend_witness :
  TrendAnalysis.comparison_trend (TrendAnalysis.calculateComparison 106 100) = up ∧
  TrendAnalysis.comparison_trend (TrendAnalysis.calculateComparison 7 0) = stable.
Proof.
  destruct comparison_trend as [Hzero Hwhole]. split.
  - destruct (Hwhole 106 100) as (_ & Hpos & _); [by vm_compute|by vm_compute|].
    destruct Hpos as [Hup _]; [done|]. by apply Hup.
  - by apply (Hzero 7%Q 0%Q).
Defined.

(** Property X20: [calculateTrendData] has one entry for each value, with
    the value and the date of its index; the first entry is stable with
    change 0; every later entry has the trend and the percentage that
    [calculateComparison] gives for the value and the value before it. *)
Theorem trend_data_follows_comparison (data : list Q) (dates : list Z) :
  length (TrendAnalysis.calculateTrendData data dates) = length data ∧
  (∀ i entry, TrendAnalysis.calculateTrendData data dates !! i = Some entry →
     TrendAnalysis.trend_date entry = dates !! i ∧
     data !! i = Some (TrendAnalysis.trend_value entry)) ∧
  (∀ entry, TrendAnalysis.calculateTrendData data dates !! 0%nat = Some entry →
     (TrendAnalysis.trend_change entry == 0)%Q ∧ TrendAnalysis.trend_trend entry = stable) ∧
  (∀ i previous current entry,
     data !! i = Some previous → data !! S i = Some current →
     TrendAnalysis.calculateTrendData data dates !! S i = Some entry →
     TrendAnalysis.trend_trend entry
     = TrendAnalysis.comparison_trend (TrendAnalysis.calculateComparison current previous) ∧
     TrendAnalysis.trend_change entry
     = TrendAnalysis.changePercentage (TrendAnalysis.calculateComparison current previous)).
Proof.
  unfold TrendAnalysis.calculateTrendData. split; [apply length_imap|]. split; [|split].
  - intros i entry. rewrite list_lookup_imap.
    destruct (data !! i) as [current|]; [|done]. cbn. intros [= <-]. done.
  - intros entry. rewrite list_lookup_imap.
    destruct (data !! 0%nat) as [current|]; [|done]. cbn. intros [= <-].
    cbn [TrendAnalysis.trend_change TrendAnalysis.trend_trend].
    destruct (decide (¬ current == 0)%Q) as [Hn|_].
    + assert ((current - current) / current * 100 == 0)%Q as E by (by field).
      split; [done|]. rewrite !decide_False; [done|rewrite E; lra|rewrite E; lra].
    + split; [done|]. rewrite !decide_False by lra. done.
  - intros i previous current entry Hprev Hcur. rewrite list_lookup_imap, Hcur. cbn.
    intros [= <-]. cbn [TrendAnalysis.trend_change TrendAnalysis.trend_trend].
    rewrite Nat.sub_0_r, Hprev. cbn. done.
Qed.

Lemma trend_data_follows_comparison_witness :
  ∃ entry,
    TrendAnalysis.calculateTrendData [100; 106; 50]%Q [] !! 1%nat = Some entry ∧
    TrendAnalysis.trend_trend entry
    = TrendAnalysis.comparison_trend (TrendAnalysis.calculateComparison 106 100).
Proof.
  destruct (trend_data_follows_comparison [100; 106; 50]%Q []) as (_ & _ & _ & Hnext).
  eexists. split; [reflexivity|].
  eapply (proj1 (Hnext 0%nat 100%Q 106%Q _ eq_refl eq_refl eq_refl)).
Defined.

(** ** AnalyticsCalculationService: usage patterns *)

Section Days.
Import UsagePatterns.

Lemma getDay_range t : 0 ≤ getDay t < 7.
Proof. unfold getDay. apply Z.mod_pos_bound. lia. Qed.

Lemma dayCounts_loop (rows : list DailyUsageData) : ∀ (init : list Z),
  length init = 7%nat →
  let counts :=
    foldl (λ counts usage,
             alter (λ count, count + (itemsCreated usage + searchCount usage))
                   (Z.to_nat (getDay (date usage))) counts) init rows in
  length counts = 7%nat ∧
  ∀ d c, init !! d = Some c → counts !! d = Some (c + activityOn (Z.of_nat d) rows).
Proof.
  induction rows as [|u rows IH]; intros init Hlen; cbn [foldl].
  - split; [done|]. intros d c Hd. unfold activityOn, JS.sumZ. cbn. rewrite Hd. f_equal. lia.
  - cbv zeta in IH.
    edestruct (IH (alter (λ count, count + (itemsCreated u + searchCount u))
                         (Z.to_nat (getDay (date u))) init)) as [Hl Hc].
    { rewrite length_alter. exact Hlen. }
    split; [done|]. intros d c Hd.
    pose proof (getDay_range (date u)) as Hr.
    unfold activityOn. rewrite filter_cons.
    destruct (decide (Z.to_nat (getDay (date u)) = d)) as [<-|Hne].
    + rewrite decide_True by lia. rewrite sumZ_cons.
      rewrite (Hc _ (c + (itemsCreated u + searchCount u))).
      * f_equal. unfold activityOn. lia.
      * rewrite list_lookup_alter_eq, Hd. reflexivity.
    + rewrite decide_False by lia.
      rewrite (Hc _ c); [done|]. by rewrite list_lookup_alter_ne.
Qed.

Lemma dayCounts_spec rows :
  length (dayCounts rows) = 7%nat ∧
  ∀ d, (d < 7)%nat → dayCounts rows !! d = Some (activityOn (Z.of_nat d) rows).
Proof.
  destruct (dayCounts_loop rows (replicate 7 0) eq_refl) as [Hl Hc]. split; [done|].
  intros d Hd. unfold dayCounts. rewrite (Hc d 0).
  - done.
  - apply lookup_replicate_2. lia.
Qed.

Lemma Math_max_of_spec (values : list Z) :
  values ≠ [] →
  Math_max_of values ∈ values ∧ Forall (λ v, v ≤ Math_max_of values) values.
Proof.
  intros Hne. unfold Math_max_of. destruct values as [|v0 values]; [done|].
  cbn [head default]. clear Hne.
  assert (H : ∀ l, (foldr Z.max v0 l = v0 ∨ foldr Z.max v0 l ∈ l) ∧
                   v0 ≤ foldr Z.max v0 l ∧ Forall (λ v, v ≤ foldr Z.max v0 l) l).
  { induction l as [|x l (Hin & Hv0 & Hall)]; cbn [foldr].
    - split; [by left|]. split; [lia|constructor].
    - split; [|split].
      + destruct (Z.max_spec x (foldr Z.max v0 l)) as [[_ ->]|[_ ->]].
        * destruct Hin as [->|Hin]; [by left|right; by right].
        * right. left.
      + lia.
      + constructor; [lia|]. eapply Forall_impl; [exact Hall|]. cbn. lia. }
  destruct (H (v0 :: values)) as (Hin & _ & Hall). split; [|done].
  change (id v0) with v0. destruct Hin as [->|Hin]; [left|done].
Qed.

End Days.

(** Property X21: [findMostActiveDay] returns the name of the first day
    of the week, counted from Sunday, whose activity (items created plus
    searches, summed over the rows that fall on that day) is the highest;
    without rows this is Sunday. *)
Theorem most_active_day (dailyUsage : list DailyUsageData) :
  ∃ i, (i < 7)%nat ∧
       UsagePatterns.dayNames !! i = Some (UsagePatterns.findMostActiveDay dailyUsage) ∧
       (∀ j, (j < 7)%nat → activityOn (Z.of_nat j) dailyUsage ≤ activityOn (Z.of_nat i) dailyUsage) ∧
       (∀ j, (j < i)%nat → activityOn (Z.of_nat j) dailyUsage < activityOn (Z.of_nat i) dailyUsage).
Proof.
  destruct (dayCounts_spec dailyUsage) as [Hlen Hcount].
  destruct (Math_max_of_spec (UsagePatterns.dayCounts dailyUsage)) as [Hin Hmax].
  { intros Hnil. by rewrite Hnil in Hlen. }
  unfold UsagePatterns.findMostActiveDay, UsagePatterns.indexOf. cbv zeta.
  set (counts := UsagePatterns.dayCounts dailyUsage) in *.
  set (m := UsagePatterns.Math_max_of counts) in *.
  destruct (list_find (λ value, value = m) counts) as [[i x]|] eqn:Hfind.
  - apply list_find_Some in Hfind as (Hi & -> & Hfirst).
    assert (i < 7)%nat as Hi7 by (rewrite <- Hlen; by eapply lookup_lt_Some).
    rewrite Hcount in Hi by done. injection Hi as Hi.
    exists i. split; [done|]. cbn [fmap option_fmap option_map fst mbind option_bind].
    split.
    + destruct (UsagePatterns.dayNames !! i) as [name|] eqn:Hname; [done|].
      apply lookup_ge_None in Hname. cbn in Hname. lia.
    + rewrite Hi. split.
      * intros j Hj. rewrite Forall_forall in Hmax. apply Hmax.
        apply list_elem_of_lookup. exists j. by apply Hcount.
      * intros j Hj.
        assert (activityOn (Z.of_nat j) dailyUsage ≤ m) as Hle.
        { rewrite Forall_forall in Hmax. apply Hmax.
          apply list_elem_of_lookup. exists j. apply Hcount. lia. }
        assert (activityOn (Z.of_nat j) dailyUsage ≠ m); [|lia].
        apply (Hfirst j); [|done]. apply Hcount. lia.
  - apply list_find_None in Hfind. rewrite Forall_forall in Hfind.
    by destruct (Hfind m Hin).
Qed.

Lemma most_active_day_witness : UsagePatterns.findMostActiveDay [] = "Sunday".
Proof.
  destruct (most_active_day []) as (i & Hi & Hname & _ & Hfirst).
  destruct i as [|i].
  - change (UsagePatterns.dayNames !! 0%nat) with (Some "Sunday") in Hname. congruence.
  - specialize (Hfirst 0%nat ltac:(lia)). by vm_compute in Hfirst.
Defined.

Section Sessions.
Import UsagePatterns.

Lemma recordEvent_ordered sessions event :
  Forall (λ session, session.2.1 ≤ session.2.2) sessions →
  Forall (λ session, session.2.1 ≤ session.2.2) (recordEvent sessions event).
Proof.
  intros Hall. unfold recordEvent. cbv zeta. case_decide as Hnew.
  - apply Forall_app. split; [done|]. repeat constructor. cbn. lia.
  - apply Forall_fmap. eapply Forall_impl; [exact Hall|].
    intros [k [s e]] Hse. cbn in *. repeat case_decide; cbn; lia.
Qed.

Lemma sessions_ordered events : ∀ sessions,
  Forall (λ session, session.2.1 ≤ session.2.2) sessions →
  Forall (λ session, session.2.1 ≤ session.2.2) (foldl recordEvent sessions events).
Proof.
  induction events as [|e events IH]; intros sessions Hall; [done|].
  cbn [foldl]. by apply IH, recordEvent_ordered.
Qed.

Lemma foldl_sumQ_shift {A} (f : A → Q) (l : list A) (a : Q) :
  (foldl (λ sum x, sum + f x) a l == a + JS.sumQ f l)%Q.
Proof.
  unfold JS.sumQ. revert a. induction l as [|x l IH]; intros a; cbn [foldl]; [ring|].
  rewrite (IH (a + f x)%Q), (IH (0 + f x)%Q). ring.
Qed.

Lemma sumQ_nonneg {A} (f : A → Q) (l : list A) :
  Forall (λ x, 0 <= f x)%Q l → (0 <= JS.sumQ f l)%Q.
Proof.
  induction 1 as [|x l Hx _ IH]; [done|].
  unfold JS.sumQ. cbn [foldl]. rewrite foldl_sumQ_shift. lra.
Qed.

End Sessions.

(** Property X22: the average session duration is never negative, since
    no session recorded from the events ends before it starts; without
    events the average is 0. *)
Theorem session_duration_not_negative (events : list AnalyticsEvent) :
  (0 <= UsagePatterns.calculateAverageSessionDuration events)%Q ∧
  UsagePatterns.calculateAverageSessionDuration [] = 0%Q ∧
  Forall (λ session, session.2.1 ≤ session.2.2) (foldl UsagePatterns.recordEvent [] events).
Proof.
  pose proof (sessions_ordered events [] (Forall_nil_2 _)) as Hall.
  split; [|split; [done|done]].
  unfold UsagePatterns.calculateAverageSessionDuration. cbv zeta.
  set (sessions := foldl UsagePatterns.recordEvent [] events) in *.
  case_decide as Hlen; [|done].
  apply Qle_shift_div_l.
  - rewrite <- (Zlt_Qlt 0). lia.
  - rewrite Qmult_0_l. apply sumQ_nonneg. apply Forall_fmap.
    eapply Forall_impl; [exact Hall|]. intros [k [s e]] Hse. cbn in *.
    apply Qle_shift_div_l; [done|]. rewrite Qmult_0_l. rewrite <- (Zle_Qle 0). lia.
Qed.

(** ** One daily row for each day *)

#[global] Hint Unfold datedRows : relations.

#[global] Instance datedRows_stable : Stable (kept datedRows).
Proof. apply kept_stable. intros w b rest _ Hw. exact Hw. Qed.

Section DailyRows.
Import AnalyticsStorageService.

Lemma applyEvent_date event usage : date (applyEvent event usage) = date usage.
Proof. unfold applyEvent. by destruct (event_type event). Qed.

Lemma getDailyUsage_dated today w :
  datedRows w →
  datedRows (state (getDailyUsage today) w) ∧
  now (state (getDailyUsage today) w) = now w ∧
  ∃ stored, outcome (getDailyUsage today) w = Returned stored ∧
    ∀ usage, stored = Some usage →
      formatDateKey (date usage) = formatDateKey today ∧ date usage ≤ now w.
Proof.
  intros Hw. unfold state, outcome, getDailyUsage, request. mred.
  assert (∀ record usage,
            db_analytics w !! daily_usage (formatDateKey today) = Some record →
            record_data record = DailyUsage usage →
            formatDateKey (date usage) = formatDateKey today ∧ date usage ≤ now w) as Hread.
  { intros record usage Hl Hd. destruct (Hw _ _ _ Hl Hd) as [Hk ?].
    split; [congruence|done]. }
  destruct (faults w) as [|[] rest]; mred.
  - split; [done|]. split; [done|]. eexists. split; [done|].
    intros usage Hs.
    destruct (db_analytics w !! daily_usage (formatDateKey today)) as [[? ? [] ? ?]|] eqn:Hl;
      try done.
    injection Hs as ->. by eapply Hread.
  - split; [done|]. split; [done|]. by eexists.
  - split; [done|]. split; [done|]. eexists. split; [done|].
    intros usage Hs.
    destruct (db_analytics w !! daily_usage (formatDateKey today)) as [[? ? [] ? ?]|] eqn:Hl;
      try done.
    injection Hs as ->. by eapply Hread.
Qed.

Lemma datedRows_insert w today usage timestamp version :
  datedRows w →
  formatDateKey (date usage) = formatDateKey today →
  date usage ≤ now w →
  ∀ key record usage',
    <[daily_usage (formatDateKey today) :=
        {| record_id := daily_usage (formatDateKey today);
           record_type := type_daily_usage;
           record_data := DailyUsage usage;
           record_timestamp := timestamp;
           record_version := version |}]> (db_analytics w) !! key = Some record →
    record_data record = DailyUsage usage' →
    key = daily_usage (formatDateKey (date usage')) ∧ date usage' ≤ now w.
Proof.
  intros Hw Hday Hpast key record usage' Hl Hd.
  destruct (decide (key = daily_usage (formatDateKey today))) as [->|Hne].
  - rewrite lookup_insert_eq in Hl. injection Hl as <-. cbn in Hd.
    injection Hd as <-. split; [congruence|done].
  - rewrite lookup_insert_ne in Hl; [|done]. by eapply Hw.
Qed.

Lemma saveDailyUsage_dated today usage w :
  datedRows w →
  formatDateKey (date usage) = formatDateKey today →
  date usage ≤ now w →
  datedRows (state (saveDailyUsage today usage) w).
Proof.
  intros Hw Hday Hpast. unfold state, saveDailyUsage, request. mred.
  destruct (faults w) as [|[] rest]; mred.
  - intros key record usage' Hl Hd. cbn [db_analytics now record_id] in Hl |- *. by eapply datedRows_insert.
  - done.
  - intros key record usage' Hl Hd. cbn [db_analytics now record_id] in Hl |- *. by eapply datedRows_insert.
Qed.

Lemma updateRealTimeMetrics_dated event :
  preserves (kept datedRows) (updateRealTimeMetrics event).
Proof.
  intros w Hw. unfold state, updateRealTimeMetrics, try_catch, bind, read. cbn [fst snd].
  destruct (getDailyUsage_dated (now w) w Hw) as (Hw1 & Hnow & stored & Hout & Hstored).
  unfold state, outcome in Hw1, Hnow, Hout.
  destruct (getDailyUsage (now w) w) as [r w1]. cbn [fst snd] in *. subst r.
  assert (datedRows (state (saveDailyUsage (now w)
            (applyEvent event (default (createEmptyDailyUsage (now w)) stored))) w1)) as Hw2.
  { apply saveDailyUsage_dated; [done| |]; rewrite applyEvent_date.
    - destruct stored as [usage|]; [by apply (Hstored usage)|done].
    - rewrite Hnow. destruct stored as [usage|]; [by apply (Hstored usage)|cbn; lia]. }
  unfold state in Hw2.
  by destruct (saveDailyUsage _ _ w1) as [[?|?] w2].
Qed.

Lemma saveUserAnalytics_dated analytics :
  preserves (kept datedRows) (saveUserAnalytics analytics).
Proof.
  intros w Hw. unfold state, saveUserAnalytics, request. mred.
  assert (∀ timestamp key record usage,
            <[user_analytics_current :=
                {| record_id := user_analytics_current;
                   record_type := type_user_analytics;
                   record_data := UserAnalyticsData analytics;
                   record_timestamp := timestamp;
                   record_version := 1 |}]> (db_analytics w) !! key = Some record →
            record_data record = DailyUsage usage →
            key = daily_usage (formatDateKey (date usage)) ∧ date usage ≤ now w) as Hput.
  { intros timestamp key record usage Hl Hd.
    destruct (decide (key = user_analytics_current)) as [->|Hne].
    - rewrite lookup_insert_eq in Hl. by injection Hl as <-.
    - rewrite lookup_insert_ne in Hl; [|done]. by eapply Hw. }
  destruct (faults w) as [|[] rest]; mred.
  - intros key record usage Hl Hd. cbn [db_analytics now record_id] in Hl |- *. by eapply Hput.
  - done.
  - intros key record usage Hl Hd. cbn [db_analytics now record_id] in Hl |- *. by eapply Hput.
Qed.

End DailyRows.

#[global] Hint Resolve updateRealTimeMetrics_dated saveUserAnalytics_dated : frames.

Section DatedRowsKept.
Import AnalyticsService AnalyticsCollectionService.
Context (calc : Calculator).

Lemma storage_trackEvent_dated type data :
  preserves (kept datedRows) (AnalyticsStorageService.trackEvent type data).
Proof. preserve. Qed.

Lemma updateUserAnalytics_dated contentItems :
  preserves (kept datedRows) (updateUserAnalytics calc contentItems).
Proof. unfold updateUserAnalytics. preserve. Qed.

Lemma track_dated call : preserves (kept datedRows) (track calc call).
Proof. preserve. Qed.

Lemma timerTick_dated : preserves (kept datedRows) timerTick.
Proof. preserve. Qed.

End DatedRowsKept.

Section RowsOfTheRange.
Import AnalyticsStorageService.

Lemma rows_of_records (L : list (RecordKey * AnalyticsRecord)) (P : AnalyticsRecord → Prop)
    `{!∀ r, Decision (P r)} usage :
  usage ∈ omap (λ record, match record_data record with
                          | DailyUsage usage => Some usage
                          | _ => None
                          end) (filter P (map snd L)) →
  ∃ key record, (key, record) ∈ L ∧ record_data record = DailyUsage usage.
Proof.
  rewrite list_elem_of_omap. intros (record & Hin & Hdata).
  apply list_elem_of_filter in Hin as [_ Hin].
  change (map snd L) with (snd <$> L) in Hin.
  apply list_elem_of_fmap in Hin as ([key record'] & -> & Hin).
  exists key, record'. split; [done|]. cbn in Hdata.
  destruct (record_data record'); [done|]. by injection Hdata as ->.
Qed.

Lemma rows_one_per_day (L : list (RecordKey * AnalyticsRecord)) (P : AnalyticsRecord → Prop)
    `{!∀ r, Decision (P r)} :
  NoDup (map fst L) →
  (∀ key record usage, (key, record) ∈ L → record_data record = DailyUsage usage →
                       key = daily_usage (formatDateKey (date usage))) →
  NoDup (map (λ u, formatDateKey (date u))
           (omap (λ record, match record_data record with
                            | DailyUsage usage => Some usage
                            | _ => None
                            end) (filter P (map snd L)))).
Proof.
  induction L as [|[key record] L IH]; intros Hnodup Hkeys; [constructor|].
  cbn [map fst snd] in *. apply NoDup_cons in Hnodup as [Hfresh Hnodup].
  assert (NoDup (map (λ u, formatDateKey (date u))
            (omap (λ record, match record_data record with
                             | DailyUsage usage => Some usage
                             | _ => None
                             end) (filter P (map snd L))))) as Hrest.
  { apply IH; [done|]. intros k r u Hin. apply Hkeys. by right. }
  rewrite filter_cons. case_decide as HP; [|done].
  cbn [omap list_omap]. destruct (record_data record) as [|usage] eqn:Hdata; [done|].
  cbn [map]. apply NoDup_cons. split; [|done].
  intros Hin. change (map ?f ?l) with (f <$> l) in Hin.
  apply list_elem_of_fmap in Hin as (usage' & Hday & Hin).
  apply rows_of_records in Hin as (key' & record' & Hin & Hdata').
  apply Hfresh. change (map fst L) with (fst <$> L). apply list_elem_of_fmap.
  exists (key', record'). split; [|done]. cbn.
  rewrite (Hkeys key record usage); [|by left|done].
  rewrite (Hkeys key' record' usage'); [|by right|done]. by rewrite Hday.
Qed.

Lemma getDailyUsageRange_rows startDate endDate w :
  datedRows w →
  ∃ rows, outcome (getDailyUsageRange startDate endDate) w = Returned rows ∧
          NoDup (map (λ u, formatDateKey (date u)) rows) ∧
          Forall (λ u, date u ≤ now w) rows.
Proof.
  intros Hw.
  assert (∀ (P : AnalyticsRecord → Prop) `{!∀ r, Decision (P r)},
            let rows := JS.sort (λ a b, date a - date b)
              (omap (λ record, match record_data record with
                               | DailyUsage usage => Some usage
                               | _ => None
                               end) (filter P (map snd (map_to_list (db_analytics w))))) in
            NoDup (map (λ u, formatDateKey (date u)) rows) ∧
            Forall (λ u, date u ≤ now w) rows) as Hrows.
  { intros P HP rows. subst rows. split.
    - change (map ?f ?l) with (f <$> l). rewrite sort_Permutation.
      apply rows_one_per_day; [apply NoDup_fst_map_to_list|].
      intros key record usage Hin Hdata. apply elem_of_map_to_list in Hin.
      by destruct (Hw key record usage).
    - apply Forall_forall. intros usage Hin. apply elem_of_sort in Hin.
      apply rows_of_records in Hin as (key & record & Hin & Hdata).
      apply elem_of_map_to_list in Hin. by destruct (Hw key record usage). }
  unfold outcome, getDailyUsageRange, request. mred.
  destruct (faults w) as [|[] rest]; mred.
  - eexists. split; [done|]. apply Hrows.
  - exists []. split; [done|]. split; [constructor|constructor].
  - eexists. split; [done|]. apply Hrows.
Qed.

End RowsOfTheRange.

Section DatedRowsOfRuns.
Import AnalyticsService AnalyticsCollectionService.
Context (calc : Calculator).

Lemma step_dated s : forward s → preserves (kept datedRows) (step calc s).
Proof.
  intros Hs. destruct s as [call| |milliseconds]; cbn [step].
  - apply track_dated.
  - apply timerTick_dated.
  - intros w Hw key record usage Hl Hd. cbn in Hs.
    destruct (Hw key record usage Hl Hd) as [? ?]. split; [done|].
    unfold state, write. mred. lia.
Qed.

Lemma run_dated steps :
  Forall forward steps → preserves (kept datedRows) (run calc steps).
Proof.
  unfold run. induction 1 as [|s steps Hs _ IH]; cbn [for_of].
  - apply preserves_ret. apply _.
  - apply preserves_bind; [apply _|by apply step_dated|intros _; exact IH].
Qed.

End DatedRowsOfRuns.

(** Property X25: the storage keeps one daily row for each day: when every
    daily row is stored under the key of its own date and none is dated
    after the clock reading, this is still so after any run of tracking
    calls, timer ticks and pauses of the Collector, after a tracking call
    on the analytics service and after a recomputation of the snapshot,
    whichever requests of the store are rejected on the way. *)
Theorem daily_rows_stay_dated (calc : Calculator) w :
  datedRows w →
  (∀ steps, Forall forward steps →
            datedRows (state (AnalyticsCollectionService.run calc steps) w)) ∧
  (∀ type data, datedRows (state (AnalyticsService.trackEvent type data) w)) ∧
  (∀ contentItems,
     datedRows (state (AnalyticsService.updateUserAnalytics calc contentItems) w)).
Proof.
  intros Hw. split; [|split].
  - intros steps Hsteps. by apply (run_dated calc steps Hsteps w).
  - intros type data.
    assert (preserves (kept datedRows) (AnalyticsService.trackEvent type data)) as Hp
      by preserve.
    by apply Hp.
  - intros contentItems. by apply (updateUserAnalytics_dated calc contentItems w).
Qed.

Lemma startedWorld_dated now_ faults_ : datedRows (startedWorld now_ faults_).
Proof.
  assert (preserves (kept datedRows) startServices) as Hp by preserve.
  apply Hp. intros key record usage Hl. unfold emptyWorld in Hl.
  cbn [db_analytics] in Hl. by rewrite lookup_empty in Hl.
Qed.

Lemma daily_rows_stay_dated_witness :
  datedRows (startedWorld 1700000000000 [true; false]) ∧
  Forall forward twoDaysOfUse ∧
  datedRows (state (AnalyticsCollectionService.run idleCalculator twoDaysOfUse)
               (startedWorld 1700000000000 [true; false])).
Proof.
  pose proof (startedWorld_dated 1700000000000 [true; false]) as Hw.
  assert (Forall forward twoDaysOfUse) as Hsteps.
  { unfold twoDaysOfUse. repeat constructor. by vm_compute. }
  split; [done|]. split; [done|].
  exact (proj1 (daily_rows_stay_dated idleCalculator _ Hw) twoDaysOfUse Hsteps).
Defined.

(** Property X26: on a device that keeps UTC, a store whose daily rows are
    dated gives the streak what it needs: a read of a range of days
    returns rows of distinct days, none dated after the clock reading (the
    empty list when the request is rejected), so that the streak computed
    from them stops exactly at the first day without a created item.  The
    rows are stored under their UTC day, and the streak counts local
    days: nothing is said for other zones. *)
Theorem stored_rows_fit_the_streak startDate endDate w :
  datedRows w →
  (∀ t, timeZone w t = 0) →
  ∃ rows,
    outcome (AnalyticsStorageService.getDailyUsageRange startDate endDate) w = Returned rows ∧
    NoDup (map (λ u, formatDateKey (date u)) rows) ∧
    Forall (λ u, date u ≤ now w) rows ∧
    let streak := AnalyticsService.calculateCurrentStreak (timeZone w) (now w) rows in
    0 ≤ streak ∧
    (∀ i, 0 ≤ i < streak → activeOn (timeZone w) (now w) rows i) ∧
    ¬ activeOn (timeZone w) (now w) rows streak.
Proof.
  intros Hw Hutc.
  destruct (getDailyUsageRange_rows startDate endDate w Hw) as (rows & Hout & Hnodup & Hpast).
  exists rows. split; [done|]. split; [done|]. split; [done|].
  apply calculateCurrentStreak_spec; [|..|done].
  - intros t t'. by rewrite !Hutc.
  - erewrite map_ext; [exact Hnodup|].
    intros u. unfold localDay, formatDateKey. by rewrite Hutc, Z.add_0_r.
Qed.

Lemma twoRowsWorld_dated : datedRows twoRowsWorld.
Proof.
  intros key record usage Hl Hd. unfold twoRowsWorld, emptyWorld in *.
  cbn [update_db_analytics db_analytics now] in *.
  apply lookup_insert_Some in Hl as [[<- <-]|[_ Hl]].
  { cbn [record_data] in Hd. injection Hd as <-. split; [reflexivity|]. by vm_compute. }
  apply lookup_insert_Some in Hl as [[<- <-]|[_ Hl]].
  { cbn [record_data] in Hd. injection Hd as <-. split; [reflexivity|]. by vm_compute. }
  by rewrite lookup_empty in Hl.
Qed.

Lemma stored_rows_fit_the_streak_witness :
  datedRows twoRowsWorld ∧
  ∃ rows,
    outcome (AnalyticsStorageService.getDailyUsageRange
               (1700000000000 - 30 * msPerDay) 1700000000000) twoRowsWorld = Returned rows ∧
    NoDup (map (λ u, formatDateKey (date u)) rows) ∧
    Forall (λ u, date u ≤ now twoRowsWorld) rows ∧
    let streak :=
      AnalyticsService.calculateCurrentStreak (timeZone twoRowsWorld) (now twoRowsWorld) rows in
    0 ≤ streak ∧
    (∀ i, 0 ≤ i < streak → activeOn (timeZone twoRowsWorld) (now twoRowsWorld) rows i) ∧
    ¬ activeOn (timeZone twoRowsWorld) (now twoRowsWorld) rows streak.
Proof.
  split; [exact twoRowsWorld_dated|].
  exact (stored_rows_fit_the_streak _ _ twoRowsWorld twoRowsWorld_dated (λ _, eq_refl)).
Defined.

(** ** The end of a session *)

#[global] Instance isActive_stable : Stable (unchanged isActive).
Proof. apply unchanged_stable. reflexivity. Qed.

Section SessionEnd.
Import AnalyticsService AnalyticsCollectionService.

Lemma flush_empty w :
  activityBuffer w = [] → flushActivityBuffer w = (Returned (), w).
Proof. intros Hb. rewrite flush_unfold, Hb. by case_decide. Qed.

Lemma flush_run w :
  available w →
  ∃ w', flushActivityBuffer w = (Returned (), w') ∧
        available w' ∧ activityBuffer w' = [] ∧
        flushInterval w' = flushInterval w ∧ isActive w' = isActive w ∧
        storedAfter w w' (map bufferedContent (activityBuffer w)).
Proof.
  intros Hf. destruct (flush_available w Hf) as (Hf1 & Hb1 & es & Hes & Hmap).
  destruct (flush_returns w) as [[] Hr].
  assert (preserves (unchanged flushInterval) flushActivityBuffer) as Hi by preserve.
  assert (preserves (unchanged isActive) flushActivityBuffer) as Ha by preserve.
  specialize (Hi w). specialize (Ha w). unfold unchanged, outcome, state in *.
  destruct (flushActivityBuffer w) as [r w']. cbn [fst snd] in *. subst r.
  exists w'. do 5 (split; [done|]). by exists es.
Qed.

Lemma bufferEvent_then_flush type data w :
  available w →
  ∃ w', bind (bufferEvent type data) (λ _, flushActivityBuffer) w = (Returned (), w') ∧
        available w' ∧ activityBuffer w' = [] ∧
        flushInterval w' = flushInterval w ∧
        storedAfter w w' (map bufferedContent (activityBuffer w) ++ [(type, data)]).
Proof.
  intros Hf. unfold bind. rewrite bufferEvent_unfold. cbv zeta.
  set (w1 := update_activityBuffer _ _).
  assert (available w1) as Hf1 by done.
  destruct (flush_run w1 Hf1) as (w2 & Hrun & Hf2 & Hb2 & Hi2 & _ & Hstored).
  assert (storedAfter w w2 (map bufferedContent (activityBuffer w) ++ [(type, data)])) as Hs.
  { destruct Hstored as (es & Hes & Hmap). exists es. split; [done|].
    rewrite Hmap. subst w1. cbn. by rewrite map_app. }
  case_decide.
  - rewrite Hrun. cbn [fst snd]. rewrite (flush_empty w2 Hb2). by exists w2.
  - cbn [fst snd]. rewrite Hrun. by exists w2.
Qed.

End SessionEnd.

(** Property X27: while the store answers, the end of a session stores
    what the buffer holds followed by the event [session_ended] with the
    length of the session, empties the buffer and disarms the timer, so
    that a later firing of the timer changes nothing; [destroy] and a
    pause of the session likewise store what the buffer holds, in its
    order. *)
Theorem session_end_delivers w :
  available w →
  (let w' := state AnalyticsCollectionService.handleSessionEnd w in
   outcome AnalyticsCollectionService.handleSessionEnd w = Returned () ∧
   activityBuffer w' = [] ∧ flushInterval w' = false ∧
   storedAfter w w' (map bufferedContent (activityBuffer w) ++
                     [(session_ended, sessionEnded w)]) ∧
   state AnalyticsCollectionService.timerTick w' = w') ∧
  (let w' := state AnalyticsCollectionService.destroy w in
   activityBuffer w' = [] ∧ flushInterval w' = false ∧
   storedAfter w w' (map bufferedContent (activityBuffer w))) ∧
  (let w' := state AnalyticsCollectionService.handleSessionPause w in
   activityBuffer w' = [] ∧ isActive w' = false ∧
   storedAfter w w' (map bufferedContent (activityBuffer w))).
Proof.
  intros Hf. cbv zeta. split; [|split].
  - destruct (bufferEvent_then_flush session_ended (sessionEnded w) w Hf)
      as (w1 & Hrun & Hf1 & Hb1 & Hi1 & Hs).
    assert (AnalyticsCollectionService.handleSessionEnd w
            = (Returned (), update_flushInterval (λ _, false) w1)) as Hend.
    { unfold AnalyticsCollectionService.handleSessionEnd. mred.
      change (list_to_map _) with (sessionEnded w).
      unfold bind in Hrun.
      destruct (AnalyticsCollectionService.bufferEvent session_ended (sessionEnded w) w)
        as [[[]|e] w0]; [|done].
      by rewrite Hrun. }
    unfold outcome, state. rewrite Hend. cbn [fst snd].
    split; [done|]. split; [done|]. split; [done|]. split; [done|].
    unfold AnalyticsCollectionService.timerTick. by mred.
  - set (w0 := update_flushInterval (λ _, false) w).
    destruct (flush_run w0 Hf) as (w1 & Hrun & _ & Hb1 & Hi1 & _ & Hs).
    unfold state.
    change (AnalyticsCollectionService.destroy w)
      with (AnalyticsCollectionService.flushActivityBuffer w0).
    rewrite Hrun. by cbn [snd].
  - set (w0 := update_isActive (λ _, false) w).
    destruct (flush_run w0 Hf) as (w1 & Hrun & _ & Hb1 & _ & Ha1 & Hs).
    unfold state.
    change (AnalyticsCollectionService.handleSessionPause w)
      with (AnalyticsCollectionService.flushActivityBuffer w0).
    rewrite Hrun. by cbn [snd].
Qed.

Lemma session_end_delivers_witness :
  let w := state (AnalyticsCollectionService.run idleCalculator searchWaitFlush)
                 (startedWorld 1700000000000 []) in
  available w ∧
  map (λ e, event_type e)
    (db_events (state AnalyticsCollectionService.handleSessionEnd w)) =
    [session_started; search_performed; session_ended] ∧
  flushInterval (state AnalyticsCollectionService.handleSessionEnd w) = false.
Proof.
  cbv zeta.
  set (w := state (AnalyticsCollectionService.run idleCalculator searchWaitFlush)
                  (startedWorld 1700000000000 [])).
  assert (available w) as Hf by reflexivity.
  destruct (session_end_delivers w Hf) as ((_ & _ & Hi & (stored & Hes & Hmap) & _) & _).
  split; [done|]. split; [|done].
  rewrite Hes, map_app.
  replace (map (λ e, event_type e) stored) with (map fst (map eventContent stored))
    by (by rewrite map_map).
  rewrite Hmap. by vm_compute.
Defined.

(** ** What the daily rows never hold *)

#[global] Hint Unfold untimedRows : relations.

#[global] Instance untimedRows_stable : Stable (kept untimedRows).
Proof. apply kept_stable. intros w b rest _ Hw. exact Hw. Qed.

Section UntimedRows.
Import AnalyticsStorageService.

Lemma applyEvent_untimed event usage :
  timeSpent (applyEvent event usage) = timeSpent usage ∧
  productivityScore (applyEvent event usage) = productivityScore usage.
Proof. unfold applyEvent. by destruct (event_type event). Qed.

Lemma untimedRows_insert w key usage type timestamp version :
  untimedRows w → timeSpent usage = 0%Q → productivityScore usage = 0 →
  ∀ key' record usage',
    <[key := {| record_id := key;
                record_type := type;
                record_data := DailyUsage usage;
                record_timestamp := timestamp;
                record_version := version |}]> (db_analytics w) !! key' = Some record →
    record_data record = DailyUsage usage' →
    timeSpent usage' = 0%Q ∧ productivityScore usage' = 0.
Proof.
  intros Hw Ht Hs key' record usage' Hl Hd.
  destruct (decide (key' = key)) as [->|Hne].
  - rewrite lookup_insert_eq in Hl. injection Hl as <-. cbn in Hd. by injection Hd as <-.
  - rewrite lookup_insert_ne in Hl; [|done]. by eapply Hw.
Qed.

Lemma getDailyUsage_untimed today w :
  untimedRows w →
  untimedRows (state (getDailyUsage today) w) ∧
  ∃ stored, outcome (getDailyUsage today) w = Returned stored ∧
    ∀ usage, stored = Some usage → timeSpent usage = 0%Q ∧ productivityScore usage = 0.
Proof.
  intros Hw. unfold state, outcome, getDailyUsage, request. mred.
  destruct (faults w) as [|[] rest]; mred.
  - split; [done|]. eexists. split; [done|]. intros usage Hs.
    destruct (db_analytics w !! daily_usage (formatDateKey today)) as [[? ? [] ? ?]|] eqn:Hl;
      try done.
    injection Hs as ->. by eapply Hw.
  - split; [done|]. by eexists.
  - split; [done|]. eexists. split; [done|]. intros usage Hs.
    destruct (db_analytics w !! daily_usage (formatDateKey today)) as [[? ? [] ? ?]|] eqn:Hl;
      try done.
    injection Hs as ->. by eapply Hw.
Qed.

Lemma saveDailyUsage_untimed today usage w :
  untimedRows w → timeSpent usage = 0%Q → productivityScore usage = 0 →
  untimedRows (state (saveDailyUsage today usage) w).
Proof.
  intros Hw Ht Hs. unfold state, saveDailyUsage, request. mred.
  destruct (faults w) as [|[] rest]; mred.
  - intros key record usage' Hl Hd. cbn [db_analytics record_id] in Hl.
    by eapply untimedRows_insert.
  - done.
  - intros key record usage' Hl Hd. cbn [db_analytics record_id] in Hl.
    by eapply untimedRows_insert.
Qed.

Lemma updateRealTimeMetrics_untimed event :
  preserves (kept untimedRows) (updateRealTimeMetrics event).
Proof.
  intros w Hw. unfold state, updateRealTimeMetrics, try_catch, bind, read. cbn [fst snd].
  destruct (getDailyUsage_untimed (now w) w Hw) as (Hw1 & stored & Hout & Hstored).
  unfold state, outcome in Hw1, Hout.
  destruct (getDailyUsage (now w) w) as [r w1]. cbn [fst snd] in *. subst r.
  assert (untimedRows (state (saveDailyUsage (now w)
            (applyEvent event (default (createEmptyDailyUsage (now w)) stored))) w1)) as Hw2.
  { destruct (applyEvent_untimed event (default (createEmptyDailyUsage (now w)) stored))
      as [Ht Hs].
    apply saveDailyUsage_untimed; [done| |].
    - rewrite Ht. destruct stored as [usage|]; [by apply (Hstored usage)|done].
    - rewrite Hs. destruct stored as [usage|]; [by apply (Hstored usage)|done]. }
  unfold state in Hw2.
  by destruct (saveDailyUsage _ _ w1) as [[?|?] w2].
Qed.

Lemma saveUserAnalytics_untimed analytics :
  preserves (kept untimedRows) (saveUserAnalytics analytics).
Proof.
  intros w Hw. unfold state, saveUserAnalytics, request. mred.
  assert (∀ timestamp key record usage,
            <[user_analytics_current :=
                {| record_id := user_analytics_current;
                   record_type := type_user_analytics;
                   record_data := UserAnalyticsData analytics;
                   record_timestamp := timestamp;
                   record_version := 1 |}]> (db_analytics w) !! key = Some record →
            record_data record = DailyUsage usage →
            timeSpent usage = 0%Q ∧ productivityScore usage = 0) as Hput.
  { intros timestamp key record usage Hl Hd.
    destruct (decide (key = user_analytics_current)) as [->|Hne].
    - rewrite lookup_insert_eq in Hl. by injection Hl as <-.
    - rewrite lookup_insert_ne in Hl; [|done]. by eapply Hw. }
  destruct (faults w) as [|[] rest]; mred.
  - intros key record usage Hl Hd. cbn [db_analytics record_id] in Hl. by eapply Hput.
  - done.
  - intros key record usage Hl Hd. cbn [db_analytics record_id] in Hl. by eapply Hput.
Qed.

End UntimedRows.

Section UntimedRowsKept.
Import AnalyticsService AnalyticsCollectionService.
Context (calc : Calculator).

#[local] Hint Resolve updateRealTimeMetrics_untimed saveUserAnalytics_untimed : frames.

Lemma track_untimed call : preserves (kept untimedRows) (track calc call).
Proof. preserve. Qed.

Lemma timerTick_untimed : preserves (kept untimedRows) timerTick.
Proof. preserve. Qed.

Lemma run_untimed steps : preserves (kept untimedRows) (run calc steps).
Proof.
  unfold run. apply preserves_for_of; [apply _|]. intros [call| |milliseconds]; cbn [step].
  - apply track_untimed.
  - apply timerTick_untimed.
  - preserve.
Qed.

Lemma startServices_untimed : preserves (kept untimedRows) startServices.
Proof. preserve. Qed.

End UntimedRowsKept.

(** Claim C2: against the claim, the real-time update of today's row by
    the storage service adds the duration of a completed recording as it
    is, in seconds, to [recordingMinutes] (stated for whole numbers of
    minutes and seconds), and changes neither [timeSpent] nor
    [productivityScore]; the counters of the four matched event types are
    changed as claimed.  The Collector's [updateProductivityMetrics],
    which divides the duration by 60, adds it to [timeSpent] and
    recomputes the quick score, stores nothing on an initialized service,
    and no run of the Collector ever stores a daily row with time spent
    or a score. *)
Theorem realtime_update_stores_raw_duration (calc : Calculator) :
  (∀ w type data, available w →
     let row := todayUsage w in
     let row' := todayUsage (state (AnalyticsStorageService.trackEvent type data) w) in
     (type = voice_recording_completed →
        (∀ minutes seconds : Z,
           Z.abs minutes ≤ wholeLimit → Z.abs seconds ≤ wholeLimit →
           (recordingMinutes row == inject_Z minutes)%Q →
           (numberOr0 data "duration" == inject_Z seconds)%Q →
           (recordingMinutes row' == inject_Z (minutes + seconds))%Q) ∧
        itemsCreated row' = itemsCreated row + 1 ∧
        documentsProcessed row' = documentsProcessed row ∧
        searchCount row' = searchCount row ∧ itemsDeleted row' = itemsDeleted row) ∧
     (type = file_upload_completed →
        documentsProcessed row' = documentsProcessed row + 1 ∧
        itemsCreated row' = itemsCreated row + 1 ∧
        recordingMinutes row' = recordingMinutes row ∧
        searchCount row' = searchCount row ∧ itemsDeleted row' = itemsDeleted row) ∧
     (type = search_performed →
        searchCount row' = searchCount row + 1 ∧
        recordingMinutes row' = recordingMinutes row ∧
        documentsProcessed row' = documentsProcessed row ∧
        itemsCreated row' = itemsCreated row ∧ itemsDeleted row' = itemsDeleted row) ∧
     (type = item_deleted →
        itemsDeleted row' = itemsDeleted row + 1 ∧
        recordingMinutes row' = recordingMinutes row ∧
        documentsProcessed row' = documentsProcessed row ∧
        itemsCreated row' = itemsCreated row ∧ searchCount row' = searchCount row) ∧
     timeSpent row' = timeSpent row ∧
     productivityScore row' = productivityScore row) ∧
  (∀ w activityType duration, initialized w = true →
     let m := AnalyticsCollectionService.updateProductivityMetrics calc activityType duration in
     outcome m w = Returned () ∧ db_analytics (state m w) = db_analytics w) ∧
  (∀ w steps, untimedRows w →
     untimedRows (state (AnalyticsCollectionService.run calc steps) w)).
Proof.
  split; [|split].
  - intros w type data Hf. cbv zeta.
    rewrite storage_trackEvent_todayUsage by done.
    unfold AnalyticsStorageService.applyEvent. cbn [eventAt event_type].
    split; [|repeat split; try (intros ->; done); by destruct type].
    intros ->. cbn [event_data recordingMinutes set_recordingMinutes set_itemsCreated
                    itemsCreated documentsProcessed searchCount itemsDeleted].
    split; [|done].
    intros minutes seconds _ _ Hm Hs. by rewrite Hm, Hs, inject_Z_plus.
  - intros w activityType duration Hi. cbv zeta.
    destruct (updateProductivityMetrics_returns calc activityType duration w) as [[] Hr].
    split; [done|]. by apply (updateProductivityMetrics_settled calc activityType duration w).
  - intros w steps Hw. by apply (run_untimed calc steps w).
Qed.

Lemma realtime_update_stores_raw_duration_witness :
  let w := startedWorld 1700000000000 [] in
  ((recordingMinutes
      (todayUsage (state (AnalyticsStorageService.trackEvent voice_recording_completed
                            twoMinuteRecording) w))
    == 120)%Q ∧
   timeSpent
     (todayUsage (state (AnalyticsStorageService.trackEvent voice_recording_completed
                           twoMinuteRecording) w))
   = timeSpent (todayUsage w)) ∧
  untimedRows
    (state (AnalyticsCollectionService.run idleCalculator
              [AnalyticsCollectionService.Track
                 (AnalyticsCollectionService.VoiceRecordingComplete 120 40 high);
               AnalyticsCollectionService.TimerFires]) w).
Proof.
  cbv zeta.
  destruct (realtime_update_stores_raw_duration idleCalculator) as (Hrow & _ & Hrun).
  split.
  - destruct (Hrow (startedWorld 1700000000000 []) voice_recording_completed
                twoMinuteRecording eq_refl) as (Hvoice & _ & _ & _ & Htime & _).
    destruct (Hvoice eq_refl) as (Hminutes & _).
    split; [|exact Htime].
    apply (Hminutes 0 120); [by vm_compute|by vm_compute|by vm_compute|by vm_compute].
  - apply Hrun.
    assert (preserves (kept untimedRows) startServices) as Hp by apply startServices_untimed.
    apply Hp. intros key record usage Hl. unfold emptyWorld in Hl.
    cbn [db_analytics] in Hl. by rewrite lookup_empty in Hl.
Defined.
